(** * ExSIP: the SUBSCRIBE/NOTIFY engine (Subscriber and Subscription)

    A shallow embedding of [ExSIP.Subscriber] and [ExSIP.Subscription].
    Every method of the two prototypes becomes a computation in a small
    state-and-failure monad over a [World]: the one Subscriber under study,
    the store of the Subscription objects it created, the live [window]
    timers, the session registry of the user agent and the log of the calls
    that leave the engine (requests handed to the request sender, replies,
    application callbacks, dialog teardown).

    Conventions.
    - JavaScript numbers occurring here are integral (header values produced
      by the grammar, sequence numbers, status codes, delays): they are [Z].
    - A property that may be [undefined] or [null] is an [option].
    - [console] output guarded by [ua.isDebug()] is not part of the model.
    - The log is kept newest first.

    The transport ([ExSIP.Transport]) and the DTMF of a session
    ([ExSIP.RTCSession.DTMF]) are embedded in the same way, each over a
    state of its own: the transport with the store of its WebSockets and
    its reconnect timers, the DTMF with the outcome of a computation that
    may throw. *)

From Stdlib Require Import ZArith Ascii String DecimalString DecimalZ.
From stdpp Require Import base decidable option numbers strings list gmap sorting.

Local Open Scope string_scope.

(** ** JavaScript values *)

(** [String(n)] for an integral number. *)
Definition ToString (n : Z) : string := NilZero.string_of_int (Z.to_int n).

(** [ToBoolean] on a value that is [undefined] or a number: [undefined], and
    the number zero, are falsy. *)
Definition truthy (v : option Z) : bool :=
  match v with
  | Some n => negb (n =? 0)%Z
  | None => false
  end.

(** [a || b], for [a] possibly undefined and [b] a number. *)
Definition js_or (a : option Z) (b : Z) : Z :=
  match a with
  | Some n => if truthy a then n else b
  | None => b
  end.

(** What a variable that is meant to hold an object may contain:
    [undefined], [null], [false] or an object. *)
Inductive js_value (O : Type) : Type :=
| js_undefined
| js_null
| js_false
| js_object (o : O).
Arguments js_undefined {O}.
Arguments js_null {O}.
Arguments js_false {O}.
Arguments js_object {O} o.

(** [ToBoolean] on such a value: only an object is truthy. *)
Definition ToBoolean {O : Type} (v : js_value O) : bool :=
  match v with
  | js_undefined | js_null | js_false => false
  | js_object _ => true
  end.

(** [new F(...)]: the value of the expression is the object the constructor
    returns when it returns an object, and the freshly allocated [this]
    otherwise (no [return], or [return] of a primitive such as [false]). *)
Definition js_new {O : Type} (this : O) (returned : js_value O) : js_value O :=
  match returned with
  | js_object o => js_object o
  | _ => js_object this
  end.

(** [/^c[0-9]{2}$/.test(status_code)]: the number is converted to its
    decimal string, which must be the character [c] and two digits. *)
Definition is_digit (c : ascii) : bool :=
  (48 <=? nat_of_ascii c)%nat && (nat_of_ascii c <=? 57)%nat.

Definition test_class (lead : ascii) (status_code : Z) : bool :=
  match ToString status_code with
  | String c (String d1 (String d2 EmptyString)) =>
      Ascii.eqb c lead && is_digit d1 && is_digit d2
  | _ => false
  end.

Definition test_1xx : Z -> bool := test_class "1"%char.
Definition test_2xx : Z -> bool := test_class "2"%char.

(** [array.indexOf(x)] with strict equality on numbers: the first index of
    [x], or [-1]. *)
Fixpoint indexOf_from (i : Z) (x : Z) (l : list Z) : Z :=
  match l with
  | [] => (-1)%Z
  | y :: l' => if (x =? y)%Z then i else indexOf_from (i + 1)%Z x l'
  end.

Definition indexOf (l : list Z) (x : Z) : Z := indexOf_from 0%Z x l.

(** ** A JavaScript object used as a map: keys in insertion order *)

Section JsObject.
Context {V : Type}.

Fixpoint obj_get (k : string) (o : list (string * V)) : option V :=
  match o with
  | [] => None
  | (k', v) :: o' => if decide (k = k') then Some v else obj_get k o'
  end.

(** [o[k] = v]: an existing key keeps its place, a new one goes last. *)
Fixpoint obj_set (k : string) (v : V) (o : list (string * V)) : list (string * V) :=
  match o with
  | [] => [(k, v)]
  | (k', v') :: o' =>
      if decide (k = k') then (k, v) :: o' else (k', v') :: obj_set k v o'
  end.

(** [delete o[k]]. *)
Fixpoint obj_delete (k : string) (o : list (string * V)) : list (string * V) :=
  match o with
  | [] => []
  | (k', v') :: o' =>
      if decide (k = k') then obj_delete k o' else (k', v') :: obj_delete k o'
  end.

(** [Object.keys(o)]. *)
Definition obj_keys (o : list (string * V)) : list string := o.*1.
End JsObject.

(** ** Messages *)

(** The causes handed to [onFailure] ([ExSIP.C....]). *)
Inductive cause : Type :=
| EXPIRES_HEADER_MISSING
| INVALID_EXPIRES_HEADER
| REQUEST_TIMEOUT
| CONNECTION_ERROR.

(** The parsed [Subscription-State] header of a NOTIFY. *)
Record Subscription_State : Type := {
  ss_state : string;
  ss_expires : option Z;
  ss_reason : option string
}.

(** An inbound NOTIFY, as far as the engine reads it.  A header that is
    absent is [None]: [hasHeader] is [false] and [s(...)] is [undefined]. *)
Record IncomingRequest : Type := {
  req_call_id : string;
  req_from_tag : string;
  req_to_tag : string;
  req_Event : option string;
  req_Subscription_State : option Subscription_State;
  req_record_route : list string;
  req_body : string
}.

(** A response to a SUBSCRIBE, as far as the engine reads it: the parsed
    [Expires] value ([undefined] without the header), the [Record-Route]
    headers, the tag of [To], and the number of [CSeq] (on which
    [parseInt(_, 10)] changes nothing). *)
Record IncomingResponse : Type := {
  status_code : Z;
  rsp_Expires : option Z;
  rsp_record_route : list string;
  rsp_to_tag : option string;
  rsp_cseq : Z
}.

(** The [params] object given to the request constructor. *)
Record Params : Type := {
  p_from_tag : option string;
  p_to_uri : option string;
  p_call_id : option string;
  p_cseq : option Z
}.

Definition empty_params : Params :=
  {| p_from_tag := None; p_to_uri := None; p_call_id := None; p_cseq := None |}.

(** Modelled from the spec: [ExSIP.OutgoingRequest] is not among the sources.
    The request keeps what it is constructed from (method, target, [params]
    with [cseq]/[call_id]/[to_uri], the extra headers) and the headers set
    on it afterwards; its [Call-ID] header is [params.call_id]. *)
Record OutgoingRequest : Type := {
  or_method : string;
  or_ruri : string;
  or_params : Params;
  or_extraHeaders : list string;
  or_headers : list (string * string)
}.

Definition SUBSCRIBE : string := "SUBSCRIBE".

Definition OutgoingRequest_new (method ruri : string) (params : Params)
    (extraHeaders : list string) : OutgoingRequest :=
  {| or_method := method; or_ruri := ruri; or_params := params;
     or_extraHeaders := extraHeaders; or_headers := [] |}.

Definition setHeader (name : string) (value : Z) (r : OutgoingRequest) : OutgoingRequest :=
  {| or_method := or_method r; or_ruri := or_ruri r; or_params := or_params r;
     or_extraHeaders := or_extraHeaders r;
     or_headers := obj_set name (ToString value) (or_headers r) |}.

Definition header_Call_ID (r : OutgoingRequest) : string :=
  default "" (p_call_id (or_params r)).

(** ** Dialogs *)

Inductive dialog_type : Type := UAC | UAS.

(** Modelled from the spec: [ExSIP.Dialog] is not among the sources.  A
    dialog is constructible from (owner, message, role) and exposes its
    identifier, a mutable [route_set], a mutable [local_seqnum] and
    [terminate()].  The identifier is a property like the others: an
    object whose constructor gave up before setting it has none, and
    [id] is [undefined] on it. *)
Record Dialog : Type := {
  dialog_id : option string;
  route_set : option (list string);
  local_seqnum : option Z
}.

Definition set_route_set (v : option (list string)) (d : Dialog) : Dialog :=
  {| dialog_id := dialog_id d; route_set := v; local_seqnum := local_seqnum d |}.

Definition set_local_seqnum (v : option Z) (d : Dialog) : Dialog :=
  {| dialog_id := dialog_id d; route_set := route_set d; local_seqnum := v |}.

(** ** The two entities *)

(** Subscription objects live in a store and are named by their address:
    timers and transactions keep referring to a Subscription after it has
    been removed from its Subscriber's map. *)
Abbreviation ref := nat (only parsing).

Record Subscription : Type := {
  sn_id : option string;
  sn_state : string;
  sn_expires : Z;
  sn_dialog : js_value Dialog;
  sn_N : option nat
}.

Definition sn_set_id (v : option string) (s : Subscription) : Subscription :=
  {| sn_id := v; sn_state := sn_state s; sn_expires := sn_expires s;
     sn_dialog := sn_dialog s; sn_N := sn_N s |}.

Definition sn_set_state (v : string) (s : Subscription) : Subscription :=
  {| sn_id := sn_id s; sn_state := v; sn_expires := sn_expires s;
     sn_dialog := sn_dialog s; sn_N := sn_N s |}.

Definition sn_set_expires (v : Z) (s : Subscription) : Subscription :=
  {| sn_id := sn_id s; sn_state := sn_state s; sn_expires := v;
     sn_dialog := sn_dialog s; sn_N := sn_N s |}.

Definition sn_set_dialog (v : js_value Dialog) (s : Subscription) : Subscription :=
  {| sn_id := sn_id s; sn_state := sn_state s; sn_expires := sn_expires s;
     sn_dialog := v; sn_N := sn_N s |}.

Definition sn_set_N (v : option nat) (s : Subscription) : Subscription :=
  {| sn_id := sn_id s; sn_state := sn_state s; sn_expires := sn_expires s;
     sn_dialog := sn_dialog s; sn_N := v |}.

(** [error_codes], the same array in every instance. *)
Definition error_codes : list Z :=
  [404; 405; 410; 416; 480; 481; 482; 483; 484; 485; 489; 501; 604]%Z.

(** The Subscriber.  [event] and [expires] are not set by [initSubscriber];
    whoever builds on the prototype sets them before [subscribe()]. *)
Record Subscriber : Type := {
  state : option string;
  N : option nat;
  subscriptions : list (string * nat);
  call_id : string;
  cseq : Z;
  to_uri : string;
  contact : string;
  event : string;
  expires : Z;
  id : option string;
  route_set_2xx : option (list string);
  to_tag_2xx : option string;
  initial_local_seqnum : option Z
}.

Definition set_state (v : option string) (s : Subscriber) : Subscriber :=
  {| state := v; N := N s; subscriptions := subscriptions s; call_id := call_id s;
     cseq := cseq s; to_uri := to_uri s; contact := contact s; event := event s;
     expires := expires s; id := id s; route_set_2xx := route_set_2xx s;
     to_tag_2xx := to_tag_2xx s; initial_local_seqnum := initial_local_seqnum s |}.

Definition set_N (v : option nat) (s : Subscriber) : Subscriber :=
  {| state := state s; N := v; subscriptions := subscriptions s; call_id := call_id s;
     cseq := cseq s; to_uri := to_uri s; contact := contact s; event := event s;
     expires := expires s; id := id s; route_set_2xx := route_set_2xx s;
     to_tag_2xx := to_tag_2xx s; initial_local_seqnum := initial_local_seqnum s |}.

Definition set_subscriptions (v : list (string * nat)) (s : Subscriber) : Subscriber :=
  {| state := state s; N := N s; subscriptions := v; call_id := call_id s;
     cseq := cseq s; to_uri := to_uri s; contact := contact s; event := event s;
     expires := expires s; id := id s; route_set_2xx := route_set_2xx s;
     to_tag_2xx := to_tag_2xx s; initial_local_seqnum := initial_local_seqnum s |}.

Definition set_cseq (v : Z) (s : Subscriber) : Subscriber :=
  {| state := state s; N := N s; subscriptions := subscriptions s; call_id := call_id s;
     cseq := v; to_uri := to_uri s; contact := contact s; event := event s;
     expires := expires s; id := id s; route_set_2xx := route_set_2xx s;
     to_tag_2xx := to_tag_2xx s; initial_local_seqnum := initial_local_seqnum s |}.

Definition set_id (v : option string) (s : Subscriber) : Subscriber :=
  {| state := state s; N := N s; subscriptions := subscriptions s; call_id := call_id s;
     cseq := cseq s; to_uri := to_uri s; contact := contact s; event := event s;
     expires := expires s; id := v; route_set_2xx := route_set_2xx s;
     to_tag_2xx := to_tag_2xx s; initial_local_seqnum := initial_local_seqnum s |}.

(** The three fields captured together from the 2xx to the initial SUBSCRIBE. *)
Definition set_2xx (rs : list string) (tag : option string) (seqnum : Z)
    (s : Subscriber) : Subscriber :=
  {| state := state s; N := N s; subscriptions := subscriptions s; call_id := call_id s;
     cseq := cseq s; to_uri := to_uri s; contact := contact s; event := event s;
     expires := expires s; id := id s; route_set_2xx := Some rs;
     to_tag_2xx := tag; initial_local_seqnum := Some seqnum |}.

(** ** The world around them *)

(** What the engine reads from the user agent and from globals. *)
Record Environment : Type := {
  configuration_uri : string;
  ua_contact : string;
  registrar_server : string;
  supported_methods : list string;
  Timers_T1 : Z;
  clock : string
}.

(** Modelled from the spec: [ExSIP.Utils.getAllowedMethods] is not among the
    sources; the [Allow] value is the comma-joined supported methods. *)
Definition getAllowedMethods (env : Environment) : string :=
  String.concat "," (supported_methods env).

(** The callback a timer runs when it fires. *)
Inductive timer_callback : Type :=
| subscriber_timer_N
| subscription_timer_N (r : ref).

(** The three request applicants built by [new function() {...}]. *)
Inductive applicant : Type :=
| initial_subscribe
| renewal (r : ref)
| unsubscription (r : ref).

(** Calls that leave the engine, and the notification from a Subscription
    to its Subscriber. *)
Inductive call : Type :=
| request_sender_send (by_ : applicant) (request : OutgoingRequest)
| reply (request : IncomingRequest) (code : Z) (reason : string) (extra : list string)
| onFailure (response : option IncomingResponse) (c : option cause)
| onTerminate
| receiveInfo (request : IncomingRequest)
| dialog_terminate (d : Dialog)
| onSubscriptionTerminate (r : ref).

Record World : Type := {
  env : Environment;
  subscriber : Subscriber;
  store : gmap nat Subscription;
  next_ref : nat;
  timers : gmap nat (timer_callback * Z);
  next_timer : nat;
  sessions : gset string;
  log : list call
}.

Definition with_subscriber (v : Subscriber) (w : World) : World :=
  {| env := env w; subscriber := v; store := store w; next_ref := next_ref w;
     timers := timers w; next_timer := next_timer w; sessions := sessions w;
     log := log w |}.

Definition with_store (v : gmap nat Subscription) (n : nat) (w : World) : World :=
  {| env := env w; subscriber := subscriber w; store := v; next_ref := n;
     timers := timers w; next_timer := next_timer w; sessions := sessions w;
     log := log w |}.

Definition with_timers (v : gmap nat (timer_callback * Z)) (n : nat) (w : World) : World :=
  {| env := env w; subscriber := subscriber w; store := store w; next_ref := next_ref w;
     timers := v; next_timer := n; sessions := sessions w; log := log w |}.

Definition with_sessions (v : gset string) (w : World) : World :=
  {| env := env w; subscriber := subscriber w; store := store w; next_ref := next_ref w;
     timers := timers w; next_timer := next_timer w; sessions := v; log := log w |}.

Definition with_log (v : list call) (w : World) : World :=
  {| env := env w; subscriber := subscriber w; store := store w; next_ref := next_ref w;
     timers := timers w; next_timer := next_timer w; sessions := sessions w;
     log := v |}.

(** ** Computations: state passing, [None] for an uncaught [TypeError] *)

Definition M (A : Type) : Type := World -> option (A * World).

Definition M_ret {A : Type} (a : A) : M A := fun w => Some (a, w).

Definition M_bind {A B : Type} (f : A -> M B) (m : M A) : M B :=
  fun w => match m w with
           | Some (a, w') => f a w'
           | None => None
           end.

#[global] Instance M_MRet : MRet M := @M_ret.
#[global] Instance M_MBind : MBind M := @M_bind.

Definition TypeError {A : Type} : M A := fun _ => None.

(** The world a computation leaves behind. *)
Definition exec {A : Type} (m : M A) (w : World) : option World :=
  snd <$> m w.

Definition get_env : M Environment := fun w => Some (env w, w).

Definition get_subscriber : M Subscriber := fun w => Some (subscriber w, w).

Definition modify_subscriber (f : Subscriber -> Subscriber) : M unit :=
  fun w => Some (tt, with_subscriber (f (subscriber w)) w).

(** Reading a Subscription object through its address. *)
Definition get_subscription (r : ref) : M Subscription :=
  fun w => match store w !! r with
           | Some s => Some (s, w)
           | None => None
           end.

Definition modify_subscription (r : ref) (f : Subscription -> Subscription) : M unit :=
  fun w => match store w !! r with
           | Some s => Some (tt, with_store (<[r := f s]> (store w)) (next_ref w) w)
           | None => None
           end.

(** Allocation of a new Subscription object. *)
Definition alloc (s : Subscription) : M ref :=
  fun w => Some (next_ref w, with_store (<[next_ref w := s]> (store w)) (S (next_ref w)) w).

Definition emit (c : call) : M unit :=
  fun w => Some (tt, with_log (c :: log w) w).

(** [window.setTimeout(callback, delay)]: a fresh handle. *)
Definition setTimeout (cb : timer_callback) (delay : Z) : M nat :=
  fun w => Some (next_timer w,
                 with_timers (<[next_timer w := (cb, delay)]> (timers w)) (S (next_timer w)) w).

(** [window.clearTimeout(handle)]: nothing happens for [null] or for a
    handle that is no longer live. *)
Definition cleared (h : option nat) (t : gmap nat (timer_callback * Z))
    : gmap nat (timer_callback * Z) :=
  match h with
  | Some n => delete n t
  | None => t
  end.

Definition clearTimeout (h : option nat) : M unit :=
  fun w => Some (tt, with_timers (cleared h (timers w)) (next_timer w) w).

Definition modify_sessions (f : gset string -> gset string) : M unit :=
  fun w => Some (tt, with_sessions (f (sessions w)) w).

(** [for (key in object) body]: the keys in insertion order. *)
Fixpoint for_in (keys : list string) (body : string -> M unit) : M unit :=
  match keys with
  | [] => mret tt
  | k :: keys' => body k ;; for_in keys' body
  end.

(** ** ExSIP.Subscriber.prototype, first part *)

(** [initSubscriber(ua)]; the random Call-ID token is an argument, and so
    are the [event] and [expires] the caller gives the new object. *)
Definition initSubscriber (e : Environment) (token : string) (ev : string)
    (exp : Z) : Subscriber :=
  {| state := None; N := None; subscriptions := []; call_id := token;
     cseq := 80; to_uri := configuration_uri e; contact := ua_contact e;
     event := ev; expires := exp; id := None; route_set_2xx := None;
     to_tag_2xx := None; initial_local_seqnum := None |}.

(** [createSubscribeRequest(dialog, params)].  The [dialog] argument is not
    used by the body. *)
Definition createSubscribeRequest (dialog : js_value Dialog)
    (params : option Params) : M OutgoingRequest :=
  let params := default empty_params params in
  this ← get_subscriber;
  e ← get_env;
  let cseq' := (cseq this + 1)%Z in
  modify_subscriber (set_cseq cseq') ;;
  let params :=
    {| p_from_tag := p_from_tag params; p_to_uri := Some (to_uri this);
       p_call_id := Some (call_id this); p_cseq := Some cseq' |} in
  let extraHeaders :=
    [ "Contact: " +:+ contact this;
      "Event: message-summary";
      "Date: " +:+ clock e;
      "Accept: application/simple-message-summary";
      "Allow: " +:+ getAllowedMethods e ] in
  mret (OutgoingRequest_new SUBSCRIBE (registrar_server e) params extraHeaders).

(** ** ExSIP.Subscription.prototype.unsubscribe *)

(** The applicant of [unsubscribe()] has an empty [receiveResponse] and
    handlers that only report. *)
Definition Subscription_unsubscribe_receiveResponse (r : ref)
    (response : IncomingResponse) : M unit :=
  mret tt.

Definition Subscription_unsubscribe_onRequestTimeout (r : ref) : M unit :=
  emit (onFailure None (Some REQUEST_TIMEOUT)).

Definition Subscription_unsubscribe_onTransportError (r : ref) : M unit :=
  emit (onFailure None (Some CONNECTION_ERROR)).

Definition Subscription_unsubscribe (r : ref) : M unit :=
  modify_subscription r (sn_set_state "terminated") ;;
  subscription ← get_subscription r;
  request ← createSubscribeRequest (sn_dialog subscription) None;
  let request := setHeader "Expires" 0 request in
  (* this.send() *)
  e ← get_env;
  clearTimeout (sn_N subscription) ;;
  h ← setTimeout (subscription_timer_N r) (Timers_T1 e * 64)%Z;
  modify_subscription r (sn_set_N (Some h)) ;;
  emit (request_sender_send (unsubscription r) request).

(** ** ExSIP.Subscriber.prototype, second part *)

(** [this.subscriptions[subscription].unsubscribe()], the body of the loop
    in [close()]. *)
Definition unsubscribe_at (key : string) : M unit :=
  this ← get_subscriber;
  match obj_get key (subscriptions this) with
  | Some r => Subscription_unsubscribe r
  | None => TypeError
  end.

Definition Subscriber_close : M unit :=
  this ← get_subscriber;
  if decide (state this ≠ Some "terminated") then
    modify_subscriber (set_state (Some "terminated")) ;;
    clearTimeout (N this) ;;
    for_in (obj_keys (subscriptions this)) unsubscribe_at ;;
    this ← get_subscriber;
    modify_sessions (fun ss => match id this with
                               | Some i => ss ∖ {[ i ]}
                               | None => ss
                               end) ;;
    emit onTerminate
  else mret tt.

Definition Subscriber_timer_N : M unit := Subscriber_close.

Definition Subscriber_onSubscriptionTerminate (r : ref) : M unit :=
  emit (onSubscriptionTerminate r) ;;
  subscription ← get_subscription r;
  modify_subscriber (fun s =>
    match sn_id subscription with
    | Some i => set_subscriptions (obj_delete i (subscriptions s)) s
    | None => s
    end) ;;
  this ← get_subscriber;
  if decide (length (obj_keys (subscriptions this)) = 0) then Subscriber_close
  else mret tt.



(** [matchEvent(request)]. *)
Definition Subscriber_matchEvent (request : IncomingRequest) : M bool :=
  match req_Event request with
  | None => mret false
  | Some ev =>
      match req_Subscription_State request with
      | None => mret false
      | Some _ =>
          this ← get_subscriber;
          if decide (event this ≠ ev) then
            emit (reply request 481 "Event Match Failed" []) ;;
            mret false
          else mret true
      end
  end.

(** [subscribe()]; the fresh tag of [ExSIP.Utils.newTag()] is an argument. *)
Definition Subscriber_subscribe (from_tag : string) : M unit :=
  this ← get_subscriber;
  if decide (state this ∈ [Some "notify_wait"; Some "pending"; Some "active";
                           Some "terminated"]) then
    mret tt
  else
    request ← createSubscribeRequest js_null
      (Some {| p_from_tag := Some from_tag; p_to_uri := None; p_call_id := None;
               p_cseq := None |});
    (* this.send() *)
    e ← get_env;
    let i := header_Call_ID request +:+ from_tag in
    modify_subscriber (set_id (Some i)) ;;
    modify_sessions (fun ss => {[ i ]} ∪ ss) ;;
    modify_subscriber (set_state (Some "notify_wait")) ;;
    h ← setTimeout subscriber_timer_N (Timers_T1 e * 64)%Z;
    modify_subscriber (set_N (Some h)) ;;
    emit (request_sender_send initial_subscribe request).

(** The test [expires && expires <= requested] on a header value that is a
    number or [undefined]: the number it lets through, if any. *)
Definition granted (v : option Z) (requested : Z) : option Z :=
  match v with
  | Some n => if truthy v && (n <=? requested)%Z then Some n else None
  | None => None
  end.

(** The handlers of the applicant built by [subscribe()]. *)
Definition Subscriber_subscribe_receiveResponse (response : IncomingResponse) : M unit :=
  if test_1xx (status_code response) then mret tt
  else if test_2xx (status_code response) then
    let expires' := rsp_Expires response in
    subscriber ← get_subscriber;
    match granted expires' (expires subscriber) with
    | Some n =>
        clearTimeout (N subscriber) ;;
        h ← setTimeout subscriber_timer_N (n * 1000)%Z;
        modify_subscriber (set_N (Some h)) ;;
        (* route set and to tag, for backwards compatibility (3265) *)
        modify_subscriber (set_2xx (reverse (rsp_record_route response))
                                   (rsp_to_tag response) (rsp_cseq response))
    | None =>
        Subscriber_close ;;
        if negb (truthy expires') then
          emit (onFailure None (Some EXPIRES_HEADER_MISSING))
        else
          emit (onFailure None (Some INVALID_EXPIRES_HEADER))
    end
  else
    Subscriber_close ;;
    emit (onFailure (Some response) None).

Definition Subscriber_subscribe_onRequestTimeout : M unit :=
  emit (onFailure None (Some REQUEST_TIMEOUT)).

Definition Subscriber_subscribe_onTransportError : M unit :=
  emit (onFailure None (Some CONNECTION_ERROR)).

(** ** ExSIP.Subscription.prototype *)

Definition Subscription_terminateDialog (r : ref) : M unit :=
  this ← get_subscription r;
  if ToBoolean (sn_dialog this) then
    match sn_dialog this with
    | js_object d => emit (dialog_terminate d)
    | _ => TypeError
    end ;;
    modify_subscription r (sn_set_dialog js_undefined)
  else mret tt.

Definition Subscription_close (r : ref) : M unit :=
  modify_subscription r (sn_set_state "terminated") ;;
  Subscription_terminateDialog r ;;
  this ← get_subscription r;
  clearTimeout (sn_N this) ;;
  Subscriber_onSubscriptionTerminate r.

(** [subscribe()]: the renewal. *)
Definition Subscription_subscribe (r : ref) : M unit :=
  subscription ← get_subscription r;
  request ← createSubscribeRequest (sn_dialog subscription) None;
  (* this.send() *)
  e ← get_env;
  clearTimeout (sn_N subscription) ;;
  h ← setTimeout (subscription_timer_N r) (Timers_T1 e * 64)%Z;
  modify_subscription r (sn_set_N (Some h)) ;;
  emit (request_sender_send (renewal r) request).

Definition Subscription_subscribe_receiveResponse (r : ref)
    (response : IncomingResponse) : M unit :=
  if decide (indexOf error_codes (status_code response) ≠ (-1)%Z) then
    Subscription_close r ;;
    emit (onFailure (Some response) None)
  else if test_1xx (status_code response) then mret tt
  else if test_2xx (status_code response) then
    let expires' := rsp_Expires response in
    subscription ← get_subscription r;
    match granted expires' (sn_expires subscription) with
    | Some n =>
        clearTimeout (sn_N subscription) ;;
        h ← setTimeout (subscription_timer_N r) (n * 1000)%Z;
        modify_subscription r (sn_set_N (Some h))
    | None =>
        Subscription_close r ;;
        if negb (truthy expires') then
          emit (onFailure None (Some EXPIRES_HEADER_MISSING))
        else
          emit (onFailure None (Some INVALID_EXPIRES_HEADER))
    end
  else
    Subscription_close r ;;
    emit (onFailure (Some response) None).

Definition Subscription_subscribe_onRequestTimeout (r : ref) : M unit :=
  emit (onFailure None (Some REQUEST_TIMEOUT)).

Definition Subscription_subscribe_onTransportError (r : ref) : M unit :=
  emit (onFailure None (Some CONNECTION_ERROR)).

Definition Subscription_timer_N (r : ref) : M unit :=
  this ← get_subscription r;
  if decide (sn_state this = "terminated") then Subscription_close r
  else if decide (sn_state this = "pending") then
    modify_subscription r (sn_set_state "terminated") ;;
    Subscription_close r
  else Subscription_subscribe r.

(** Modelled from the spec: the reason phrase [ExSIP.C.REASON_200] is not
    among the sources; a NOTIFY is answered with [200 OK]. *)
Definition REASON_200 : string := "OK".

(** The tail shared by the cases ['active'] (falling through) and
    ['pending'] of [receiveRequest]. *)
Definition Subscription_rearm (r : ref) (subscription_state : Subscription_State) : M unit :=
  this ← get_subscription r;
  let expires' := js_or (ss_expires subscription_state) (sn_expires this) in
  modify_subscription r (sn_set_expires expires') ;;
  clearTimeout (sn_N this) ;;
  h ← setTimeout (subscription_timer_N r) (expires' * 1000)%Z;
  modify_subscription r (sn_set_N (Some h)).

Definition Subscription_receiveRequest (r : ref) (request : IncomingRequest)
    (initial : bool) : M unit :=
  matched ← (if initial then mret true else Subscriber_matchEvent request);
  if negb matched then mret tt
  else
    subscriber ← get_subscriber;
    emit (reply request 200 REASON_200 ["Contact: <" +:+ contact subscriber +:+ ">"]) ;;
    match req_Subscription_State request with
    | None => TypeError
    | Some subscription_state =>
        if decide (ss_state subscription_state = "active") then
          modify_subscription r (sn_set_state "active") ;;
          emit (receiveInfo request) ;;
          (* falls through *)
          Subscription_rearm r subscription_state
        else if decide (ss_state subscription_state = "pending") then
          Subscription_rearm r subscription_state
        else if decide (ss_state subscription_state = "terminated") then
          Subscription_close r ;;
          emit (receiveInfo request)
        else mret tt
    end.

(** A timer that fires runs its callback once and is gone. *)
Definition fire (h : nat) : M unit :=
  fun w => match timers w !! h with
           | Some (cb, _) =>
               (match cb with
                | subscriber_timer_N => Subscriber_timer_N
                | subscription_timer_N r => Subscription_timer_N r
                end) (with_timers (delete h (timers w)) (next_timer w) w)
           | None => Some (tt, w)
           end.

(** [refresh()]. *)
Definition subscribe_at (key : string) : M unit :=
  this ← get_subscriber;
  match obj_get key (subscriptions this) with
  | Some r => Subscription_subscribe r
  | None => TypeError
  end.

Definition Subscriber_refresh : M unit :=
  this ← get_subscriber;
  for_in (obj_keys (subscriptions this)) subscribe_at.

(** ** The constructor of a Subscription, and the Subscriber's NOTIFY entry *)

Section DialogLayer.

(** The body of the [ExSIP.Dialog] constructor, which is not among the
    sources: the [this] it leaves, with its [id] or without when it gave
    up before setting it, and what it returns. *)
Variable Dialog_constructor : IncomingRequest -> dialog_type -> Dialog * js_value Dialog.

Definition Subscription_createConfirmedDialog (r : ref) (message : IncomingRequest)
    (type : dialog_type) : M bool :=
  let local_tag := match type with UAS => req_to_tag message | UAC => req_from_tag message end in
  let remote_tag := match type with UAS => req_from_tag message | UAC => req_to_tag message end in
  let id := req_call_id message +:+ local_tag +:+ remote_tag in
  let dialog :=
    js_new (Dialog_constructor message type).1 (Dialog_constructor message type).2 in
  if ToBoolean dialog then
    modify_subscription r (sn_set_dialog dialog) ;;
    mret true
  else mret false.

(** Assignment to a property of [this.dialog]. *)
Definition modify_dialog (r : ref) (f : Dialog -> Dialog) : M unit :=
  this ← get_subscription r;
  match sn_dialog this with
  | js_object d => modify_subscription r (sn_set_dialog (js_object (f d)))
  | _ => TypeError
  end.

(** [new ExSIP.Subscription(subscriber, request, state, expires)]. *)
Definition Subscription_new (request : IncomingRequest) (state' : string)
    (expires' : Z) : M ref :=
  r ← alloc {| sn_id := None; sn_state := state'; sn_expires := expires';
               sn_dialog := js_null; sn_N := None |};
  created ← Subscription_createConfirmedDialog r request UAS;
  (if (created : bool) return M unit then
     this ← get_subscription r;
     match sn_dialog this with
     | js_object d =>
         (* this.dialog.id.toString() *)
         match dialog_id d with
         | Some id =>
             modify_subscription r (sn_set_id (Some id)) ;;
             modify_subscriber (fun s =>
               set_subscriptions (obj_set id r (subscriptions s)) s) ;;
             subscriber ← get_subscriber;
             (if decide (Some (req_from_tag request) = to_tag_2xx subscriber)
                return M unit then
                modify_dialog r (set_route_set (route_set_2xx subscriber))
              else mret tt) ;;
             modify_dialog r (set_local_seqnum (initial_local_seqnum subscriber)) ;;
             Subscription_receiveRequest r request true
         | None => TypeError
         end
     | _ => TypeError
     end
   else mret tt) ;;
  mret r.

(** [receiveRequest(request)] of the Subscriber. *)
Definition Subscriber_receiveRequest (request : IncomingRequest) : M unit :=
  matched ← Subscriber_matchEvent request;
  if negb matched then mret tt
  else
    match req_Subscription_State request with
    | None => TypeError
    | Some subscription_state =>
        this ← get_subscriber;
        let expires' := js_or (ss_expires subscription_state) (expires this) in
        if decide (ss_state subscription_state = "pending"
                   ∨ ss_state subscription_state = "active") then
          clearTimeout (N this) ;;
          Subscription_new request (ss_state subscription_state) expires' ;;
          mret tt
        else if decide (ss_state subscription_state = "terminated") then
          clearTimeout (N this) ;;
          Subscriber_close
        else mret tt
    end.

End DialogLayer.

(** Modelled from the spec: the dialog identifier is call-id + local-tag +
    remote-tag; the route set starts from the message's [Record-Route]. *)
Definition Dialog_of_message (message : IncomingRequest) (type : dialog_type)
    : Dialog * js_value Dialog :=
  let local_tag := match type with UAS => req_to_tag message | UAC => req_from_tag message end in
  let remote_tag := match type with UAS => req_from_tag message | UAC => req_to_tag message end in
  ({| dialog_id := Some (req_call_id message +:+ local_tag +:+ remote_tag);
      route_set := Some (req_record_route message);
      local_seqnum := None |}, js_undefined).


(** ** Vocabulary for the statements *)

(** The request [createSubscribeRequest] builds in world [w]. *)
Definition subscribe_request (w : World) (params : option Params) : OutgoingRequest :=
  OutgoingRequest_new SUBSCRIBE (registrar_server (env w))
    {| p_from_tag := p_from_tag (default empty_params params);
       p_to_uri := Some (to_uri (subscriber w));
       p_call_id := Some (call_id (subscriber w));
       p_cseq := Some (cseq (subscriber w) + 1)%Z |}
    [ "Contact: " +:+ contact (subscriber w);
      "Event: message-summary";
      "Date: " +:+ clock (env w);
      "Accept: application/simple-message-summary";
      "Allow: " +:+ getAllowedMethods (env w) ].

(** Every Subscription reachable from the Subscriber's map is in the store. *)
Definition live (w : World) : Prop :=
  forall k r, obj_get k (subscriptions (subscriber w)) = Some r -> is_Some (store w !! r).

(** Counting calls in a log. *)
Definition count_calls (P : call -> bool) (l : list call) : nat :=
  length (filter (fun c => P c = true) l).

Definition is_send (c : call) : bool :=
  match c with request_sender_send _ _ => true | _ => false end.

Definition is_onTerminate (c : call) : bool :=
  match c with onTerminate => true | _ => false end.

Definition is_onSubscriptionTerminate (r : ref) (c : call) : bool :=
  match c with onSubscriptionTerminate r' => bool_decide (r' = r) | _ => false end.

Definition is_dialog_terminate (c : call) : bool :=
  match c with dialog_terminate _ => true | _ => false end.

Definition is_receiveInfo (c : call) : bool :=
  match c with receiveInfo _ => true | _ => false end.

Definition is_onFailure (c : call) : bool :=
  match c with onFailure _ _ => true | _ => false end.

(** What a run of [unsubscribe()] calls may change in a Subscription:
    its timer handle, and its state, to ['terminated'] only. *)
Definition unsubscribed_from (s s' : Subscription) : Prop :=
  sn_id s' = sn_id s /\ sn_dialog s' = sn_dialog s /\ sn_expires s' = sn_expires s
  /\ (sn_state s' = sn_state s \/ sn_state s' = "terminated").

(** What a run of [unsubscribe()] calls may change in the world. *)
Record unsubscribed (w w' : World) : Prop := {
  uns_env : env w' = env w;
  uns_subscriber : exists c, subscriber w' = set_cseq c (subscriber w);
  uns_store : forall r, option_Forall2 unsubscribed_from (store w !! r) (store w' !! r);
  uns_next_ref : next_ref w' = next_ref w;
  uns_sessions : sessions w' = sessions w;
  uns_log : exists sent, log w' = (sent ++ log w)%list /\ Forall (fun c => is_send c = true) sent
}.


(** What [close()] of the Subscriber does when the state is not yet
    ['terminated']. *)
Record Subscriber_closed (w w' : World) : Prop := {
  cl_env : env w' = env w;
  cl_state : state (subscriber w') = Some "terminated";
  cl_subscriptions : subscriptions (subscriber w') = subscriptions (subscriber w);
  cl_id : id (subscriber w') = id (subscriber w);
  cl_store : forall r, option_Forall2 unsubscribed_from (store w !! r) (store w' !! r);
  cl_sessions : sessions w' = match id (subscriber w) with
                              | Some i => sessions w ∖ {[ i ]}
                              | None => sessions w
                              end;
  cl_log : exists sent, log w' = (onTerminate :: sent ++ log w)%list
                        /\ Forall (fun c => is_send c = true) sent
}.

(** The calls [terminateDialog()] makes on a Subscription. *)
Definition dialog_calls (s : Subscription) : list call :=
  match sn_dialog s with
  | js_object d => [dialog_terminate d]
  | _ => []
  end.

(** What [close()] of Subscription [r], which was [s], does. *)
Record Subscription_closed (r : ref) (s : Subscription) (w w' : World) : Prop := {
  scl_env : env w' = env w;
  scl_this : exists s', store w' !! r = Some s'
                        /\ sn_state s' = "terminated"
                        /\ ToBoolean (sn_dialog s') = false
                        /\ sn_id s' = sn_id s /\ sn_expires s' = sn_expires s;
  scl_live : live w';
  scl_subscriptions :
    subscriptions (subscriber w')
    = match sn_id s with
      | Some i => obj_delete i (subscriptions (subscriber w))
      | None => subscriptions (subscriber w)
      end;
  scl_log : exists pre,
      log w' = (pre ++ onSubscriptionTerminate r :: dialog_calls s ++ log w)%list
      /\ (pre = []
          \/ exists sent, pre = onTerminate :: sent
                          /\ Forall (fun c => is_send c = true) sent)
}.

(** Subscription [s] once [close()] has set its state and torn down its
    dialog. *)
Definition torn_down (s : Subscription) : Subscription :=
  if ToBoolean (sn_dialog s)
  then sn_set_dialog js_undefined (sn_set_state "terminated" s)
  else sn_set_state "terminated" s.

(** The world in which [onSubscriptionTerminate] decides whether the
    Subscriber closes too. *)
Definition Subscription_close_before_decision (r : ref) (s : Subscription)
    (w : World) : World :=
  {| env := env w;
     subscriber := match sn_id s with
                   | Some i => set_subscriptions
                                 (obj_delete i (subscriptions (subscriber w))) (subscriber w)
                   | None => subscriber w
                   end;
     store := <[r := torn_down s]> (store w);
     next_ref := next_ref w;
     timers := cleared (sn_N s) (timers w);
     next_timer := next_timer w;
     sessions := sessions w;
     log := (onSubscriptionTerminate r :: dialog_calls s ++ log w)%list |}.

(** A NOTIFY is accepted by [receiveRequest(request, initial)] of a
    Subscription when it is the initial one or passes [matchEvent]. *)
Definition accepted (request : IncomingRequest) (initial : bool) (w : World) : Prop :=
  initial = true \/ fst <$> Subscriber_matchEvent request w = Some true.

(** The Subscription after the shared tail of the cases ['active'] and
    ['pending']: lifetime [e], timer handle [h]. *)
Definition rearmed (e : Z) (h : nat) (s : Subscription) : Subscription :=
  sn_set_N (Some h) (sn_set_expires e s).

(** The value of [new ExSIP.Dialog(this, message, type)], an object. *)
Definition constructed_dialog
    (Dialog_constructor : IncomingRequest -> dialog_type -> Dialog * js_value Dialog)
    (message : IncomingRequest) (type : dialog_type) : Dialog :=
  match (Dialog_constructor message type).2 with
  | js_object o => o
  | _ => (Dialog_constructor message type).1
  end.

(** The dialog of a new Subscription once the constructor has seeded its
    route set and local sequence number from the Subscriber. *)
Definition seeded_dialog
    (Dialog_constructor : IncomingRequest -> dialog_type -> Dialog * js_value Dialog)
    (request : IncomingRequest) (sub : Subscriber) : Dialog :=
  let d := constructed_dialog Dialog_constructor request UAS in
  set_local_seqnum (initial_local_seqnum sub)
    (if decide (Some (req_from_tag request) = to_tag_2xx sub)
     then set_route_set (route_set_2xx sub) d else d).

(** The world in which the constructor of a Subscription hands the request
    to [receiveRequest]: the new object is in the store and in the
    Subscriber's map, under its dialog id [id]. *)
Definition registered
    (Dialog_constructor : IncomingRequest -> dialog_type -> Dialog * js_value Dialog)
    (id : string)
    (request : IncomingRequest) (state' : string) (expires' : Z) (w : World) : World :=
  let d := seeded_dialog Dialog_constructor request (subscriber w) in
  {| env := env w;
     subscriber := set_subscriptions
                     (obj_set id (next_ref w) (subscriptions (subscriber w)))
                     (subscriber w);
     store := <[next_ref w := {| sn_id := Some id; sn_state := state';
                                 sn_expires := expires';
                                 sn_dialog := js_object d; sn_N := None |}]> (store w);
     next_ref := S (next_ref w);
     timers := timers w;
     next_timer := next_timer w;
     sessions := sessions w;
     log := log w |}.

(** ** Concrete worlds used in the examples *)

Definition example_env : Environment :=
  {| configuration_uri := "sip:alice@example.com";
     ua_contact := "sip:alice@ws.invalid;transport=ws";
     registrar_server := "sip:example.com";
     supported_methods := ["ACK"; "CANCEL"; "BYE"; "OPTIONS"; "NOTIFY"];
     Timers_T1 := 500;
     clock := "Mon Nov 02 2026 10:00:00 GMT+0000" |}.

(** A Subscriber fresh from [initSubscriber], nothing sent yet. *)
Definition world_idle (ev : string) (exp : Z) : World :=
  {| env := example_env;
     subscriber := initSubscriber example_env "a84b4c76e66710" ev exp;
     store := ∅; next_ref := 0; timers := ∅; next_timer := 0;
     sessions := ∅; log := [] |}.

(** The same after [subscribe()] with tag [tagA]: waiting for the NOTIFY,
    the 64*T1 watchdog running. *)
Definition world_notify_wait : World :=
  {| env := example_env;
     subscriber :=
       {| state := Some "notify_wait"; N := Some 0; subscriptions := [];
          call_id := "a84b4c76e66710"; cseq := 81;
          to_uri := "sip:alice@example.com";
          contact := "sip:alice@ws.invalid;transport=ws";
          event := "message-summary"; expires := 180;
          id := Some "a84b4c76e66710tagA"; route_set_2xx := None;
          to_tag_2xx := None; initial_local_seqnum := None |};
     store := ∅; next_ref := 0;
     timers := {[ 0 := (subscriber_timer_N, 32000%Z) ]}; next_timer := 1;
     sessions := {[ "a84b4c76e66710tagA" ]};
     log := [request_sender_send initial_subscribe
               (subscribe_request (world_idle "message-summary" 180)
                  (Some {| p_from_tag := Some "tagA"; p_to_uri := None;
                           p_call_id := None; p_cseq := None |}))] |}.

Definition example_dialog : Dialog :=
  {| dialog_id := Some "a84b4c76e66710tagAsrv1"; route_set := Some [];
     local_seqnum := None |}.

Definition example_subscription (st : string) : Subscription :=
  {| sn_id := Some "a84b4c76e66710tagAsrv1"; sn_state := st; sn_expires := 180;
     sn_dialog := js_object example_dialog; sn_N := Some 1 |}.

(** One Subscription, at address 0, in the given state, its dialog up and
    its 180 s watchdog running. *)
Definition world_one (st : string) : World :=
  {| env := example_env;
     subscriber :=
       {| state := Some "notify_wait"; N := Some 0;
          subscriptions := [("a84b4c76e66710tagAsrv1", 0)];
          call_id := "a84b4c76e66710"; cseq := 81;
          to_uri := "sip:alice@example.com";
          contact := "sip:alice@ws.invalid;transport=ws";
          event := "message-summary"; expires := 180;
          id := Some "a84b4c76e66710tagA"; route_set_2xx := None;
          to_tag_2xx := None; initial_local_seqnum := None |};
     store := {[ 0 := example_subscription st ]};
     next_ref := 1;
     timers := {[ 1 := (subscription_timer_N 0, 180000%Z) ]}; next_timer := 2;
     sessions := {[ "a84b4c76e66710tagA" ]};
     log := [] |}.

(** A NOTIFY of the example dialog. *)
Definition example_notify (ev : string) (st : string) (e : option Z) : IncomingRequest :=
  {| req_call_id := "a84b4c76e66710"; req_from_tag := "srv1"; req_to_tag := "tagA";
     req_Event := Some ev;
     req_Subscription_State := Some {| ss_state := st; ss_expires := e; ss_reason := None |};
     req_record_route := []; req_body := "Messages-Waiting: yes" |}.

(** A response to a SUBSCRIBE of the example Subscriber. *)
Definition example_response (code : Z) (e : option Z) : IncomingResponse :=
  {| status_code := code; rsp_Expires := e; rsp_record_route := [];
     rsp_to_tag := Some "srv1"; rsp_cseq := 81 |}.

(** ** More vocabulary: kinds of calls, worlds with two Subscriptions *)

Definition is_unsubscribe_send (c : call) : bool :=
  match c with
  | request_sender_send (unsubscription _) rq =>
      bool_decide (obj_get "Expires" (or_headers rq) = Some "0")
  | _ => false
  end.

Definition is_renewal_send (c : call) : bool :=
  match c with
  | request_sender_send (renewal _) rq => bool_decide (or_headers rq = [])
  | _ => false
  end.

Definition is_reply (c : call) : bool :=
  match c with reply _ _ _ _ => true | _ => false end.

(** The same Subscription with another timer handle. *)
Definition retimed (s s' : Subscription) : Prop :=
  sn_id s' = sn_id s /\ sn_state s' = sn_state s /\ sn_expires s' = sn_expires s
  /\ sn_dialog s' = sn_dialog s.

(** The [cseq] a request was given. *)
Definition cseq_of (rq : OutgoingRequest) : option Z := p_cseq (or_params rq).

(** A second Subscription of the example Subscriber, on another dialog. *)
Definition example_dialog_2 : Dialog :=
  {| dialog_id := Some "a84b4c76e66710tagAsrv2"; route_set := Some [];
     local_seqnum := None |}.

Definition example_subscription_2 (st : string) : Subscription :=
  {| sn_id := Some "a84b4c76e66710tagAsrv2"; sn_state := st; sn_expires := 180;
     sn_dialog := js_object example_dialog_2; sn_N := Some 2 |}.

(** Two Subscriptions, at addresses 0 and 1 (a forked SUBSCRIBE). *)
Definition world_two (st0 st1 : string) : World :=
  {| env := example_env;
     subscriber :=
       {| state := Some "notify_wait"; N := Some 0;
          subscriptions := [("a84b4c76e66710tagAsrv1", 0); ("a84b4c76e66710tagAsrv2", 1)];
          call_id := "a84b4c76e66710"; cseq := 81;
          to_uri := "sip:alice@example.com";
          contact := "sip:alice@ws.invalid;transport=ws";
          event := "message-summary"; expires := 180;
          id := Some "a84b4c76e66710tagA"; route_set_2xx := None;
          to_tag_2xx := None; initial_local_seqnum := None |};
     store := {[ 0 := example_subscription st0; 1 := example_subscription_2 st1 ]};
     next_ref := 2;
     timers := {[ 1 := (subscription_timer_N 0, 180000%Z);
                  2 := (subscription_timer_N 1, 180000%Z) ]};
     next_timer := 3;
     sessions := {[ "a84b4c76e66710tagA" ]};
     log := [] |}.

(** The world after [subscribe()] of Subscription [r], which was [s]. *)
Definition renewal_sent (r : ref) (s : Subscription) (w : World) : World :=
  {| env := env w;
     subscriber := set_cseq (cseq (subscriber w) + 1) (subscriber w);
     store := <[r := sn_set_N (Some (next_timer w)) s]> (store w);
     next_ref := next_ref w;
     timers := <[next_timer w := (subscription_timer_N r, (Timers_T1 (env w) * 64)%Z)]>
                 (cleared (sn_N s) (timers w));
     next_timer := S (next_timer w);
     sessions := sessions w;
     log := request_sender_send (renewal r) (subscribe_request w None) :: log w |}.

(** The world after [close()] of a Subscriber that is not terminated and
    has no Subscriptions left. *)
Definition closed_alone (w : World) : World :=
  {| env := env w;
     subscriber := set_state (Some "terminated") (subscriber w);
     store := store w;
     next_ref := next_ref w;
     timers := cleared (N (subscriber w)) (timers w);
     next_timer := next_timer w;
     sessions := match id (subscriber w) with
                 | Some i => sessions w ∖ {[ i ]}
                 | None => sessions w
                 end;
     log := onTerminate :: log w |}.

(** The entries left in the Subscriber's map once Subscription [s] is
    removed from it. *)
Definition remaining (s : Subscription) (w : World) : list (string * nat) :=
  match sn_id s with
  | Some i => obj_delete i (subscriptions (subscriber w))
  | None => subscriptions (subscriber w)
  end.

(** The world after [close()] of Subscription [r], which was [s]: the
    Subscriber closes with it when no entry is left. *)
Definition Subscription_close_world (r : ref) (s : Subscription) (w : World) : World :=
  if decide (remaining s w = [] /\ state (subscriber w) <> Some "terminated")
  then closed_alone (Subscription_close_before_decision r s w)
  else Subscription_close_before_decision r s w.

(** ** Everything that can happen to the engine *)













(** * ExSIP.Transport

    The transport over a WebSocket.  The sockets live in a store of their
    own: a socket that the transport has replaced still has the transport's
    handlers until its close event has been delivered.  What the browser
    does is taken from the WebSocket API: a new socket is CONNECTING,
    [close()] moves a CONNECTING or OPEN socket to CLOSING, the open event
    finds the socket OPEN and the close event finds it CLOSED. *)

Inductive ready_state : Type := CONNECTING | OPEN | CLOSING | CLOSED.

#[global] Instance ready_state_eq_dec : EqDecision ready_state.
Proof. solve_decision. Defined.

Record WebSocket : Type := {
  ws_url : string;
  readyState : ready_state;
  binaryType : string;
  (** [onopen], [onclose], [onmessage] and [onerror] are the transport's *)
  ws_handlers : bool
}.

Definition ws_set_readyState (v : ready_state) (s : WebSocket) : WebSocket :=
  {| ws_url := ws_url s; readyState := v; binaryType := binaryType s;
     ws_handlers := ws_handlers s |}.

Definition ws_set_binaryType (v : string) (s : WebSocket) : WebSocket :=
  {| ws_url := ws_url s; readyState := readyState s; binaryType := v;
     ws_handlers := ws_handlers s |}.

Definition ws_set_handlers (v : bool) (s : WebSocket) : WebSocket :=
  {| ws_url := ws_url s; readyState := readyState s; binaryType := binaryType s;
     ws_handlers := v |}.

(** The fields of a Transport; [lastTransportError] starts as [{}]. *)
Record Transport : Type := {
  ws : option nat;
  reconnection_attempts : Z;
  closed : bool;
  connected : bool;
  reconnectTimer : option nat;
  lastTransportError_code : option Z;
  lastTransportError_reason : option string
}.

Definition tr_set_ws (v : option nat) (t : Transport) : Transport :=
  {| ws := v; reconnection_attempts := reconnection_attempts t; closed := closed t;
     connected := connected t; reconnectTimer := reconnectTimer t;
     lastTransportError_code := lastTransportError_code t;
     lastTransportError_reason := lastTransportError_reason t |}.

Definition tr_set_reconnection_attempts (v : Z) (t : Transport) : Transport :=
  {| ws := ws t; reconnection_attempts := v; closed := closed t;
     connected := connected t; reconnectTimer := reconnectTimer t;
     lastTransportError_code := lastTransportError_code t;
     lastTransportError_reason := lastTransportError_reason t |}.

Definition tr_set_closed (v : bool) (t : Transport) : Transport :=
  {| ws := ws t; reconnection_attempts := reconnection_attempts t; closed := v;
     connected := connected t; reconnectTimer := reconnectTimer t;
     lastTransportError_code := lastTransportError_code t;
     lastTransportError_reason := lastTransportError_reason t |}.

Definition tr_set_connected (v : bool) (t : Transport) : Transport :=
  {| ws := ws t; reconnection_attempts := reconnection_attempts t; closed := closed t;
     connected := v; reconnectTimer := reconnectTimer t;
     lastTransportError_code := lastTransportError_code t;
     lastTransportError_reason := lastTransportError_reason t |}.

Definition tr_set_reconnectTimer (v : option nat) (t : Transport) : Transport :=
  {| ws := ws t; reconnection_attempts := reconnection_attempts t; closed := closed t;
     connected := connected t; reconnectTimer := v;
     lastTransportError_code := lastTransportError_code t;
     lastTransportError_reason := lastTransportError_reason t |}.

Definition tr_set_lastTransportError (code : Z) (reason : string) (t : Transport)
    : Transport :=
  {| ws := ws t; reconnection_attempts := reconnection_attempts t; closed := closed t;
     connected := connected t; reconnectTimer := reconnectTimer t;
     lastTransportError_code := Some code;
     lastTransportError_reason := Some reason |}.

(** The event object of a close event. *)
Record CloseEvent : Type := {
  ce_code : Z;
  ce_reason : string;
  ce_wasClean : bool
}.

(** A parsed message, as far as [onMessage] looks at it. *)
Inductive Message : Type :=
| IncomingRequest_message (text : string)
| IncomingResponse_message (method : string) (via_branch : string) (text : string)
| other_message.

Inductive transaction_kind : Type := ict | nict.

(** Calls that leave the transport. *)
Inductive transport_call : Type :=
| ws_send (socket : nat) (message : string)
| ws_close (socket : nat)
| usedServers_push
| onTransportConnected
| onTransportClosed
| onTransportError
| emit_disconnected (code : option Z) (reason : option string)
| ua_receiveRequest (text : string)
| transaction_receiveResponse (kind : transaction_kind) (branch : string) (text : string).

(** The transport, the sockets, and what it reads from its user agent. *)
Record Net : Type := {
  transport : Transport;
  sockets : gmap nat WebSocket;
  next_socket : nat;
  (** whether [new WebSocket(...)] throws, as it does for a bad URL *)
  constructor_throws : bool;
  reconnect_timers : gmap nat Z;
  next_reconnect_timer : nat;
  server_ws_uri : string;
  ws_server_max_reconnection : Z;
  ws_server_reconnection_timeout : Z;
  (** [ua.status === ExSIP.UA.C.STATUS_USER_CLOSED] *)
  user_closed : bool;
  (** the branches under which [ua.transactions.ict] and
      [ua.transactions.nict] hold a transaction *)
  transactions_ict : gset string;
  transactions_nict : gset string;
  calls : list transport_call
}.

Definition net_with_transport (v : Transport) (n : Net) : Net :=
  {| transport := v; sockets := sockets n; next_socket := next_socket n;
     constructor_throws := constructor_throws n;
     reconnect_timers := reconnect_timers n;
     next_reconnect_timer := next_reconnect_timer n;
     server_ws_uri := server_ws_uri n;
     ws_server_max_reconnection := ws_server_max_reconnection n;
     ws_server_reconnection_timeout := ws_server_reconnection_timeout n;
     user_closed := user_closed n; transactions_ict := transactions_ict n;
     transactions_nict := transactions_nict n; calls := calls n |}.

Definition net_with_sockets (v : gmap nat WebSocket) (k : nat) (n : Net) : Net :=
  {| transport := transport n; sockets := v; next_socket := k;
     constructor_throws := constructor_throws n;
     reconnect_timers := reconnect_timers n;
     next_reconnect_timer := next_reconnect_timer n;
     server_ws_uri := server_ws_uri n;
     ws_server_max_reconnection := ws_server_max_reconnection n;
     ws_server_reconnection_timeout := ws_server_reconnection_timeout n;
     user_closed := user_closed n; transactions_ict := transactions_ict n;
     transactions_nict := transactions_nict n; calls := calls n |}.

Definition net_with_timers (v : gmap nat Z) (k : nat) (n : Net) : Net :=
  {| transport := transport n; sockets := sockets n; next_socket := next_socket n;
     constructor_throws := constructor_throws n;
     reconnect_timers := v; next_reconnect_timer := k;
     server_ws_uri := server_ws_uri n;
     ws_server_max_reconnection := ws_server_max_reconnection n;
     ws_server_reconnection_timeout := ws_server_reconnection_timeout n;
     user_closed := user_closed n; transactions_ict := transactions_ict n;
     transactions_nict := transactions_nict n; calls := calls n |}.

Definition net_with_calls (v : list transport_call) (n : Net) : Net :=
  {| transport := transport n; sockets := sockets n; next_socket := next_socket n;
     constructor_throws := constructor_throws n;
     reconnect_timers := reconnect_timers n;
     next_reconnect_timer := next_reconnect_timer n;
     server_ws_uri := server_ws_uri n;
     ws_server_max_reconnection := ws_server_max_reconnection n;
     ws_server_reconnection_timeout := ws_server_reconnection_timeout n;
     user_closed := user_closed n; transactions_ict := transactions_ict n;
     transactions_nict := transactions_nict n; calls := v |}.

(** Computations of the transport; [None] is an uncaught [TypeError]. *)
Definition T (A : Type) : Type := Net -> option (A * Net).

Definition T_ret {A : Type} (a : A) : T A := fun n => Some (a, n).

Definition T_bind {A B : Type} (f : A -> T B) (m : T A) : T B :=
  fun n => match m n with
           | Some (a, n') => f a n'
           | None => None
           end.

#[global] Instance T_MRet : MRet T := @T_ret.
#[global] Instance T_MBind : MBind T := @T_bind.

Definition T_TypeError {A : Type} : T A := fun _ => None.

Definition this_transport : T Transport := fun n => Some (transport n, n).

Definition set_transport (f : Transport -> Transport) : T unit :=
  fun n => Some (tt, net_with_transport (f (transport n)) n).

Definition the_net : T Net := fun n => Some (n, n).

Definition call_out (c : transport_call) : T unit :=
  fun n => Some (tt, net_with_calls (c :: calls n) n).

(** A socket read through the reference the transport holds. *)
Definition get_socket (i : nat) : T WebSocket :=
  fun n => match sockets n !! i with
           | Some s => Some (s, n)
           | None => None
           end.

Definition set_socket (i : nat) (f : WebSocket -> WebSocket) : T unit :=
  fun n => match sockets n !! i with
           | Some s => Some (tt, net_with_sockets (<[i := f s]> (sockets n)) (next_socket n) n)
           | None => None
           end.

(** [socket.close()], by the WebSocket API. *)
Definition socket_close (i : nat) : T unit :=
  call_out (ws_close i) ;;
  set_socket i (fun s => match readyState s with
                         | CONNECTING | OPEN => ws_set_readyState CLOSING s
                         | _ => s
                         end).

(** [new WebSocket(uri, 'sip')]: a new socket, or an exception. *)
Definition WebSocket_new (uri : string) : T (option nat) :=
  fun n =>
    if constructor_throws n then Some (None, n)
    else Some (Some (next_socket n),
               net_with_sockets
                 (<[next_socket n := {| ws_url := uri; readyState := CONNECTING;
                                        binaryType := "blob"; ws_handlers := false |}]>
                    (sockets n))
                 (S (next_socket n)) n).

(** [readyState()]: throws without a socket. *)
Definition Transport_readyState : T ready_state :=
  this ← this_transport;
  match ws this with
  | Some i => s ← get_socket i; mret (readyState s)
  | None => T_TypeError
  end.

(** [send(msg)], on the text of the message. *)
Definition Transport_send (message : string) : T bool :=
  this ← this_transport;
  match ws this with
  | Some i =>
      state' ← Transport_readyState;
      if decide (state' = OPEN) then
        call_out (ws_send i message) ;;
        mret true
      else mret false
  | None => mret false
  end.

(** [disconnect()]. *)
Definition Transport_disconnect : T unit :=
  this ← this_transport;
  match ws this with
  | Some i =>
      set_transport (tr_set_closed true) ;;
      socket_close i
  | None => mret tt
  end.

(** [connect()]; the result is [false] or [undefined]. *)
Definition Transport_connect : T (option bool) :=
  this ← this_transport;
  busy ← match ws this with
         | Some i =>
             state' ← Transport_readyState;
             mret (bool_decide (state' = OPEN \/ state' = CONNECTING))
         | None => mret false
         end;
  if (busy : bool) then mret (Some false)
  else
    match ws this with
    | Some i => socket_close i
    | None => mret tt
    end ;;
    n ← the_net;
    (* try { ... } catch(e) { ... } *)
    created ← WebSocket_new (server_ws_uri n);
    match created with
    | Some i =>
        set_transport (tr_set_ws (Some i)) ;;
        call_out usedServers_push
    | None => mret tt
    end ;;
    this ← this_transport;
    match ws this with
    | Some i =>
        set_socket i (ws_set_binaryType "arraybuffer") ;;
        set_socket i (ws_set_handlers true) ;;
        mret None
    | None => T_TypeError
    end.

Definition clear_reconnect_timer (h : option nat) : T unit :=
  fun n => Some (tt, net_with_timers
                       (match h with
                        | Some k => delete k (reconnect_timers n)
                        | None => reconnect_timers n
                        end) (next_reconnect_timer n) n).

Definition set_reconnect_timer (delay : Z) : T nat :=
  fun n => Some (next_reconnect_timer n,
                 net_with_timers (<[next_reconnect_timer n := delay]> (reconnect_timers n))
                   (S (next_reconnect_timer n)) n).

(** [onOpen()]. *)
Definition Transport_onOpen : T unit :=
  set_transport (tr_set_connected true) ;;
  this ← this_transport;
  clear_reconnect_timer (reconnectTimer this) ;;
  set_transport (tr_set_closed false) ;;
  call_out onTransportConnected.

(** [reConnect()]. *)
Definition Transport_reConnect : T unit :=
  this ← this_transport;
  set_transport (tr_set_reconnection_attempts (reconnection_attempts this + 1)) ;;
  this ← this_transport;
  n ← the_net;
  if decide (reconnection_attempts this > ws_server_max_reconnection n)%Z then
    call_out onTransportError
  else if decide (ws_server_reconnection_timeout n = 0)%Z then
    Transport_connect ;; mret tt
  else
    h ← set_reconnect_timer (ws_server_reconnection_timeout n * 1000)%Z;
    set_transport (tr_set_reconnectTimer (Some h)).

(** [onClose(e)]. *)
Definition Transport_onClose (e : CloseEvent) : T unit :=
  this ← this_transport;
  let connected_before := connected this in
  set_transport (tr_set_connected false) ;;
  set_transport (tr_set_lastTransportError (ce_code e) (ce_reason e)) ;;
  if connected_before then
    call_out onTransportClosed ;;
    this ← this_transport;
    if negb (closed this) then
      set_transport (tr_set_reconnection_attempts 0) ;;
      Transport_reConnect
    else
      call_out (emit_disconnected (lastTransportError_code this)
                                  (lastTransportError_reason this))
  else
    call_out onTransportError.

(** [onError(e)] only logs. *)
Definition Transport_onError : T unit := mret tt.

(** What arrives in a message event: text, or binary data. *)
Inductive message_data : Type :=
| text_data (s : string)
| binary_data (bytes : list ascii).

#[global] Instance message_data_eq_dec : EqDecision message_data.
Proof. solve_decision. Defined.

(** The properties of [Object.prototype], which every plain object
    inherits, by name. *)
Definition Object_prototype : list string :=
  ["constructor"; "__proto__"; "hasOwnProperty"; "isPrototypeOf";
   "propertyIsEnumerable"; "toLocaleString"; "toString"; "valueOf";
   "__defineGetter__"; "__defineSetter__"; "__lookupGetter__"; "__lookupSetter__"].

(** What [table[key]] finds in a table of transactions, which is a plain
    object with the transactions as its own properties: a transaction,
    or a property inherited from [Object.prototype], or nothing. *)
Inductive table_entry : Type := a_transaction | inherited | absent.

Definition table_get (table : gset string) (key : string) : table_entry :=
  if decide (key ∈ table) then a_transaction
  else if decide (key ∈ Object_prototype) then inherited
  else absent.

Section Parsing.

(** [ExSIP.Parser.parseMessage] ([None] for its [undefined]),
    [ExSIP.sanityCheck], which is given the transport and may use it, and
    whether [String.fromCharCode.apply] accepts an array of that many
    elements: none of them is among the sources. *)
Variable parseMessage : string -> option Message.
Variable sanityCheck : Message -> T bool.
Variable fromCharCode_accepts : list ascii -> bool.

(** [data], turned into a string as [onMessage] does. *)
Definition message_text (data : message_data) : option string :=
  match data with
  | text_data s => Some s
  | binary_data bytes =>
      if fromCharCode_accepts bytes then Some (string_of_list_ascii bytes)
      else None
  end.

Definition is_IncomingRequest (message : option Message) : bool :=
  match message with
  | Some (IncomingRequest_message _) => true
  | _ => false
  end.

(** [transaction = table[via_branch]; if(transaction) {
    transaction.receiveResponse(message) }]: an inherited property is
    truthy and has no [receiveResponse], so the call is a TypeError. *)
Definition deliver_response (kind : transaction_kind) (table : gset string)
    (via_branch text : string) : T unit :=
  match table_get table via_branch with
  | a_transaction => call_out (transaction_receiveResponse kind via_branch text)
  | inherited => T_TypeError
  | absent => mret tt
  end.

(** The branches of [onMessage] for a message that passed the checks. *)
Definition Transport_route (m : Message) : T unit :=
  match m with
  | IncomingRequest_message text => call_out (ua_receiveRequest text)
  | IncomingResponse_message method via_branch text =>
      n ← the_net;
      if decide (method = "INVITE") then
        deliver_response ict (transactions_ict n) via_branch text
      else if decide (method = "ACK") then mret tt
      else deliver_response nict (transactions_nict n) via_branch text
  | other_message => mret tt
  end.

(** [onMessage(e)]. *)
Definition Transport_onMessage (data : message_data) : T unit :=
  if decide (data = text_data (String "013" (String "010" EmptyString)))
  then (mret tt : T unit)
  else
    match message_text data with
    | None => mret tt
    | Some data' =>
        let message := parseMessage data' in
        n ← the_net;
        if user_closed n && is_IncomingRequest message then mret tt
        else
          match message with
          | Some m =>
              sane ← sanityCheck m;
              if (sane : bool) then Transport_route m else mret tt
          | None => mret tt
          end
    end.

(** What the browser delivers to a socket goes to the transport only
    while the socket has the transport's handlers; the handler of the close
    event takes them off the socket. *)
Inductive socket_event : Type :=
| open_event
| close_event (e : CloseEvent)
| message_event (data : message_data)
| error_event.

Definition deliver (i : nat) (ev : socket_event) : T unit :=
  match ev with
  | open_event =>
      set_socket i (ws_set_readyState OPEN) ;;
      s ← get_socket i;
      if ws_handlers s then Transport_onOpen else mret tt
  | close_event e =>
      set_socket i (ws_set_readyState CLOSED) ;;
      s ← get_socket i;
      if ws_handlers s then
        Transport_onClose e ;;
        set_socket i (ws_set_handlers false)
      else mret tt
  | message_event data =>
      s ← get_socket i;
      if ws_handlers s then Transport_onMessage data else mret tt
  | error_event =>
      s ← get_socket i;
      if ws_handlers s then Transport_onError else mret tt
  end.

End Parsing.

(** The reconnect timer fires: [transport.connect()]. *)
Definition reconnect_timer_fires (h : nat) : T unit :=
  fun n => match reconnect_timers n !! h with
           | Some _ =>
               (Transport_connect ;; mret tt)
                 (net_with_timers (delete h (reconnect_timers n)) (next_reconnect_timer n) n)
           | None => Some (tt, n)
           end.

(** [new Transport(ua, server)]. *)
Definition Transport_new (uri : string) (max_reconnection reconnection_timeout : Z)
    (throws : bool) : option (option bool * Net) :=
  Transport_connect
    {| transport := {| ws := None; reconnection_attempts := 0; closed := false;
                       connected := false; reconnectTimer := None;
                       lastTransportError_code := None;
                       lastTransportError_reason := None |};
       sockets := ∅; next_socket := 0; constructor_throws := throws;
       reconnect_timers := ∅; next_reconnect_timer := 0;
       server_ws_uri := uri;
       ws_server_max_reconnection := max_reconnection;
       ws_server_reconnection_timeout := reconnection_timeout;
       user_closed := false; transactions_ict := ∅; transactions_nict := ∅;
       calls := [] |}.

(** ** Vocabulary for the transport *)

(** The transport holds a socket, and the socket is one of the store. *)
Definition constructed (n : Net) : Prop :=
  exists i, ws (transport n) = Some i /\ is_Some (sockets n !! i).

Definition count_out (p : transport_call -> bool) (l : list transport_call) : nat :=
  length (filter (fun c => p c = true) l).

Definition is_onTransportError (c : transport_call) : bool :=
  match c with onTransportError => true | _ => false end.

Definition is_onTransportClosed (c : transport_call) : bool :=
  match c with onTransportClosed => true | _ => false end.

Definition is_ws_send (c : transport_call) : bool :=
  match c with ws_send _ _ => true | _ => false end.

(** [reConnect()], [k] times in a row. *)
Fixpoint reConnect_times (k : nat) : T unit :=
  match k with
  | O => mret tt
  | S k' => Transport_reConnect ;; reConnect_times k'
  end.

(** What can happen to a transport: its methods are called, the browser
    delivers an event of a socket, a reconnect timer fires. *)
Inductive transport_input : Type :=
| do_send (message : string)
| do_disconnect
| do_connect
| do_reConnect
| socket_delivers (i : nat) (ev : socket_event)
| timer_delivers (h : nat).

Definition transport_handle (parseMessage : string -> option Message)
    (sanityCheck : Message -> T bool) (fromCharCode_accepts : list ascii -> bool)
    (inp : transport_input) : T unit :=
  match inp with
  | do_send message => Transport_send message ;; mret tt
  | do_disconnect => Transport_disconnect
  | do_connect => Transport_connect ;; mret tt
  | do_reConnect => Transport_reConnect
  | socket_delivers i ev => deliver parseMessage sanityCheck fromCharCode_accepts i ev
  | timer_delivers h => reconnect_timer_fires h
  end.

(** An event comes from a socket that exists. *)
Definition from_a_socket (inp : transport_input) (n : Net) : Prop :=
  match inp with
  | socket_delivers i _ => is_Some (sockets n !! i)
  | _ => True
  end.

(** The input is a message event with a response, not to an ACK, whose
    branch is the name of a property that every object inherits. *)
Definition names_an_inherited_property (parseMessage : string -> option Message)
    (fromCharCode_accepts : list ascii -> bool) (inp : transport_input) : Prop :=
  exists i data s method via_branch text,
    inp = socket_delivers i (message_event data)
    /\ message_text fromCharCode_accepts data = Some s
    /\ parseMessage s = Some (IncomingResponse_message method via_branch text)
    /\ method <> "ACK"
    /\ via_branch ∈ Object_prototype.

Fixpoint transport_handle_all (parseMessage : string -> option Message)
    (sanityCheck : Message -> T bool) (fromCharCode_accepts : list ascii -> bool)
    (l : list transport_input) : T unit :=
  match l with
  | [] => mret tt
  | inp :: l' =>
      transport_handle parseMessage sanityCheck fromCharCode_accepts inp ;;
      transport_handle_all parseMessage sanityCheck fromCharCode_accepts l'
  end.

(** A parser and a check for the examples: every text is a request, every
    message passes. *)
Definition example_parseMessage (s : string) : option Message :=
  Some (IncomingRequest_message s).

Definition example_sanityCheck (m : Message) : T bool := mret true.

Definition example_accepts (bytes : list ascii) : bool := true.

Definition example_close : CloseEvent :=
  {| ce_code := 1006; ce_reason := "gone"; ce_wasClean := false |}.

(** A transport whose socket has opened. *)
Definition example_net (max_reconnection reconnection_timeout : Z) : option (unit * Net) :=
  match Transport_new "wss://example.com" max_reconnection reconnection_timeout false with
  | Some (_, n) =>
      deliver example_parseMessage example_sanityCheck example_accepts 0 open_event n
  | None => None
  end.

(** The socket that [connect()] has made and set up. *)
Definition connecting_socket (uri : string) : WebSocket :=
  {| ws_url := uri; readyState := CONNECTING; binaryType := "arraybuffer";
     ws_handlers := true |}.

(** A transport that was disconnected and connected again at once: the
    new socket has opened, the close event of the old one is still to come. *)
Definition example_replaced_net : option (unit * Net) :=
  match Transport_new "wss://example.com" 3 0 false with
  | Some (_, n) =>
      transport_handle_all example_parseMessage example_sanityCheck example_accepts
        [socket_delivers 0 open_event; do_disconnect; do_connect;
         socket_delivers 1 open_event] n
  | None => None
  end.

(** From [n] to [n'] the transport still holds a socket of the store, and
    no socket of the store is lost. *)
Definition keeps_transport (n n' : Net) : Prop :=
  constructed n' /\
  forall i : nat, is_Some (sockets n !! i) -> is_Some (sockets n' !! i).

(** * ExSIP.RTCSession.DTMF

    A string is the sequence of its code units, which are taken to be
    below 256.  An exception leaves the object as the statements before it
    have made it, so a computation gives an outcome and a state. *)

(** [\s], among the code units below 256. *)
Definition is_space (c : ascii) : bool :=
  existsb (Nat.eqb (nat_of_ascii c)) [9; 10; 11; 12; 13; 32; 160]%nat.

(** What [.] does not match. *)
Definition is_line_terminator (c : ascii) : bool :=
  existsb (Nat.eqb (nat_of_ascii c)) [10; 13]%nat.

(** [[0-9A-D#*]]. *)
Definition is_tone (c : ascii) : bool :=
  is_digit c
  || ((65 <=? nat_of_ascii c)%nat && (nat_of_ascii c <=? 68)%nat)
  || (nat_of_ascii c =? 35)%nat
  || (nat_of_ascii c =? 42)%nat.

(** [toUpperCase()]: a character outside ASCII does not become one of
    ASCII, and is left as it is. *)
Definition toUpperCase_char (c : ascii) : ascii :=
  if (97 <=? nat_of_ascii c)%nat && (nat_of_ascii c <=? 122)%nat
  then ascii_of_nat (nat_of_ascii c - 32)
  else c.

Fixpoint toUpperCase (s : string) : string :=
  match s with
  | EmptyString => EmptyString
  | String c s' => String (toUpperCase_char c) (toUpperCase s')
  end.

(** [s.match(/^[0-9A-D#*]$/)], as a condition. *)
Definition match_tone (s : string) : bool :=
  match s with
  | String c EmptyString => is_tone c
  | _ => false
  end.

(** [\s*] in front of a character that is no space; the lazy [\s*?] of
    [reg_tone] stops at the same place, since what follows it is [=] or a
    tone. *)
Fixpoint drop_spaces (s : string) : string :=
  match s with
  | String c s' => if is_space c then drop_spaces s' else s
  | EmptyString => s
  end.

(** [\s?] in front of a character that is no space. *)
Definition drop_space (s : string) : string :=
  match s with
  | String c s' => if is_space c then s' else s
  | EmptyString => s
  end.

(** [.*]: up to the first line terminator. *)
Fixpoint drop_line (s : string) : string :=
  match s with
  | String c s' => if is_line_terminator c then s else drop_line s'
  | EmptyString => s
  end.

Fixpoint strip_prefix (p s : string) : option string :=
  match p, s with
  | EmptyString, _ => Some s
  | String a p', String b s' => if Ascii.eqb a b then strip_prefix p' s' else None
  | String _ _, EmptyString => None
  end.

(** [/^(Signal\s*?=\s*?)([0-9A-D#*]{1})(\s)?.*/]: the second group, and
    what of the string comes after the match. *)
Definition reg_tone (s : string) : option (ascii * string) :=
  match strip_prefix "Signal" s with
  | Some rest =>
      match drop_spaces rest with
      | String "="%char rest =>
          match drop_spaces rest with
          | String c rest =>
              if is_tone c then Some (c, drop_line (drop_space rest)) else None
          | EmptyString => None
          end
      | _ => None
      end
  | None => None
  end.

(** Up to [k] digits. *)
Fixpoint take_digits (k : nat) (s : string) : string * string :=
  match k, s with
  | S k', String c s' =>
      if is_digit c then
        let (digits, rest) := take_digits k' s' in (String c digits, rest)
      else (EmptyString, s)
  | _, _ => (EmptyString, s)
  end.

(** [/^(Duration\s?=\s?)([0-9]{1,4})(\s)?.*/]: the second group, and
    what of the string comes after the match. *)
Definition reg_duration (s : string) : option (string * string) :=
  match strip_prefix "Duration" s with
  | Some rest =>
      match drop_space rest with
      | String "="%char rest =>
          match take_digits 4 (drop_space rest) with
          | (EmptyString, _) => None
          | (digits, rest) => Some (digits, drop_line (drop_space rest))
          end
      | _ => None
      end
  | None => None
  end.

(** The number that a run of digits at the head of [s] writes. *)
Fixpoint digits_value (acc : Z) (s : string) : Z :=
  match s with
  | String c s' =>
      if is_digit c then digits_value (10 * acc + (Z.of_nat (nat_of_ascii c) - 48))%Z s'
      else acc
  | EmptyString => acc
  end.

(** [parseInt(s, 10)]; [None] is [NaN]. *)
Definition parseInt (s : string) : option Z :=
  let s := drop_spaces s in
  let '(negative, s) :=
    match s with
    | String "-"%char s' => (true, s')
    | String "+"%char s' => (false, s')
    | _ => (false, s)
    end in
  match s with
  | String c _ =>
      if is_digit c
      then Some (if (negative : bool) then - digits_value 0 s else digits_value 0 s)%Z
      else None
  | EmptyString => None
  end.

(** [s.split('\r\n')]. *)
Fixpoint split_CRLF (s : string) : list string :=
  match s with
  | EmptyString => [EmptyString]
  | String c s' =>
      match s' with
      | String c' s'' =>
          if Ascii.eqb c "013"%char && Ascii.eqb c' "010"%char
          then EmptyString :: split_CRLF s''
          else match split_CRLF s' with
               | p :: ps => String c p :: ps
               | [] => [String c EmptyString]
               end
      | EmptyString => [String c EmptyString]
      end
  end.

(** What [duration] holds: [null], or a number, which may be [NaN]. *)
Inductive duration_value : Type :=
| duration_null
| duration_NaN
| duration_number (n : Z).

Record DTMF : Type := {
  dtmf_direction : option string;
  dtmf_tone : option string;
  dtmf_duration : duration_value;
  dtmf_interToneGap : option Z;
  (** whether [dtmfSender] is a sender, and not [null] *)
  dtmf_dtmfSender : bool;
  (** whether [request] has been set *)
  dtmf_request : bool
}.

Inductive dtmf_call : Type :=
| createDTMFSender
| insertDTMF (tone : option string) (duration interToneGap : option Z)
| session_emit_newDTMF (originator : string)
| request_reply (code : Z).

Inductive exception : Type :=
| TypeError_Not_enough_arguments
| TypeError_Invalid_tone
| InvalidStateError (status : Z)
(** a property of [null] is read *)
| TypeError_of_null
(** what [on] may throw *)
| thrown_by_on (what : string).

Record Session : Type := {
  dtmf : DTMF;
  session_status : Z;
  dtmf_calls : list dtmf_call
}.

Definition session_with_dtmf (v : DTMF) (c : Session) : Session :=
  {| dtmf := v; session_status := session_status c; dtmf_calls := dtmf_calls c |}.

Definition session_with_calls (v : list dtmf_call) (c : Session) : Session :=
  {| dtmf := dtmf c; session_status := session_status c; dtmf_calls := v |}.

Definition dtmf_set_direction (v : string) (d : DTMF) : DTMF :=
  {| dtmf_direction := Some v; dtmf_tone := dtmf_tone d;
     dtmf_duration := dtmf_duration d; dtmf_interToneGap := dtmf_interToneGap d;
     dtmf_dtmfSender := dtmf_dtmfSender d; dtmf_request := dtmf_request d |}.

Definition dtmf_set_tone (v : string) (d : DTMF) : DTMF :=
  {| dtmf_direction := dtmf_direction d; dtmf_tone := Some v;
     dtmf_duration := dtmf_duration d; dtmf_interToneGap := dtmf_interToneGap d;
     dtmf_dtmfSender := dtmf_dtmfSender d; dtmf_request := dtmf_request d |}.

Definition dtmf_set_duration (v : duration_value) (d : DTMF) : DTMF :=
  {| dtmf_direction := dtmf_direction d; dtmf_tone := dtmf_tone d;
     dtmf_duration := v; dtmf_interToneGap := dtmf_interToneGap d;
     dtmf_dtmfSender := dtmf_dtmfSender d; dtmf_request := dtmf_request d |}.

Definition dtmf_set_dtmfSender (d : DTMF) : DTMF :=
  {| dtmf_direction := dtmf_direction d; dtmf_tone := dtmf_tone d;
     dtmf_duration := dtmf_duration d; dtmf_interToneGap := dtmf_interToneGap d;
     dtmf_dtmfSender := true; dtmf_request := dtmf_request d |}.

Definition dtmf_set_request (d : DTMF) : DTMF :=
  {| dtmf_direction := dtmf_direction d; dtmf_tone := dtmf_tone d;
     dtmf_duration := dtmf_duration d; dtmf_interToneGap := dtmf_interToneGap d;
     dtmf_dtmfSender := dtmf_dtmfSender d; dtmf_request := true |}.

(** Computations that may throw. *)
Inductive outcome (A : Type) : Type :=
| returned (a : A)
| thrown (e : exception).
Arguments returned {A} a.
Arguments thrown {A} e.

Definition D (A : Type) : Type := Session -> outcome A * Session.

Definition D_ret {A : Type} (a : A) : D A := fun c => (returned a, c).

Definition D_bind {A B : Type} (f : A -> D B) (m : D A) : D B :=
  fun c => match m c with
           | (returned a, c') => f a c'
           | (thrown e, c') => (thrown e, c')
           end.

#[global] Instance D_MRet : MRet D := @D_ret.
#[global] Instance D_MBind : MBind D := @D_bind.

Definition throw {A : Type} (e : exception) : D A := fun c => (thrown e, c).

Definition this_dtmf : D DTMF := fun c => (returned (dtmf c), c).

Definition set_dtmf (f : DTMF -> DTMF) : D unit :=
  fun c => (returned tt, session_with_dtmf (f (dtmf c)) c).

Definition the_session : D Session := fun c => (returned c, c).

Definition dtmf_call_out (x : dtmf_call) : D unit :=
  fun c => (returned tt, session_with_calls (x :: dtmf_calls c) c).

(** The first argument of [send]. *)
Inductive tone_argument : Type :=
| tone_undefined
| tone_string (s : string)
(** an integral number *)
| tone_number (n : Z)
(** a number that is not integral, [NaN] or an infinity: its string has
    more than one character *)
| tone_other_number
(** [null], a boolean, an object *)
| tone_other.

(** The second argument of [send], where it is given; [extraHeaders] is
    copied and not used. *)
Record send_options : Type := {
  eventHandlers : list (string * nat);
  options_duration : option Z;
  options_interToneGap : option Z
}.

Definition no_options : send_options :=
  {| eventHandlers := []; options_duration := None; options_interToneGap := None |}.

Section DTMFMethods.

(** The two states of a session in which [send] goes on, and [on] of the
    event emitter: they are not among the sources. *)
Variable STATUS_CONFIRMED STATUS_WAITING_FOR_ACK : Z.
Variable on : string -> nat -> D unit.

Fixpoint register (handlers : list (string * nat)) : D unit :=
  match handlers with
  | [] => mret tt
  | (event, handler) :: handlers' => on event handler ;; register handlers'
  end.

(** [send(tone, options)]. *)
Definition DTMF_send (tone : tone_argument) (options : option send_options) : D unit :=
  match tone with
  | tone_undefined => throw TypeError_Not_enough_arguments
  | _ =>
      set_dtmf (dtmf_set_direction "outgoing") ;;
      c ← the_session;
      if negb (session_status c =? STATUS_CONFIRMED)%Z
         && negb (session_status c =? STATUS_WAITING_FOR_ACK)%Z
      then throw (InvalidStateError (session_status c))
      else
        let options := default no_options options in
        tone ← match tone with
               | tone_string s => mret (toUpperCase s)
               | tone_number n => mret (ToString n)
               | tone_other_number => throw TypeError_Invalid_tone
               | _ => throw TypeError_Invalid_tone
               end;
        if negb (match_tone tone) then throw TypeError_Invalid_tone
        else
          set_dtmf (dtmf_set_tone tone) ;;
          register (eventHandlers options) ;;
          this ← this_dtmf;
          if dtmf_dtmfSender this then
            dtmf_call_out (insertDTMF (dtmf_tone this) (options_duration options)
                             (options_interToneGap options)) ;;
            dtmf_call_out (session_emit_newDTMF "local")
          else throw TypeError_of_null
  end.

End DTMFMethods.

(** [enableDtmfSender(localstream, peerConnection)], given whether the two
    arguments are objects. *)
Definition DTMF_enableDtmfSender (localstream peerConnection : bool) : D unit :=
  if localstream then
    if peerConnection then
      dtmf_call_out createDTMFSender ;;
      set_dtmf dtmf_set_dtmfSender
    else throw TypeError_of_null
  else mret tt.

(** [new DTMF(session, localMedia, peerConnection)]. *)
Definition DTMF_new (status : Z) (localMedia peerConnection : bool)
    : outcome unit * Session :=
  DTMF_enableDtmfSender localMedia peerConnection
    {| dtmf := {| dtmf_direction := None; dtmf_tone := None;
                  dtmf_duration := duration_null; dtmf_interToneGap := None;
                  dtmf_dtmfSender := false; dtmf_request := false |};
       session_status := status; dtmf_calls := [] |}.

(** [init_incoming(request)], given the body of the request. *)
Definition DTMF_init_incoming (body : option string) : D unit :=
  set_dtmf (dtmf_set_direction "incoming") ;;
  set_dtmf dtmf_set_request ;;
  dtmf_call_out (request_reply 200) ;;
  match body with
  | Some (String _ _ as body) =>
      match split_CRLF body with
      | [body0; body1] =>
          match reg_tone body0 with
          | Some (c, rest) => set_dtmf (dtmf_set_tone (String c rest))
          | None => mret tt
          end ;;
          match reg_duration body1 with
          | Some (digits, rest) =>
              set_dtmf (dtmf_set_duration
                          match parseInt (digits ++ rest) with
                          | Some n => duration_number n
                          | None => duration_NaN
                          end)
          | None => mret tt
          end
      | _ => mret tt
      end
  | _ => mret tt
  end ;;
  this ← this_dtmf;
  if match dtmf_tone this with
     | Some (String _ _) => false
     | _ => true
     end
     || match dtmf_duration this with
        | duration_number n => (n =? 0)%Z
        | _ => true
        end
  then mret tt
  else dtmf_call_out (session_emit_newDTMF "remote").

(** ** Vocabulary for DTMF *)

(** Every character of [s] is one that [p] accepts. *)
Fixpoint string_forall (p : ascii -> bool) (s : string) : bool :=
  match s with
  | EmptyString => true
  | String c s' => p c && string_forall p s'
  end.

(** A space or a tab. *)
Definition is_blank (c : ascii) : bool :=
  Ascii.eqb c " "%char || Ascii.eqb c "009"%char.

Definition not_line_terminator (c : ascii) : bool := negb (is_line_terminator c).

(** [s] does not begin with a digit. *)
Definition no_digit_ahead (s : string) : bool :=
  match s with
  | String c _ => negb (is_digit c)
  | EmptyString => true
  end.

(** The characters that [send] takes for a tone. *)
Definition tone_characters : list ascii := list_ascii_of_string "0123456789ABCDabcd#*".

(** The states of a session in ExSIP.RTCSession.C, for the examples. *)
Definition example_STATUS_WAITING_FOR_ACK : Z := 6.
Definition example_STATUS_CONFIRMED : Z := 9.

(** An [on] that takes the two events of a DTMF and throws for any other. *)
Definition example_on (event : string) (handler : nat) : D unit :=
  if decide (event = "succeeded" \/ event = "failed") then mret tt
  else throw (thrown_by_on event).

(** ** Running the primitive steps *)

Ltac run_step :=
  first
    [ progress unfold mbind, M_MBind, M_bind, mret, M_MRet, M_ret, get_subscription,
        modify_subscription, get_subscriber, modify_subscriber, get_env, emit,
        setTimeout, clearTimeout, modify_sessions, alloc
    | rewrite lookup_insert_eq
    | progress simpl ].

Ltac run := repeat run_step.

(** The same, reading the store through the equation [H]. *)
Ltac run_at H := repeat first [ rewrite H | run_step ].

Lemma createSubscribeRequest_run w dialog params :
  createSubscribeRequest dialog params w
  = Some (subscribe_request w params,
          with_subscriber (set_cseq (cseq (subscriber w) + 1) (subscriber w)) w).
Proof. reflexivity. Qed.

Lemma Subscription_unsubscribe_run w r s :
  store w !! r = Some s ->
  Subscription_unsubscribe r w
  = Some (tt,
      {| env := env w;
         subscriber := set_cseq (cseq (subscriber w) + 1) (subscriber w);
         store := <[r := sn_set_N (Some (next_timer w)) (sn_set_state "terminated" s)]> (store w);
         next_ref := next_ref w;
         timers := <[next_timer w := (subscription_timer_N r, (Timers_T1 (env w) * 64)%Z)]>
                     (cleared (sn_N s) (timers w));
         next_timer := S (next_timer w);
         sessions := sessions w;
         log := request_sender_send (unsubscription r)
                  (setHeader "Expires" 0 (subscribe_request w None)) :: log w |}).
Proof.
  intros Hs. unfold Subscription_unsubscribe. run. rewrite Hs. run.
  rewrite insert_insert_eq. reflexivity.
Qed.

Lemma set_cseq_same s : set_cseq (cseq s) s = s.
Proof. by destruct s. Qed.

Lemma unsubscribed_from_refl s : unsubscribed_from s s.
Proof. unfold unsubscribed_from; auto. Qed.

Lemma unsubscribed_from_trans s1 s2 s3 :
  unsubscribed_from s1 s2 -> unsubscribed_from s2 s3 -> unsubscribed_from s1 s3.
Proof.
  unfold unsubscribed_from.
  intros (-> & -> & -> & H1) (-> & -> & -> & H2).
  repeat split; try done. destruct H2 as [->|]; auto.
Qed.

Lemma unsubscribed_refl w : unsubscribed w w.
Proof.
  split; try done.
  - exists (cseq (subscriber w)). by rewrite set_cseq_same.
  - intros r. destruct (store w !! r); constructor. apply unsubscribed_from_refl.
  - exists []. split; [done | constructor].
Qed.

Lemma unsubscribed_trans w1 w2 w3 :
  unsubscribed w1 w2 -> unsubscribed w2 w3 -> unsubscribed w1 w3.
Proof.
  intros [E1 [c1 S1] T1 N1 X1 (l1 & L1 & F1)] [E2 [c2 S2] T2 N2 X2 (l2 & L2 & F2)].
  split; try congruence.
  - exists c2. rewrite S2, S1. reflexivity.
  - intros r. specialize (T1 r). specialize (T2 r).
    destruct T1; inversion T2; subst; constructor.
    eauto using unsubscribed_from_trans.
  - exists (l2 ++ l1)%list. rewrite L2, L1, app_assoc. split; [done|].
    by apply Forall_app.
Qed.

Lemma Subscription_unsubscribe_unsubscribed w r s :
  store w !! r = Some s ->
  exists w', Subscription_unsubscribe r w = Some (tt, w') /\ unsubscribed w w'.
Proof.
  intros Hs. eexists. split; [by apply Subscription_unsubscribe_run|].
  split; simpl; try done.
  - eauto.
  - intros r'. destruct (decide (r = r')) as [<-|Hne].
    + rewrite lookup_insert_eq, Hs. constructor.
      unfold unsubscribed_from; simpl; auto.
    + rewrite lookup_insert_ne by done.
      destruct (store w !! r'); constructor. apply unsubscribed_from_refl.
  - eexists [_]. split; [reflexivity|]. by repeat constructor.
Qed.

Lemma obj_get_keys {V : Type} (k : string) (o : list (string * V)) :
  k ∈ obj_keys o -> is_Some (obj_get k o).
Proof.
  unfold obj_keys. induction o as [|[k' v] o IH]; simpl.
  - by intros ?%elem_of_nil.
  - intros [->|Hin]%elem_of_cons; case_decide; try done; eauto.
Qed.

Lemma obj_get_delete {V : Type} (i k : string) (o : list (string * V)) (v : V) :
  obj_get k (obj_delete i o) = Some v -> obj_get k o = Some v.
Proof.
  induction o as [|[k' v'] o IH]; simpl; [done|].
  destruct (decide (i = k')) as [->|Hne]; simpl.
  - intros H. case_decide; [subst|by auto].
    clear IH. exfalso. induction o as [|[k2 v2] o IH]; simpl in H; [done|].
    destruct (decide (k' = k2)); simpl in H; auto.
    by case_decide.
  - case_decide; auto.
Qed.

Lemma unsubscribed_live w w' : unsubscribed w w' -> live w -> live w'.
Proof.
  intros [_ [c Hs] Ht _ _ _] Hl k r. rewrite Hs. simpl. intros Hk.
  destruct (Hl k r Hk) as [s Hr]. specialize (Ht r). rewrite Hr in Ht.
  inversion Ht; eauto.
Qed.

Lemma unsubscribed_subscriptions w w' :
  unsubscribed w w' -> subscriptions (subscriber w') = subscriptions (subscriber w).
Proof. intros [_ [c ->] _ _ _ _]. reflexivity. Qed.

Lemma unsubscribe_at_run k w r :
  obj_get k (subscriptions (subscriber w)) = Some r ->
  unsubscribe_at k w = Subscription_unsubscribe r w.
Proof. intros H. unfold unsubscribe_at. run. by rewrite H. Qed.

Lemma for_in_unsubscribe_at keys : forall w,
  live w ->
  (forall k, k ∈ keys -> is_Some (obj_get k (subscriptions (subscriber w)))) ->
  exists w', for_in keys unsubscribe_at w = Some (tt, w') /\ unsubscribed w w'.
Proof.
  induction keys as [|k keys IH]; intros w Hl Hk; simpl.
  - exists w. split; [reflexivity | apply unsubscribed_refl].
  - destruct (Hk k) as [r Hr]; [by left|].
    destruct (Hl k r Hr) as [s Hs].
    destruct (Subscription_unsubscribe_unsubscribed w r s Hs) as (w1 & Hrun & Hu).
    destruct (IH w1) as (w2 & Hrun2 & Hu2).
    + by eapply unsubscribed_live.
    + intros k' Hin. rewrite (unsubscribed_subscriptions _ _ Hu). apply Hk. by right.
    + exists w2. split; [|by eapply unsubscribed_trans].
      unfold mbind, M_MBind, M_bind.
      rewrite (unsubscribe_at_run k w r Hr), Hrun. exact Hrun2.
Qed.

Lemma Subscriber_close_terminated w :
  state (subscriber w) = Some "terminated" -> Subscriber_close w = Some (tt, w).
Proof.
  intros H. unfold Subscriber_close. run. rewrite H. by case_decide.
Qed.

Lemma Subscriber_close_open w :
  live w -> state (subscriber w) <> Some "terminated" ->
  exists w', Subscriber_close w = Some (tt, w') /\ Subscriber_closed w w'.
Proof.
  intros Hl Hst.
  set (w0 := with_timers (cleared (N (subscriber w)) (timers w)) (next_timer w)
               (with_subscriber (set_state (Some "terminated") (subscriber w)) w)).
  destruct (for_in_unsubscribe_at (obj_keys (subscriptions (subscriber w))) w0)
    as (w1 & Hrun & Hu).
  { exact Hl. }
  { intros k. apply obj_get_keys. }
  eexists. split.
  - unfold Subscriber_close. run. case_decide as Hd; [|by destruct Hst]. run.
    fold w0. rewrite Hrun. reflexivity.
  - destruct Hu as [E [c S] T NR X (sent & L & F)]. simpl in *.
    split; simpl; try done.
    + by rewrite S.
    + by rewrite S.
    + by rewrite S.
    + rewrite S, X. reflexivity.
    + exists sent. by rewrite L.
Qed.

Lemma Subscription_close_run w r s :
  store w !! r = Some s ->
  Subscription_close r w
  = (if decide (length (obj_keys (subscriptions
                  (subscriber (Subscription_close_before_decision r s w)))) = 0)
     then Subscriber_close else mret tt)
      (Subscription_close_before_decision r s w).
Proof.
  intros Hs. unfold Subscription_close, Subscription_terminateDialog,
    Subscriber_onSubscriptionTerminate, Subscription_close_before_decision,
    torn_down, dialog_calls.
  run. rewrite Hs. run.
  destruct (sn_dialog s) eqn:Hd; run; rewrite ?insert_insert_eq;
    destruct (sn_id s); reflexivity.
Qed.

Lemma Subscriber_closed_live w w' : Subscriber_closed w w' -> live w -> live w'.
Proof.
  intros [_ _ Hs _ Ht _ _] Hl k r. rewrite Hs. intros Hk.
  destruct (Hl k r Hk) as [s Hr]. specialize (Ht r). rewrite Hr in Ht.
  inversion Ht; eauto.
Qed.

Lemma torn_down_facts s :
  sn_state (torn_down s) = "terminated"
  /\ ToBoolean (sn_dialog (torn_down s)) = false
  /\ sn_id (torn_down s) = sn_id s /\ sn_expires (torn_down s) = sn_expires s.
Proof. unfold torn_down. destruct (sn_dialog s) eqn:Hd; simpl; rewrite ?Hd; done. Qed.

Lemma Subscription_close_before_decision_live w r s :
  live w -> live (Subscription_close_before_decision r s w).
Proof.
  intros Hl k r'. unfold Subscription_close_before_decision; simpl.
  intros Hk.
  assert (obj_get k (subscriptions (subscriber w)) = Some r') as Hk'.
  { destruct (sn_id s); simpl in Hk; eauto using obj_get_delete. }
  destruct (Hl k r' Hk') as [s' Hr'].
  destruct (decide (r = r')) as [<-|Hne].
  - rewrite lookup_insert_eq. eauto.
  - rewrite lookup_insert_ne by done. eauto.
Qed.

Lemma Subscription_close_spec w r s :
  live w -> store w !! r = Some s ->
  exists w', Subscription_close r w = Some (tt, w') /\ Subscription_closed r s w w'.
Proof.
  intros Hl Hs. rewrite (Subscription_close_run w r s Hs).
  pose proof (Subscription_close_before_decision_live w r s Hl) as Hl0.
  pose proof (torn_down_facts s) as (F1 & F2 & F3 & F4).
  set (w0 := Subscription_close_before_decision r s w) in *.
  assert (store w0 !! r = Some (torn_down s)) as Hr0 by apply lookup_insert_eq.
  assert (subscriptions (subscriber w0)
          = match sn_id s with
            | Some i => obj_delete i (subscriptions (subscriber w))
            | None => subscriptions (subscriber w)
            end) as Hsub0.
  { subst w0. unfold Subscription_close_before_decision. simpl. by destruct (sn_id s). }
  assert (Subscription_closed r s w w0) as Hstay.
  { split; try done.
    - exists (torn_down s). auto.
    - exists []. split; [reflexivity | by left]. }
  destruct (decide (state (subscriber w0) = Some "terminated")) as [Ht|Hnt].
  - exists w0. split; [|exact Hstay].
    case_decide; [by apply Subscriber_close_terminated | reflexivity].
  - case_decide; [|by exists w0].
    destruct (Subscriber_close_open w0 Hl0 Hnt) as (w' & Hrun & Hc).
    exists w'. split; [exact Hrun|].
    pose proof (Subscriber_closed_live _ _ Hc Hl0) as Hl'.
    destruct Hc as [E St Sb I T X (sent & L & F)].
    split; try done.
    + specialize (T r). rewrite Hr0 in T. inversion T as [? s' (Hi & Hd & He & Hst)|]; subst.
      exists s'. rewrite Hd, Hi, He. repeat split; try done.
      destruct Hst as [->| ->]; done.
    + by rewrite Sb.
    + exists (onTerminate :: sent). rewrite L. split; [reflexivity|]. right. eauto.
Qed.

(** The example worlds are worlds the engine gets into. *)
Example world_notify_wait_reached :
  Subscriber_subscribe "tagA" (world_idle "message-summary" 180)
  = Some (tt, world_notify_wait).
Proof. vm_compute. reflexivity. Qed.

Example world_one_reached :
  exists w, exec (Subscriber_receiveRequest Dialog_of_message
                    (example_notify "message-summary" "active" None)) world_notify_wait
            = Some w
            /\ subscriptions (subscriber w) = subscriptions (subscriber (world_one "active"))
            /\ (sn_state <$> store w !! 0) = Some "active".
Proof. eexists. split; [vm_compute; reflexivity|]. by vm_compute. Qed.

(** ** createSubscribeRequest *)

(** C7, as stated, fails on the code: for a Subscriber whose configured
    event is [presence] the request carries [Event: message-summary], not
    [Event: presence], and building the request changes the Subscriber (its
    [cseq] moves from 80 to 81), so the construction is not pure. *)
Lemma createSubscribeRequest_event_literal_and_cseq_bumped :
  exists request w',
    createSubscribeRequest js_null None (world_idle "presence" 180) = Some (request, w')
    /\ (String.append "Event: " (event (subscriber (world_idle "presence" 180)))
          ∉ or_extraHeaders request)
    /\ "Event: message-summary" ∈ or_extraHeaders request
    /\ cseq (subscriber (world_idle "presence" 180)) = 80%Z
    /\ cseq (subscriber w') = 81%Z
    /\ w' <> world_idle "presence" 180.
Proof.
  eexists _, _. split; [apply createSubscribeRequest_run|]. simpl. repeat split.
  - rewrite !elem_of_cons, elem_of_nil. intros H. by repeat destruct H as [H|H].
  - rewrite !elem_of_cons. auto.
  - intros H. apply (f_equal (fun w => cseq (subscriber w))) in H. by simpl in H.
Qed.

(** C7, amended: every request built by [createSubscribeRequest] is a
    SUBSCRIBE whose extra headers are exactly [Contact: <contact>],
    [Event: message-summary] (the literal, whatever event the Subscriber is
    configured with), [Date: <now>], [Accept:
    application/simple-message-summary] and [Allow: <comma-joined supported
    methods>]; it carries the Subscriber's [to_uri] and [call_id] and the
    incremented [cseq].  The request is not sent (the log is unchanged), but
    the construction is not pure: it increments the Subscriber's [cseq], and
    that is the only change to the world. *)
Theorem createSubscribeRequest_headers w dialog params :
  exists request w',
    createSubscribeRequest dialog params w = Some (request, w')
    /\ or_method request = "SUBSCRIBE"
    /\ or_extraHeaders request
       = [ "Contact: " +:+ contact (subscriber w);
           "Event: message-summary";
           "Date: " +:+ clock (env w);
           "Accept: application/simple-message-summary";
           "Allow: " +:+ String.concat "," (supported_methods (env w)) ]
    /\ p_to_uri (or_params request) = Some (to_uri (subscriber w))
    /\ p_call_id (or_params request) = Some (call_id (subscriber w))
    /\ p_cseq (or_params request) = Some (cseq (subscriber w) + 1)%Z
    /\ w' = with_subscriber (set_cseq (cseq (subscriber w) + 1) (subscriber w)) w
    /\ log w' = log w.
Proof.
  eexists _, _. split; [apply createSubscribeRequest_run|]. by repeat split.
Qed.

(** ** Timeouts and transport errors *)

(** C3, as stated, fails on the code: after [subscribe()], a transaction
    timeout leaves the Subscriber in ['notify_wait'] with its watchdog still
    live, its registry entry in place and [onTerminate] not called; a
    renewal timeout leaves an active Subscription active with its dialog. *)
Lemma timeout_does_not_close :
  (exists w', Subscriber_subscribe_onRequestTimeout world_notify_wait = Some (tt, w')
              /\ state (subscriber w') = Some "notify_wait"
              /\ timers w' !! 0 = Some (subscriber_timer_N, 32000%Z)
              /\ "a84b4c76e66710tagA" ∈ sessions w'
              /\ count_calls is_onTerminate (log w') = 0)
  /\ (exists w' s', Subscription_subscribe_onRequestTimeout 0 (world_one "active")
                      = Some (tt, w')
                    /\ store w' !! 0 = Some s'
                    /\ sn_state s' = "active"
                    /\ sn_dialog s' = js_object example_dialog
                    /\ count_calls (is_onSubscriptionTerminate 0) (log w') = 0).
Proof.
  split.
  - eexists. split; [reflexivity|]. by repeat split.
  - eexists _, _. split; [reflexivity|]. by repeat split.
Qed.

(** C3, amended: on a transaction timeout or a transport error of a
    SUBSCRIBE (the initial one, a renewal, or the one sent by
    [unsubscribe()]) the handler only reports the failure to the Subscriber's
    [onFailure], with no response and cause [REQUEST_TIMEOUT] or
    [CONNECTION_ERROR] respectively.  It does not call [close()]: states,
    timers, dialogs and the registry are left as they were. *)
Theorem timeout_and_transport_error_only_report w r :
  Subscriber_subscribe_onRequestTimeout w
    = Some (tt, with_log (onFailure None (Some REQUEST_TIMEOUT) :: log w) w)
  /\ Subscriber_subscribe_onTransportError w
    = Some (tt, with_log (onFailure None (Some CONNECTION_ERROR) :: log w) w)
  /\ Subscription_subscribe_onRequestTimeout r w
    = Some (tt, with_log (onFailure None (Some REQUEST_TIMEOUT) :: log w) w)
  /\ Subscription_subscribe_onTransportError r w
    = Some (tt, with_log (onFailure None (Some CONNECTION_ERROR) :: log w) w)
  /\ Subscription_unsubscribe_onRequestTimeout r w
    = Some (tt, with_log (onFailure None (Some REQUEST_TIMEOUT) :: log w) w)
  /\ Subscription_unsubscribe_onTransportError r w
    = Some (tt, with_log (onFailure None (Some CONNECTION_ERROR) :: log w) w).
Proof. by repeat split. Qed.

(** ** NOTIFY with an unknown Subscription-State *)

Lemma Subscriber_matchEvent_true request w :
  fst <$> Subscriber_matchEvent request w = Some true ->
  Subscriber_matchEvent request w = Some (true, w)
  /\ is_Some (req_Subscription_State request).
Proof.
  unfold Subscriber_matchEvent.
  destruct (req_Event request), (req_Subscription_State request); try done.
  run. case_decide; by eauto.
Qed.

(** C9: a NOTIFY that passes [matchEvent] and whose Subscription-State
    token is none of [pending], [active], [terminated] leaves the world as
    it was: no Subscription is created, [close()] is not called, no timer is
    touched and nothing is replied. *)
Theorem receiveRequest_unknown_state_is_ignored Dialog_constructor request w :
  fst <$> Subscriber_matchEvent request w = Some true ->
  (forall ss, req_Subscription_State request = Some ss ->
              ss_state ss <> "pending" /\ ss_state ss <> "active"
              /\ ss_state ss <> "terminated") ->
  Subscriber_receiveRequest Dialog_constructor request w = Some (tt, w).
Proof.
  intros Hm Htoken.
  destruct (Subscriber_matchEvent_true request w Hm) as (Hrun & ss & Hss).
  destruct (Htoken ss Hss) as (Hp & Ha & Ht).
  unfold Subscriber_receiveRequest.
  unfold mbind at 1, M_MBind at 1, M_bind at 1. rewrite Hrun. simpl.
  rewrite Hss. run.
  case_decide as Hd; [by destruct Hd|]. by case_decide.
Qed.

Lemma receiveRequest_unknown_state_is_ignored_witness :
  Subscriber_receiveRequest Dialog_of_message
    (example_notify "message-summary" "waiting" (Some 60%Z)) world_notify_wait
  = Some (tt, world_notify_wait).
Proof.
  apply receiveRequest_unknown_state_is_ignored.
  - reflexivity.
  - intros ss [= <-]. simpl. by repeat split.
Defined.

(** ** Counting calls *)

Lemma count_calls_cons P c l :
  count_calls P (c :: l) = (if P c then 1 else 0) + count_calls P l.
Proof.
  unfold count_calls. rewrite filter_cons.
  destruct (P c); by case_decide.
Qed.

Lemma count_calls_app P l1 l2 :
  count_calls P (l1 ++ l2)%list = count_calls P l1 + count_calls P l2.
Proof. unfold count_calls. by rewrite filter_app, length_app. Qed.

Lemma count_calls_sends P sent :
  (forall a q, P (request_sender_send a q) = false) ->
  Forall (fun c => is_send c = true) sent ->
  count_calls P sent = 0.
Proof.
  intros HP. induction 1 as [|c l Hc _ IH]; [done|].
  rewrite count_calls_cons, IH. destruct c; try done. by rewrite HP.
Qed.

Lemma count_calls_dialog_calls P s :
  count_calls P (dialog_calls s)
  = match sn_dialog s with
    | js_object d => if P (dialog_terminate d) then 1 else 0
    | _ => 0
    end.
Proof.
  unfold dialog_calls. destruct (sn_dialog s); try done.
  rewrite count_calls_cons. unfold count_calls. simpl. lia.
Qed.

(** The calls of one [close()] of a Subscription: one
    [onSubscriptionTerminate], one [dialog.terminate()] if there was a
    dialog, at most one [onTerminate], nothing to the application. *)
Lemma Subscription_closed_counts r s w w' :
  Subscription_closed r s w w' ->
  count_calls (is_onSubscriptionTerminate r) (log w')
    = S (count_calls (is_onSubscriptionTerminate r) (log w))
  /\ count_calls is_dialog_terminate (log w')
    = (if ToBoolean (sn_dialog s) then 1 else 0) + count_calls is_dialog_terminate (log w)
  /\ count_calls is_onFailure (log w') = count_calls is_onFailure (log w)
  /\ count_calls is_receiveInfo (log w') = count_calls is_receiveInfo (log w).
Proof.
  intros [_ _ _ _ (pre & L & Hpre)]. rewrite L.
  rewrite !count_calls_app, !count_calls_cons, !count_calls_app,
    !count_calls_dialog_calls.
  simpl. rewrite bool_decide_eq_true_2 by done.
  assert (forall P, (forall a q, P (request_sender_send a q) = false) ->
                    P onTerminate = false -> count_calls P pre = 0) as Hz.
  { intros P HP HT. destruct Hpre as [->|(sent & -> & F)]; [done|].
    rewrite count_calls_cons, HT. simpl. by apply count_calls_sends. }
  rewrite !Hz by done.
  destruct (sn_dialog s); simpl; repeat split; lia.
Qed.

(** ** Renewal responses *)

Lemma indexOf_from_found x l : forall i, x ∈ l -> (i <= indexOf_from i x l)%Z.
Proof.
  induction l as [|y l IH]; intros i Hin; simpl.
  - by apply elem_of_nil in Hin.
  - destruct (x =? y)%Z eqn:E; [lia|].
    apply elem_of_cons in Hin as [->|Hin]; [lia|].
    specialize (IH (i + 1)%Z Hin). lia.
Qed.

Lemma indexOf_found l x : x ∈ l -> indexOf l x <> (-1)%Z.
Proof. intros H. pose proof (indexOf_from_found x l 0 H). unfold indexOf. lia. Qed.

Lemma world_one_live st : live (world_one st).
Proof.
  intros k r. simpl. case_decide; [|done]. intros [= <-]. by eexists.
Qed.

(** C6: a response to a renewal SUBSCRIBE whose status code is one of
    [error_codes] closes the Subscription (state ['terminated'], dialog torn
    down, [onSubscriptionTerminate] called once) and then reports the
    failure with the response itself and no cause, whatever the response's
    [Expires] is. *)
Theorem renewal_error_code_closes w r s response :
  live w -> store w !! r = Some s -> status_code response ∈ error_codes ->
  exists w1 w',
    Subscription_close r w = Some (tt, w1)
    /\ Subscription_subscribe_receiveResponse r response w = Some (tt, w')
    /\ w' = with_log (onFailure (Some response) None :: log w1) w1
    /\ (exists s', store w' !! r = Some s' /\ sn_state s' = "terminated"
                   /\ ToBoolean (sn_dialog s') = false)
    /\ count_calls (is_onSubscriptionTerminate r) (log w')
       = S (count_calls (is_onSubscriptionTerminate r) (log w))
    /\ count_calls is_onFailure (log w') = S (count_calls is_onFailure (log w)).
Proof.
  intros Hl Hs Hcode.
  destruct (Subscription_close_spec w r s Hl Hs) as (w1 & Hrun & Hc).
  destruct (Subscription_closed_counts r s w w1 Hc) as (C1 & _ & C3 & _).
  exists w1, (with_log (onFailure (Some response) None :: log w1) w1).
  split; [exact Hrun|]. split.
  - unfold Subscription_subscribe_receiveResponse.
    case_decide as Hd; [|by destruct (indexOf_found _ _ Hcode)].
    unfold mbind, M_MBind, M_bind. rewrite Hrun. reflexivity.
  - split; [reflexivity|]. simpl. split.
    + destruct Hc as [_ (s' & ? & ? & ? & _) _ _ _]. eauto.
    + rewrite !count_calls_cons. simpl. lia.
Qed.

Lemma renewal_error_code_closes_witness :
  exists w1 w',
    Subscription_close 0 (world_one "active") = Some (tt, w1)
    /\ Subscription_subscribe_receiveResponse 0 (example_response 480 (Some 120%Z))
         (world_one "active") = Some (tt, w')
    /\ w' = with_log (onFailure (Some (example_response 480 (Some 120%Z))) None :: log w1) w1
    /\ (exists s', store w' !! 0 = Some s' /\ sn_state s' = "terminated"
                   /\ ToBoolean (sn_dialog s') = false)
    /\ count_calls (is_onSubscriptionTerminate 0) (log w')
       = S (count_calls (is_onSubscriptionTerminate 0) (log (world_one "active")))
    /\ count_calls is_onFailure (log w')
       = S (count_calls is_onFailure (log (world_one "active"))).
Proof.
  eapply (renewal_error_code_closes (world_one "active") 0).
  - apply world_one_live.
  - reflexivity.
  - apply (bool_decide_unpack _). by vm_compute.
Defined.

(** ** unsubscribe() of a Subscription *)

(** C5, as stated, fails on the code: [unsubscribe()] on an active
    Subscription leaves the Subscription with its dialog, and
    [dialog.terminate()] has not been called when it returns. *)
Lemma unsubscribe_keeps_dialog :
  exists w' s',
    Subscription_unsubscribe 0 (world_one "active") = Some (tt, w')
    /\ store w' !! 0 = Some s'
    /\ sn_state s' = "terminated"
    /\ sn_dialog s' = js_object example_dialog
    /\ count_calls is_dialog_terminate (log w') = 0.
Proof.
  eexists _, _. split; [by apply Subscription_unsubscribe_run|].
  by repeat split.
Qed.


(** ** NOTIFY received by a Subscription *)

Lemma Subscription_rearm_run w r s ss :
  store w !! r = Some s ->
  Subscription_rearm r ss w
  = Some (tt,
      with_store (<[r := rearmed (js_or (ss_expires ss) (sn_expires s)) (next_timer w) s]>
                    (store w)) (next_ref w)
        (with_timers
           (<[next_timer w := (subscription_timer_N r,
                               (js_or (ss_expires ss) (sn_expires s) * 1000)%Z)]>
              (cleared (sn_N s) (timers w)))
           (S (next_timer w)) w)).
Proof.
  intros Hs. unfold Subscription_rearm. run_at Hs.
  by rewrite insert_insert_eq.
Qed.

Lemma accepted_run request initial w :
  accepted request initial w ->
  (if initial then mret true else Subscriber_matchEvent request) w = Some (true, w).
Proof.
  intros [->|H]; [reflexivity|].
  destruct initial; [reflexivity|]. by apply Subscriber_matchEvent_true.
Qed.

(** An accepted NOTIFY with [Subscription-State: active]. *)
Lemma Subscription_receiveRequest_active w r s request ss initial :
  store w !! r = Some s -> accepted request initial w ->
  req_Subscription_State request = Some ss -> ss_state ss = "active" ->
  Subscription_receiveRequest r request initial w
  = Some (tt,
      {| env := env w; subscriber := subscriber w;
         store := <[r := rearmed (js_or (ss_expires ss) (sn_expires s)) (next_timer w)
                           (sn_set_state "active" s)]> (store w);
         next_ref := next_ref w;
         timers := <[next_timer w := (subscription_timer_N r,
                                      (js_or (ss_expires ss) (sn_expires s) * 1000)%Z)]>
                     (cleared (sn_N s) (timers w));
         next_timer := S (next_timer w);
         sessions := sessions w;
         log := receiveInfo request
                :: reply request 200 REASON_200
                     ["Contact: <" +:+ contact (subscriber w) +:+ ">"]
                :: log w |}).
Proof.
  intros Hs Hacc Hss Hact. unfold Subscription_receiveRequest.
  unfold mbind at 1, M_MBind at 1, M_bind at 1.
  rewrite (accepted_run _ _ _ Hacc). simpl. rewrite Hss.
  case_decide; [|done]. run. rewrite Hs. run.
  set (w1 := with_log _ _).
  rewrite (Subscription_rearm_run w1 r (sn_set_state "active" s) ss)
    by apply lookup_insert_eq.
  subst w1. simpl. by rewrite insert_insert_eq.
Qed.

(** An accepted NOTIFY with [Subscription-State: pending]. *)
Lemma Subscription_receiveRequest_pending w r s request ss initial :
  store w !! r = Some s -> accepted request initial w ->
  req_Subscription_State request = Some ss -> ss_state ss = "pending" ->
  Subscription_receiveRequest r request initial w
  = Some (tt,
      {| env := env w; subscriber := subscriber w;
         store := <[r := rearmed (js_or (ss_expires ss) (sn_expires s)) (next_timer w) s]>
                    (store w);
         next_ref := next_ref w;
         timers := <[next_timer w := (subscription_timer_N r,
                                      (js_or (ss_expires ss) (sn_expires s) * 1000)%Z)]>
                     (cleared (sn_N s) (timers w));
         next_timer := S (next_timer w);
         sessions := sessions w;
         log := reply request 200 REASON_200
                  ["Contact: <" +:+ contact (subscriber w) +:+ ">"]
                :: log w |}).
Proof.
  intros Hs Hacc Hss Hpen. unfold Subscription_receiveRequest.
  unfold mbind at 1, M_MBind at 1, M_bind at 1.
  rewrite (accepted_run _ _ _ Hacc). simpl. rewrite Hss.
  case_decide as Ha; [by rewrite Hpen in Ha|]. case_decide; [|done]. run.
  set (w1 := with_log _ _).
  rewrite (Subscription_rearm_run w1 r s ss) by exact Hs.
  reflexivity.
Qed.

(** C4, as stated, fails on the code: a Subscription that is already
    active and receives a NOTIFY with [Subscription-State: active] delivers
    it to the application all the same. *)
Lemma active_notify_delivered_when_already_active :
  exists w',
    Subscription_receiveRequest 0 (example_notify "message-summary" "active" None) false
      (world_one "active") = Some (tt, w')
    /\ sn_state <$> store (world_one "active") !! 0 = Some "active"
    /\ count_calls is_receiveInfo (log (world_one "active")) = 0
    /\ count_calls is_receiveInfo (log w') = 1.
Proof.
  eexists. split.
  - eapply (Subscription_receiveRequest_active _ 0 (example_subscription "active"));
      try reflexivity. by right.
  - by repeat split.
Qed.

(** C4, amended: an accepted NOTIFY with [Subscription-State: active] is
    answered with 200, makes the Subscription active, re-arms its watchdog
    for the negotiated expires (the header's [expires] parameter when it is
    present and not zero, the previous value otherwise) times 1000 ms, and
    is delivered to the application ([receiveInfo]) exactly once, whatever
    the previous state was, ['active'] included. *)
Theorem active_notify_activates_rearms_and_delivers w r s request ss initial :
  store w !! r = Some s -> accepted request initial w ->
  req_Subscription_State request = Some ss -> ss_state ss = "active" ->
  exists w' s',
    Subscription_receiveRequest r request initial w = Some (tt, w')
    /\ store w' !! r = Some s'
    /\ sn_state s' = "active"
    /\ sn_expires s' = js_or (ss_expires ss) (sn_expires s)
    /\ sn_N s' = Some (next_timer w)
    /\ timers w' = <[next_timer w := (subscription_timer_N r,
                                      (js_or (ss_expires ss) (sn_expires s) * 1000)%Z)]>
                     (cleared (sn_N s) (timers w))
    /\ log w' = receiveInfo request
                :: reply request 200 REASON_200
                     ["Contact: <" +:+ contact (subscriber w) +:+ ">"]
                :: log w
    /\ count_calls is_receiveInfo (log w') = S (count_calls is_receiveInfo (log w)).
Proof.
  intros Hs Hacc Hss Hact. eexists _, _.
  split; [by eapply Subscription_receiveRequest_active|]. simpl.
  split; [apply lookup_insert_eq|]. by repeat split.
Qed.

Lemma active_notify_activates_rearms_and_delivers_witness :
  exists w' s',
    Subscription_receiveRequest 0 (example_notify "message-summary" "active" (Some 60%Z))
      false (world_one "pending") = Some (tt, w')
    /\ store w' !! 0 = Some s'
    /\ sn_state s' = "active"
    /\ sn_expires s' = 60%Z
    /\ sn_N s' = Some 2
    /\ timers w' = <[2 := (subscription_timer_N 0, 60000%Z)]>
                     (cleared (Some 1) (timers (world_one "pending")))
    /\ log w' = [receiveInfo (example_notify "message-summary" "active" (Some 60%Z));
                 reply (example_notify "message-summary" "active" (Some 60%Z)) 200 "OK"
                   ["Contact: <sip:alice@ws.invalid;transport=ws>"]]
    /\ count_calls is_receiveInfo (log w') = 1.
Proof.
  apply (active_notify_activates_rearms_and_delivers (world_one "pending") 0
           (example_subscription "pending")
           (example_notify "message-summary" "active" (Some 60%Z))
           {| ss_state := "active"; ss_expires := Some 60%Z; ss_reason := None |} false).
  - reflexivity.
  - right. reflexivity.
  - reflexivity.
  - reflexivity.
Defined.

(** ** The constructor of a Subscription *)

Lemma js_new_object {O : Type} (this : O) (returned : js_value O) :
  js_new this returned
  = js_object (match returned with js_object o => o | _ => this end).
Proof. by destruct returned. Qed.

Lemma Subscription_createConfirmedDialog_run Dialog_constructor w r s message type :
  store w !! r = Some s ->
  Subscription_createConfirmedDialog Dialog_constructor r message type w
  = Some (true,
          with_store
            (<[r := sn_set_dialog
                      (js_object (constructed_dialog Dialog_constructor message type)) s]>
               (store w))
            (next_ref w) w).
Proof.
  intros Hs. unfold Subscription_createConfirmedDialog, constructed_dialog.
  rewrite js_new_object. run_at Hs. reflexivity.
Qed.

Lemma obj_get_set {V : Type} (k : string) (v : V) (o : list (string * V)) :
  obj_get k (obj_set k v o) = Some v.
Proof.
  induction o as [|[k' v'] o IH]; simpl.
  - by case_decide.
  - destruct (decide (k = k')) as [->|Hne]; simpl; by case_decide.
Qed.

Lemma Subscription_new_run Dialog_constructor id request state' expires' w :
  dialog_id (constructed_dialog Dialog_constructor request UAS) = Some id ->
  Subscription_new Dialog_constructor request state' expires' w
  = (Subscription_receiveRequest (next_ref w) request true ;; mret (next_ref w))
      (registered Dialog_constructor id request state' expires' w).
Proof.
  intros Hid. unfold Subscription_new.
  unfold mbind at 1, M_MBind at 1, M_bind at 1. unfold alloc at 1.
  unfold mbind at 1, M_MBind at 1, M_bind at 1.
  erewrite Subscription_createConfirmedDialog_run by apply lookup_insert_eq.
  unfold registered, seeded_dialog, modify_dialog.
  set (d := constructed_dialog Dialog_constructor request UAS) in *.
  run. rewrite Hid. run.
  destruct (decide (Some (req_from_tag request) = to_tag_2xx (subscriber w)));
    run; rewrite !insert_insert_eq; reflexivity.
Qed.





(** ** The expires parameter of Subscription-State *)

Lemma js_or_zero_or_absent v b : v = Some 0%Z \/ v = None -> js_or v b = b.
Proof. by intros [-> | ->]. Qed.

(** A matching NOTIFY that says [pending] or [active] cancels the
    Subscriber's watchdog and constructs a Subscription, in the state of the
    NOTIFY and with its [expires] parameter, or the Subscriber's value where
    that is absent or zero. *)
Lemma Subscriber_receiveRequest_constructs Dialog_constructor request ss w :
  fst <$> Subscriber_matchEvent request w = Some true ->
  req_Subscription_State request = Some ss ->
  ss_state ss = "pending" \/ ss_state ss = "active" ->
  Subscriber_receiveRequest Dialog_constructor request w
  = (Subscription_new Dialog_constructor request (ss_state ss)
       (js_or (ss_expires ss) (expires (subscriber w))) ;; mret tt)
      (with_timers (cleared (N (subscriber w)) (timers w)) (next_timer w) w).
Proof.
  intros Hm Hss Htoken.
  destruct (Subscriber_matchEvent_true request w Hm) as (Hrun & _).
  unfold Subscriber_receiveRequest.
  unfold mbind at 1, M_MBind at 1, M_bind at 1. rewrite Hrun. simpl.
  rewrite Hss. run. case_decide; [|done].
  unfold clearTimeout. run. reflexivity.
Qed.

Lemma Subscriber_receiveRequest_creates Dialog_constructor id request ss w :
  dialog_id (constructed_dialog Dialog_constructor request UAS) = Some id ->
  fst <$> Subscriber_matchEvent request w = Some true ->
  req_Subscription_State request = Some ss ->
  ss_state ss = "pending" \/ ss_state ss = "active" ->
  Subscriber_receiveRequest Dialog_constructor request w
  = (Subscription_receiveRequest (next_ref w) request true ;; mret tt)
      (registered Dialog_constructor id request (ss_state ss)
         (js_or (ss_expires ss) (expires (subscriber w)))
         (with_timers (cleared (N (subscriber w)) (timers w)) (next_timer w) w)).
Proof.
  intros Hid Hm Hss Htoken.
  rewrite (Subscriber_receiveRequest_constructs _ _ ss) by done.
  unfold mbind, M_MBind, M_bind.
  rewrite (Subscription_new_run _ id) by done.
  unfold mbind, M_MBind, M_bind.
  by destruct (Subscription_receiveRequest _ _ _ _) as [[[] ?]|].
Qed.


(** An accepted NOTIFY with [Subscription-State: terminated]. *)
Lemma Subscription_receiveRequest_terminated w r s request ss initial :
  live w -> store w !! r = Some s -> accepted request initial w ->
  req_Subscription_State request = Some ss -> ss_state ss = "terminated" ->
  exists w1 s1,
    Subscription_receiveRequest r request initial w
    = Some (tt, with_log (receiveInfo request :: log w1) w1)
    /\ store w1 !! r = Some s1
    /\ sn_state s1 = "terminated"
    /\ sn_expires s1 = sn_expires s.
Proof.
  intros Hl Hs Hacc Hss Hterm.
  set (w0 := with_log (reply request 200 REASON_200
                         ["Contact: <" +:+ contact (subscriber w) +:+ ">"] :: log w) w).
  destruct (Subscription_close_spec w0 r s Hl Hs) as (w1 & Hrun & Hc).
  destruct Hc as [_ (s1 & Hs1 & Hst & _ & _ & He) _ _ _].
  exists w1, s1. split; [|done].
  unfold Subscription_receiveRequest.
  unfold mbind at 1, M_MBind at 1, M_bind at 1.
  rewrite (accepted_run _ _ _ Hacc). simpl. rewrite Hss.
  case_decide as Ha; [by rewrite Hterm in Ha|].
  case_decide as Hp; [by rewrite Hterm in Hp|].
  case_decide; [|done]. run. fold w0. by rewrite Hrun.
Qed.

(** An accepted NOTIFY with any other [Subscription-State]: answered, and
    nothing more. *)
Lemma Subscription_receiveRequest_other w r request ss initial :
  accepted request initial w -> req_Subscription_State request = Some ss ->
  ss_state ss <> "active" -> ss_state ss <> "pending" -> ss_state ss <> "terminated" ->
  Subscription_receiveRequest r request initial w
  = Some (tt, with_log (reply request 200 REASON_200
                          ["Contact: <" +:+ contact (subscriber w) +:+ ">"] :: log w) w).
Proof.
  intros Hacc Hss Ha Hp Ht. unfold Subscription_receiveRequest.
  unfold mbind at 1, M_MBind at 1, M_bind at 1.
  rewrite (accepted_run _ _ _ Hacc). simpl. rewrite Hss.
  by repeat case_decide.
Qed.

(** C10: in an accepted NOTIFY an [expires] parameter of 0 has the effect
    of an absent one: the expression [subscription_state.expires ||
    this.expires] evaluated by both [receiveRequest] methods yields the
    previously known value.  A Subscription keeps the lifetime it had,
    whatever the state token, and for [active] and [pending] re-arms its
    watchdog for that lifetime; the Subscriber constructs the Subscription
    (for [active] and [pending]) with its own requested lifetime, whatever
    the Dialog constructor does, and that Subscription, registered under
    the id of its dialog, arms its watchdog for it.  In neither place is 0
    adopted. *)
Theorem notify_expires_zero_falls_back :
  (forall v previous, v = Some 0%Z \/ v = None -> js_or v previous = previous)
  /\ (forall w r s request ss initial,
        live w -> store w !! r = Some s -> accepted request initial w ->
        req_Subscription_State request = Some ss ->
        ss_expires ss = Some 0%Z \/ ss_expires ss = None ->
        exists w' s',
          Subscription_receiveRequest r request initial w = Some (tt, w')
          /\ store w' !! r = Some s'
          /\ sn_expires s' = sn_expires s
          /\ (ss_state ss = "active" \/ ss_state ss = "pending" ->
              sn_N s' = Some (next_timer w)
              /\ timers w' = <[next_timer w := (subscription_timer_N r,
                                                (sn_expires s * 1000)%Z)]>
                               (cleared (sn_N s) (timers w))))
  /\ (forall Dialog_constructor w request ss,
        fst <$> Subscriber_matchEvent request w = Some true ->
        req_Subscription_State request = Some ss ->
        ss_expires ss = Some 0%Z \/ ss_expires ss = None ->
        ss_state ss = "active" \/ ss_state ss = "pending" ->
        Subscriber_receiveRequest Dialog_constructor request w
        = (Subscription_new Dialog_constructor request (ss_state ss)
             (expires (subscriber w)) ;; mret tt)
            (with_timers (cleared (N (subscriber w)) (timers w)) (next_timer w) w)
        /\ (is_Some (dialog_id (constructed_dialog Dialog_constructor request UAS)) ->
            exists w' s',
              Subscriber_receiveRequest Dialog_constructor request w = Some (tt, w')
              /\ store w' !! next_ref w = Some s'
              /\ sn_expires s' = expires (subscriber w)
              /\ sn_N s' = Some (next_timer w)
              /\ timers w' = <[next_timer w := (subscription_timer_N (next_ref w),
                                                (expires (subscriber w) * 1000)%Z)]>
                               (cleared (N (subscriber w)) (timers w)))).
Proof.
  assert (forall w r s request ss initial,
     store w !! r = Some s -> accepted request initial w ->
     req_Subscription_State request = Some ss ->
     ss_expires ss = Some 0%Z \/ ss_expires ss = None ->
     ss_state ss = "active" \/ ss_state ss = "pending" ->
     exists w' s',
       Subscription_receiveRequest r request initial w = Some (tt, w')
       /\ store w' !! r = Some s'
       /\ sn_expires s' = sn_expires s
       /\ sn_N s' = Some (next_timer w)
       /\ timers w' = <[next_timer w := (subscription_timer_N r, (sn_expires s * 1000)%Z)]>
                        (cleared (sn_N s) (timers w))) as HA.
  { intros w r s request ss initial Hs Hacc Hss Hexp [Ha|Hp].
    - eexists _, _.
      split; [by eapply Subscription_receiveRequest_active|]. simpl.
      split; [apply lookup_insert_eq|].
      rewrite (js_or_zero_or_absent _ _ Hexp). by repeat split.
    - eexists _, _.
      split; [by eapply Subscription_receiveRequest_pending|]. simpl.
      split; [apply lookup_insert_eq|].
      rewrite (js_or_zero_or_absent _ _ Hexp). by repeat split. }
  split; [exact js_or_zero_or_absent|]. split.
  - intros w r s request ss initial Hl Hs Hacc Hss Hexp.
    destruct (decide (ss_state ss = "active")) as [Ha|Hna];
      [|destruct (decide (ss_state ss = "pending")) as [Hp|Hnp]].
    + destruct (HA w r s request ss initial) as (w' & s' & ? & ? & ? & ? & ?); auto.
      exists w', s'. by repeat split.
    + destruct (HA w r s request ss initial) as (w' & s' & ? & ? & ? & ? & ?); auto.
      exists w', s'. by repeat split.
    + destruct (decide (ss_state ss = "terminated")) as [Ht|Hnt].
      * destruct (Subscription_receiveRequest_terminated w r s request ss initial)
          as (w1 & s1 & Hrun & Hs1 & _ & He); try done.
        eexists _, s1. split; [exact Hrun|]. simpl.
        split; [done|]. split; [done|]. by intros [?|?].
      * eexists _, s.
        split; [by apply (Subscription_receiveRequest_other w r request ss initial)|].
        simpl.
        split; [done|]. split; [done|]. by intros [?|?].
  - intros D w request ss Hm Hss Hexp Htoken. split.
    + rewrite (Subscriber_receiveRequest_constructs D request ss w Hm Hss) by tauto.
      by rewrite (js_or_zero_or_absent _ _ Hexp).
    + intros [id Hid].
      rewrite (Subscriber_receiveRequest_creates D id request ss w Hid Hm Hss) by tauto.
      rewrite (js_or_zero_or_absent _ _ Hexp).
      set (w1 := registered D id request (ss_state ss) (expires (subscriber w)) _).
      destruct (HA w1 (next_ref w) _ request ss true (lookup_insert_eq _ _ _)) as
        (w' & s' & Hrun & Hs' & He & HN & Ht); try done; [by left|].
      exists w', s'. unfold mbind, M_MBind, M_bind. rewrite Hrun.
      repeat split; try done.
Qed.

Lemma notify_expires_zero_falls_back_witness :
  js_or (Some 0%Z) 180%Z = 180%Z
  /\ (exists w' s',
        Subscription_receiveRequest 0 (example_notify "message-summary" "active" (Some 0%Z))
          false (world_one "active") = Some (tt, w')
        /\ store w' !! 0 = Some s'
        /\ sn_expires s' = 180%Z
        /\ ("active" = "active" \/ "active" = "pending" ->
            sn_N s' = Some 2
            /\ timers w' = <[2 := (subscription_timer_N 0, 180000%Z)]>
                             (cleared (Some 1) (timers (world_one "active")))))
  /\ (exists w' s',
        Subscriber_receiveRequest Dialog_of_message
          (example_notify "message-summary" "pending" (Some 0%Z)) world_notify_wait
        = Some (tt, w')
        /\ store w' !! 0 = Some s'
        /\ sn_expires s' = 180%Z
        /\ sn_N s' = Some 1
        /\ timers w' = <[1 := (subscription_timer_N 0, 180000%Z)]>
                         (cleared (Some 0) (timers world_notify_wait))).
Proof.
  destruct notify_expires_zero_falls_back as (H0 & HA & HB). split; [|split].
  - apply H0. left. reflexivity.
  - apply (HA (world_one "active") 0 (example_subscription "active")
              (example_notify "message-summary" "active" (Some 0%Z))
              {| ss_state := "active"; ss_expires := Some 0%Z; ss_reason := None |} false).
    + apply world_one_live.
    + reflexivity.
    + right. reflexivity.
    + reflexivity.
    + left. reflexivity.
  - apply (HB Dialog_of_message world_notify_wait
              (example_notify "message-summary" "pending" (Some 0%Z))
              {| ss_state := "pending"; ss_expires := Some 0%Z; ss_reason := None |}).
    + reflexivity.
    + reflexivity.
    + left. reflexivity.
    + right. reflexivity.
    + eexists. reflexivity.
Defined.

(** ** The 2xx response to the initial SUBSCRIBE *)

Lemma test_2xx_not_1xx n : test_2xx n = true -> test_1xx n = false.
Proof.
  unfold test_2xx, test_1xx, test_class.
  destruct (ToString n) as [|c [|d1 [|d2 [|? ?]]]]; try done.
  destruct (Ascii.eqb_spec c "2"%char) as [->|]; [done|].
  by rewrite !andb_false_l.
Qed.

(** Every code from 200 to 299 passes the test for a 2xx. *)
Lemma test_2xx_range n : (200 <= n <= 299)%Z -> test_2xx n = true.
Proof.
  intros Hn.
  assert (forallb (fun k => test_2xx (200 + Z.of_nat k)) (seq 0 100) = true) as Hall
    by (by vm_compute).
  rewrite forallb_forall in Hall.
  replace n with (200 + Z.of_nat (Z.to_nat (n - 200)))%Z by lia.
  apply Hall, in_seq. lia.
Qed.

Lemma Subscriber_close_total w :
  live w ->
  exists w', Subscriber_close w = Some (tt, w')
             /\ state (subscriber w') = Some "terminated".
Proof.
  intros Hl. destruct (decide (state (subscriber w) = Some "terminated")) as [Ht|Hnt].
  - exists w. split; [by apply Subscriber_close_terminated | done].
  - destruct (Subscriber_close_open w Hl Hnt) as (w' & Hrun & Hc).
    exists w'. split; [done | by destruct Hc].
Qed.

(** A 2xx whose [Expires] is not zero and at most the requested lifetime:
    the watchdog is re-armed for that value times 1000 ms, never for the
    requested one, and the three fields are captured. *)
Lemma initial_2xx_rearms w response n :
  test_2xx (status_code response) = true ->
  rsp_Expires response = Some n -> n <> 0%Z -> (n <= expires (subscriber w))%Z ->
  Subscriber_subscribe_receiveResponse response w
  = Some (tt,
      with_subscriber
        (set_2xx (reverse (rsp_record_route response)) (rsp_to_tag response)
           (rsp_cseq response) (set_N (Some (next_timer w)) (subscriber w)))
        (with_timers
           (<[next_timer w := (subscriber_timer_N, (n * 1000)%Z)]>
              (cleared (N (subscriber w)) (timers w)))
           (S (next_timer w)) w)).
Proof.
  intros H2 He Hn Hle. unfold Subscriber_subscribe_receiveResponse.
  rewrite (test_2xx_not_1xx _ H2), H2. run.
  unfold granted. rewrite He. simpl.
  destruct (n =? 0)%Z eqn:E0; [lia|]. simpl.
  destruct (n <=? expires (subscriber w))%Z eqn:E1; [|lia]. reflexivity.
Qed.

(** [Expires: 120] in answer to a SUBSCRIBE that asked for 180: the
    watchdog runs for 120000 ms. *)
Example initial_2xx_Expires_120 :
  exists w',
    Subscriber_subscribe_receiveResponse (example_response 200 (Some 120%Z))
      world_notify_wait = Some (tt, w')
    /\ N (subscriber w') = Some 1
    /\ timers w' !! 1 = Some (subscriber_timer_N, 120000%Z)
    /\ timers w' !! 0 = None
    /\ to_tag_2xx (subscriber w') = Some "srv1"
    /\ initial_local_seqnum (subscriber w') = Some 81%Z.
Proof.
  eexists. split.
  - by apply (initial_2xx_rearms world_notify_wait _ 120).
  - by repeat split.
Qed.

(** A 2xx without [Expires]: [close()], then the failure is reported with
    cause [EXPIRES_HEADER_MISSING]. *)
Lemma initial_2xx_missing_expires w response :
  live w -> test_2xx (status_code response) = true -> rsp_Expires response = None ->
  exists w1, Subscriber_close w = Some (tt, w1)
             /\ state (subscriber w1) = Some "terminated"
             /\ Subscriber_subscribe_receiveResponse response w
                = Some (tt, with_log (onFailure None (Some EXPIRES_HEADER_MISSING)
                                        :: log w1) w1).
Proof.
  intros Hl H2 He. destruct (Subscriber_close_total w Hl) as (w1 & Hrun & Hst).
  exists w1. repeat split; try done.
  unfold Subscriber_subscribe_receiveResponse.
  rewrite (test_2xx_not_1xx _ H2), H2. run. rewrite He. simpl.
  unfold mbind, M_MBind, M_bind. by rewrite Hrun.
Qed.

(** A 2xx whose [Expires] exceeds the requested lifetime: [close()], then
    the failure is reported with cause [INVALID_EXPIRES_HEADER]. *)
Lemma initial_2xx_excessive_expires w response n :
  live w -> test_2xx (status_code response) = true ->
  rsp_Expires response = Some n -> n <> 0%Z -> (expires (subscriber w) < n)%Z ->
  exists w1, Subscriber_close w = Some (tt, w1)
             /\ state (subscriber w1) = Some "terminated"
             /\ Subscriber_subscribe_receiveResponse response w
                = Some (tt, with_log (onFailure None (Some INVALID_EXPIRES_HEADER)
                                        :: log w1) w1).
Proof.
  intros Hl H2 He Hn Hlt. destruct (Subscriber_close_total w Hl) as (w1 & Hrun & Hst).
  exists w1. repeat split; try done.
  unfold Subscriber_subscribe_receiveResponse.
  rewrite (test_2xx_not_1xx _ H2), H2. run. unfold granted. rewrite He. simpl.
  destruct (n =? 0)%Z eqn:E0; [lia|]. simpl.
  destruct (n <=? expires (subscriber w))%Z eqn:E1; [lia|].
  unfold mbind, M_MBind, M_bind. by rewrite Hrun.
Qed.

(** C1 on the code, at a 2xx that carries [Expires: 0] in answer to a
    SUBSCRIBE that asked for 180: the header is present and its value is at
    most the requested one, yet the watchdog is not re-armed and nothing is
    captured; the Subscriber closes and reports [EXPIRES_HEADER_MISSING]. *)
Theorem initial_2xx_Expires_zero_reported_missing :
  exists w',
    Subscriber_subscribe_receiveResponse (example_response 200 (Some 0%Z))
      world_notify_wait = Some (tt, w')
    /\ test_2xx (status_code (example_response 200 (Some 0%Z))) = true
    /\ rsp_Expires (example_response 200 (Some 0%Z)) = Some 0%Z
    /\ (0 <= expires (subscriber world_notify_wait))%Z
    /\ state (subscriber w') = Some "terminated"
    /\ log w' = onFailure None (Some EXPIRES_HEADER_MISSING) :: onTerminate
                :: log world_notify_wait
    /\ timers w' = ∅
    /\ route_set_2xx (subscriber w') = None
    /\ to_tag_2xx (subscriber w') = None
    /\ initial_local_seqnum (subscriber w') = None.
Proof.
  eexists. split; [vm_compute; reflexivity|]. by repeat split.
Qed.

(** ** close(), called again *)







(** * Further properties of the Subscriber and its Subscriptions *)

(** ** NOTIFYs that fail event matching *)

Lemma Subscriber_matchEvent_rejects request w :
  req_Event request <> Some (event (subscriber w))
  \/ req_Subscription_State request = None ->
  Subscriber_matchEvent request w
  = Some (false,
          if bool_decide (is_Some (req_Event request)
                          /\ is_Some (req_Subscription_State request))
          then with_log (reply request 481 "Event Match Failed" [] :: log w) w
          else w).
Proof.
  intros H. unfold Subscriber_matchEvent.
  destruct (req_Event request) as [ev|] eqn:Ee,
           (req_Subscription_State request) as [ss|] eqn:Es.
  - rewrite bool_decide_eq_true_2 by (split; eauto). run.
    case_decide; [done|]. destruct H as [H|H]; [|done]. destruct H. by f_equal.
  - rewrite bool_decide_eq_false_2; [done|]. intros [_ [? ?]]. done.
  - rewrite bool_decide_eq_false_2; [done|]. intros [[? ?] _]. done.
  - rewrite bool_decide_eq_false_2; [done|]. intros [[? ?] _]. done.
Qed.

(** X1: A NOTIFY without [Event], without [Subscription-State], or for another
    event creates nothing and changes no state: the Subscriber, the store,
    the timers and the registry are as before.  The only trace is the reply
    [481 Event Match Failed], and that only when both headers are there; a
    NOTIFY that lacks [Subscription-State] is dropped without a reply even
    if its event is wrong. *)
Theorem receiveRequest_rejected_notify Dialog_constructor request w :
  req_Event request <> Some (event (subscriber w))
  \/ req_Subscription_State request = None ->
  exists w',
    Subscriber_receiveRequest Dialog_constructor request w = Some (tt, w')
    /\ subscriber w' = subscriber w /\ store w' = store w
    /\ next_ref w' = next_ref w /\ timers w' = timers w /\ sessions w' = sessions w
    /\ (req_Event request = None \/ req_Subscription_State request = None -> w' = w)
    /\ (is_Some (req_Event request) -> is_Some (req_Subscription_State request) ->
        log w' = reply request 481 "Event Match Failed" [] :: log w).
Proof.
  intros H. eexists. split.
  - unfold Subscriber_receiveRequest.
    unfold mbind at 1, M_MBind at 1, M_bind at 1.
    rewrite (Subscriber_matchEvent_rejects request w H). reflexivity.
  - case_bool_decide as Hd.
    + repeat split; try done. intros [He|Hs]; destruct Hd as [[? ?] [? ?]]; congruence.
    + repeat split; try done. intros ? ?. by destruct Hd.
Qed.

Lemma receiveRequest_rejected_notify_witness :
  exists w',
    Subscriber_receiveRequest Dialog_of_message
      (example_notify "presence" "active" None) world_notify_wait = Some (tt, w')
    /\ subscriber w' = subscriber world_notify_wait /\ store w' = store world_notify_wait
    /\ next_ref w' = next_ref world_notify_wait /\ timers w' = timers world_notify_wait
    /\ sessions w' = sessions world_notify_wait
    /\ (req_Event (example_notify "presence" "active" None) = None
        \/ req_Subscription_State (example_notify "presence" "active" None) = None
        -> w' = world_notify_wait)
    /\ (is_Some (req_Event (example_notify "presence" "active" None)) ->
        is_Some (req_Subscription_State (example_notify "presence" "active" None)) ->
        log w' = reply (example_notify "presence" "active" None) 481
                   "Event Match Failed" [] :: log world_notify_wait).
Proof.
  apply (receiveRequest_rejected_notify Dialog_of_message
           (example_notify "presence" "active" None) world_notify_wait).
  left. simpl. discriminate.
Defined.

(** X2: A later NOTIFY on a Subscription's dialog that fails event matching is
    not answered with 200 and touches neither the Subscription nor its
    timer: the state, the lifetime and the watchdog stay as they were. *)
Theorem in_dialog_notify_rejected r request w :
  req_Event request <> Some (event (subscriber w))
  \/ req_Subscription_State request = None ->
  exists w',
    Subscription_receiveRequest r request false w = Some (tt, w')
    /\ subscriber w' = subscriber w /\ store w' = store w /\ timers w' = timers w
    /\ count_calls is_receiveInfo (log w') = count_calls is_receiveInfo (log w)
    /\ (forall c, c ∈ log w' -> c ∈ log w \/ c = reply request 481 "Event Match Failed" []).
Proof.
  intros H. eexists. split.
  - unfold Subscription_receiveRequest.
    unfold mbind at 1, M_MBind at 1, M_bind at 1.
    rewrite (Subscriber_matchEvent_rejects request w H). reflexivity.
  - case_bool_decide; simpl; repeat split; try done; auto.
    intros c [->|Hc]%elem_of_cons; auto.
Qed.

Lemma in_dialog_notify_rejected_witness :
  exists w',
    Subscription_receiveRequest 0 (example_notify "presence" "terminated" None) false
      (world_one "active") = Some (tt, w')
    /\ subscriber w' = subscriber (world_one "active")
    /\ store w' = store (world_one "active")
    /\ timers w' = timers (world_one "active")
    /\ count_calls is_receiveInfo (log w')
       = count_calls is_receiveInfo (log (world_one "active"))
    /\ (forall c, c ∈ log w' ->
          c ∈ log (world_one "active")
          \/ c = reply (example_notify "presence" "terminated" None) 481
                   "Event Match Failed" []).
Proof.
  apply (in_dialog_notify_rejected 0 (example_notify "presence" "terminated" None)
           (world_one "active")).
  left. simpl. discriminate.
Defined.

(** ** subscribe() of the Subscriber *)

(** X3: [subscribe()] on a Subscriber that has not subscribed yet sends one
    SUBSCRIBE with the given tag and the next [cseq], registers the
    Subscriber under Call-ID + tag, moves it to ['notify_wait'] and starts a
    watchdog of 64*T1; a further [subscribe()] changes nothing: no second
    request, no second timer, no second registry entry. *)
Theorem subscribe_once w from_tag :
  state (subscriber w) ∉ [Some "notify_wait"; Some "pending"; Some "active";
                          Some "terminated"] ->
  exists w' request,
    Subscriber_subscribe from_tag w = Some (tt, w')
    /\ state (subscriber w') = Some "notify_wait"
    /\ id (subscriber w') = Some (call_id (subscriber w) +:+ from_tag)
    /\ sessions w' = {[ call_id (subscriber w) +:+ from_tag ]} ∪ sessions w
    /\ cseq (subscriber w') = (cseq (subscriber w) + 1)%Z
    /\ N (subscriber w') = Some (next_timer w)
    /\ timers w' = <[next_timer w := (subscriber_timer_N, (Timers_T1 (env w) * 64)%Z)]>
                     (timers w)
    /\ log w' = request_sender_send initial_subscribe request :: log w
    /\ p_from_tag (or_params request) = Some from_tag
    /\ cseq_of request = Some (cseq (subscriber w) + 1)%Z
    /\ (forall tag, Subscriber_subscribe tag w' = Some (tt, w')).
Proof.
  intros Hst. eexists _, _. split.
  - unfold Subscriber_subscribe. run. case_decide; [by destruct Hst|]. reflexivity.
  - simpl. by repeat split.
Qed.

Lemma subscribe_once_witness :
  exists w' request,
    Subscriber_subscribe "tagA" (world_idle "message-summary" 180) = Some (tt, w')
    /\ state (subscriber w') = Some "notify_wait"
    /\ id (subscriber w') = Some ("a84b4c76e66710" +:+ "tagA")
    /\ sessions w' = {[ "a84b4c76e66710" +:+ "tagA" ]} ∪ ∅
    /\ cseq (subscriber w') = (80 + 1)%Z
    /\ N (subscriber w') = Some 0
    /\ timers w' = <[0 := (subscriber_timer_N, (500 * 64)%Z)]> ∅
    /\ log w' = request_sender_send initial_subscribe request :: []
    /\ p_from_tag (or_params request) = Some "tagA"
    /\ cseq_of request = Some (80 + 1)%Z
    /\ (forall tag, Subscriber_subscribe tag w' = Some (tt, w')).
Proof.
  apply (subscribe_once (world_idle "message-summary" 180) "tagA").
  simpl. rewrite !not_elem_of_cons. repeat split; try discriminate.
  apply not_elem_of_nil.
Defined.

(** ** close() and refresh() fan out to every Subscription *)

Lemma Subscription_subscribe_run w r s :
  store w !! r = Some s ->
  Subscription_subscribe r w = Some (tt, renewal_sent r s w).
Proof.
  intros Hs. unfold Subscription_subscribe, renewal_sent. run_at Hs. reflexivity.
Qed.

Lemma for_in_unsubscribe_at_counts keys : forall w,
  live w ->
  (forall k, k ∈ keys -> is_Some (obj_get k (subscriptions (subscriber w)))) ->
  exists w',
    for_in keys unsubscribe_at w = Some (tt, w')
    /\ unsubscribed w w'
    /\ cseq (subscriber w') = (cseq (subscriber w) + Z.of_nat (length keys))%Z
    /\ count_calls is_unsubscribe_send (log w')
       = length keys + count_calls is_unsubscribe_send (log w)
    /\ count_calls is_send (log w') = length keys + count_calls is_send (log w)
    /\ (forall k r, k ∈ keys -> obj_get k (subscriptions (subscriber w)) = Some r ->
        exists s', store w' !! r = Some s' /\ sn_state s' = "terminated").
Proof.
  induction keys as [|k keys IH]; intros w Hl Hk.
  - exists w. split; [reflexivity|]. split; [apply unsubscribed_refl|].
    simpl. repeat split; try done; try lia. by intros k r ?%elem_of_nil.
  - destruct (Hk k) as [r Hr]; [by left|].
    destruct (Hl k r Hr) as [s Hs].
    pose proof (Subscription_unsubscribe_run w r s Hs) as Hrun.
    destruct (Subscription_unsubscribe_unsubscribed w r s Hs) as (w1 & Hrun1 & Hu).
    rewrite Hrun in Hrun1. injection Hrun1 as Hw1.
    destruct (IH w1) as (w2 & Hrun2 & Hu2 & Hc & Hn & Hn' & Hst).
    { by eapply unsubscribed_live. }
    { intros k' Hin. rewrite (unsubscribed_subscriptions _ _ Hu). apply Hk. by right. }
    exists w2. split.
    { simpl. unfold mbind, M_MBind, M_bind.
      rewrite (unsubscribe_at_run k w r Hr), Hrun, Hw1. exact Hrun2. }
    split; [by eapply unsubscribed_trans|].
    rewrite Hc, Hn, Hn'. subst w1. simpl. rewrite !count_calls_cons. simpl.
    repeat split; try lia.
    intros k' r' Hin Hr'. apply elem_of_cons in Hin as [->|Hin].
    + assert (r' = r) as -> by congruence.
      destruct Hu2 as [_ _ Hstore _ _ _]. specialize (Hstore r).
      simpl in Hstore. rewrite lookup_insert_eq in Hstore.
      inversion Hstore as [? s' (_ & _ & _ & Hs')|]; subst.
      exists s'. split; [done|]. by destruct Hs' as [->| ->].
    + apply (Hst k' r' Hin). by simpl.
Qed.

(** X4: [close()] of a Subscriber that is not terminated unsubscribes every
    Subscription in its map: it sends exactly one SUBSCRIBE with
    [Expires: 0] per entry, each on its own [cseq], leaves every one of
    them in state ['terminated'] with its dialog still up, and calls
    [onTerminate] once. *)
Theorem close_unsubscribes_every_subscription w :
  live w -> state (subscriber w) <> Some "terminated" ->
  exists w',
    Subscriber_close w = Some (tt, w')
    /\ state (subscriber w') = Some "terminated"
    /\ cseq (subscriber w')
       = (cseq (subscriber w) + Z.of_nat (length (subscriptions (subscriber w))))%Z
    /\ count_calls is_unsubscribe_send (log w')
       = length (subscriptions (subscriber w)) + count_calls is_unsubscribe_send (log w)
    /\ count_calls is_send (log w')
       = length (subscriptions (subscriber w)) + count_calls is_send (log w)
    /\ count_calls is_onTerminate (log w') = S (count_calls is_onTerminate (log w))
    /\ (forall k r s, obj_get k (subscriptions (subscriber w)) = Some r ->
        store w !! r = Some s ->
        exists s', store w' !! r = Some s' /\ sn_state s' = "terminated"
                   /\ sn_dialog s' = sn_dialog s).
Proof.
  intros Hl Hst.
  set (w0 := with_timers (cleared (N (subscriber w)) (timers w)) (next_timer w)
               (with_subscriber (set_state (Some "terminated") (subscriber w)) w)).
  destruct (for_in_unsubscribe_at_counts (obj_keys (subscriptions (subscriber w))) w0)
    as (w1 & Hrun & Hu & Hc & Hn & Hn' & Hterm).
  { exact Hl. }
  { intros k. apply obj_get_keys. }
  unfold obj_keys in Hc, Hn, Hn'. rewrite length_fmap in Hc, Hn, Hn'.
  eexists. split.
  { unfold Subscriber_close. run. case_decide as Hd; [|by destruct Hst]. run.
    fold w0. rewrite Hrun. reflexivity. }
  destruct Hu as [_ [c S] T _ _ _]. simpl in *.
  rewrite S. simpl. split; [done|]. rewrite S in Hc. simpl in Hc.
  split; [done|]. rewrite !count_calls_cons. simpl.
  split; [done|]. split; [done|]. split.
  { destruct (for_in_unsubscribe_at (obj_keys (subscriptions (subscriber w))) w0)
      as (w1' & Hrun' & [_ _ _ _ _ (sent & L & F)]); [exact Hl | intros k; apply obj_get_keys|].
    rewrite Hrun in Hrun'. injection Hrun' as <-.
    rewrite L, count_calls_app. simpl.
    by rewrite (count_calls_sends is_onTerminate sent). }
  intros k r s Hk Hs.
  destruct (Hterm k r) as (s' & Hs' & Hst'); [|done|].
  { unfold obj_keys. apply list_elem_of_fmap. clear -Hk.
    induction (subscriptions (subscriber w)) as [|[k' v] o IH]; [done|].
    simpl in Hk. case_decide.
    - subst. exists (k', v). split; [done | by left].
    - destruct (IH Hk) as (x & ? & ?). exists x. split; [done | by right]. }
  exists s'. repeat split; try done.
  specialize (T r). rewrite Hs, Hs' in T. inversion T as [? ? (_ & Hd & _)|]; subst.
  done.
Qed.

Lemma world_two_live st0 st1 : live (world_two st0 st1).
Proof.
  intros k r. simpl. repeat case_decide; try done; intros [= <-]; by eexists.
Qed.

Lemma close_unsubscribes_every_subscription_witness :
  exists w',
    Subscriber_close (world_two "active" "pending") = Some (tt, w')
    /\ state (subscriber w') = Some "terminated"
    /\ cseq (subscriber w') = (81 + Z.of_nat 2)%Z
    /\ count_calls is_unsubscribe_send (log w') = 2 + 0
    /\ count_calls is_send (log w') = 2 + 0
    /\ count_calls is_onTerminate (log w') = 1
    /\ (forall k r s,
          obj_get k (subscriptions (subscriber (world_two "active" "pending"))) = Some r ->
          store (world_two "active" "pending") !! r = Some s ->
          exists s', store w' !! r = Some s' /\ sn_state s' = "terminated"
                     /\ sn_dialog s' = sn_dialog s).
Proof.
  apply (close_unsubscribes_every_subscription (world_two "active" "pending")).
  - apply world_two_live.
  - discriminate.
Defined.

Lemma subscribe_at_run k w r :
  obj_get k (subscriptions (subscriber w)) = Some r ->
  subscribe_at k w = Subscription_subscribe r w.
Proof. intros H. unfold subscribe_at. run. by rewrite H. Qed.

Lemma retimed_refl s : retimed s s.
Proof. by repeat split. Qed.

Lemma for_in_subscribe_at keys : forall w,
  live w ->
  (forall k, k ∈ keys -> is_Some (obj_get k (subscriptions (subscriber w)))) ->
  exists w',
    for_in keys subscribe_at w = Some (tt, w')
    /\ subscriber w' = set_cseq (cseq (subscriber w) + Z.of_nat (length keys)) (subscriber w)
    /\ (forall r, option_Forall2 retimed (store w !! r) (store w' !! r))
    /\ sessions w' = sessions w
    /\ count_calls is_renewal_send (log w')
       = length keys + count_calls is_renewal_send (log w)
    /\ count_calls is_send (log w') = length keys + count_calls is_send (log w)
    /\ (forall P, (forall a q, P (request_sender_send a q) = false) ->
                  count_calls P (log w') = count_calls P (log w)).
Proof.
  induction keys as [|k keys IH]; intros w Hl Hk.
  - exists w. split; [reflexivity|]. simpl. rewrite Z.add_0_r, set_cseq_same.
    repeat split; try done.
    intros r. destruct (store w !! r); constructor. apply retimed_refl.
  - destruct (Hk k) as [r Hr]; [by left|].
    destruct (Hl k r Hr) as [s Hs].
    pose proof (Subscription_subscribe_run w r s Hs) as Hrun.
    set (w1 := renewal_sent r s w) in *.
    assert (forall r', option_Forall2 retimed (store w !! r') (store w1 !! r')) as Hst1.
    { intros r'. subst w1. unfold renewal_sent. simpl. destruct (decide (r = r')) as [<-|Hne].
      - rewrite lookup_insert_eq, Hs. constructor. by repeat split.
      - rewrite lookup_insert_ne by done.
        destruct (store w !! r'); constructor. apply retimed_refl. }
    destruct (IH w1) as (w2 & Hrun2 & Hsub & Hst & Hss & Hn & Hn' & HP).
    { intros k' r' Hk'. destruct (Hl k' r' Hk') as [s' Hs'].
      specialize (Hst1 r'). rewrite Hs' in Hst1. inversion Hst1; eauto. }
    { intros k' Hin. apply Hk. by right. }
    exists w2. split.
    { simpl. unfold mbind, M_MBind, M_bind.
      rewrite (subscribe_at_run k w r Hr), Hrun. exact Hrun2. }
    split.
    { rewrite Hsub. subst w1. unfold renewal_sent, set_cseq. simpl. f_equal. lia. }
    split.
    { intros r'. specialize (Hst1 r'). specialize (Hst r').
      destruct Hst1 as [? ? (? & ? & ? & ?)|]; inversion Hst as [? ? (? & ? & ? & ?)|];
        subst; constructor. repeat split; congruence. }
    split; [done|].
    rewrite Hn, Hn'. subst w1. unfold renewal_sent. cbn [log].
    rewrite !count_calls_cons. simpl.
    repeat split; try lia.
    intros P HPs. rewrite (HP P HPs). unfold renewal_sent. cbn [log].
    rewrite count_calls_cons, HPs. done.
Qed.

(** X5: [refresh()] re-issues the SUBSCRIBE of every Subscription in the map,
    whatever its state and whatever the Subscriber's state: exactly one
    renewal per entry, each on its own [cseq]; no Subscription changes
    state, lifetime or dialog, nothing is reported to the application, and
    the Subscriber is otherwise unchanged. *)
Theorem refresh_renews_every_subscription w :
  live w ->
  exists w',
    Subscriber_refresh w = Some (tt, w')
    /\ subscriber w'
       = set_cseq (cseq (subscriber w) + Z.of_nat (length (subscriptions (subscriber w))))
           (subscriber w)
    /\ count_calls is_renewal_send (log w')
       = length (subscriptions (subscriber w)) + count_calls is_renewal_send (log w)
    /\ count_calls is_send (log w')
       = length (subscriptions (subscriber w)) + count_calls is_send (log w)
    /\ count_calls is_onFailure (log w') = count_calls is_onFailure (log w)
    /\ count_calls is_onTerminate (log w') = count_calls is_onTerminate (log w)
    /\ (forall r s, store w !! r = Some s ->
        exists s', store w' !! r = Some s' /\ retimed s s').
Proof.
  intros Hl.
  destruct (for_in_subscribe_at (obj_keys (subscriptions (subscriber w))) w Hl)
    as (w' & Hrun & Hsub & Hst & _ & Hn & Hn' & HP).
  { intros k. apply obj_get_keys. }
  unfold obj_keys in Hsub, Hn, Hn'. rewrite length_fmap in Hsub, Hn, Hn'.
  exists w'. split; [exact Hrun|]. repeat split; try done.
  - by apply HP.
  - by apply HP.
  - intros r s Hs. specialize (Hst r). rewrite Hs in Hst.
    inversion Hst; subst. eauto.
Qed.

Lemma refresh_renews_every_subscription_witness :
  exists w',
    Subscriber_refresh (world_two "active" "terminated") = Some (tt, w')
    /\ subscriber w'
       = set_cseq (81 + Z.of_nat 2) (subscriber (world_two "active" "terminated"))
    /\ count_calls is_renewal_send (log w') = 2 + 0
    /\ count_calls is_send (log w') = 2 + 0
    /\ count_calls is_onFailure (log w') = 0
    /\ count_calls is_onTerminate (log w') = 0
    /\ (forall r s, store (world_two "active" "terminated") !! r = Some s ->
        exists s', store w' !! r = Some s' /\ retimed s s').
Proof.
  apply (refresh_renews_every_subscription (world_two "active" "terminated")).
  apply world_two_live.
Defined.

(** ** close() of a Subscription, exactly *)

Lemma Subscriber_close_no_subscriptions w :
  subscriptions (subscriber w) = [] -> state (subscriber w) <> Some "terminated" ->
  Subscriber_close w = Some (tt, closed_alone w).
Proof.
  intros He Hst. unfold Subscriber_close, closed_alone. run.
  case_decide; [|done]. rewrite He. reflexivity.
Qed.

Lemma before_decision_subscriber r s w :
  subscriptions (subscriber (Subscription_close_before_decision r s w)) = remaining s w
  /\ state (subscriber (Subscription_close_before_decision r s w)) = state (subscriber w)
  /\ cseq (subscriber (Subscription_close_before_decision r s w)) = cseq (subscriber w)
  /\ id (subscriber (Subscription_close_before_decision r s w)) = id (subscriber w)
  /\ N (subscriber (Subscription_close_before_decision r s w)) = N (subscriber w).
Proof.
  unfold Subscription_close_before_decision, remaining. simpl.
  by destruct (sn_id s).
Qed.

Lemma Subscription_close_exact w r s :
  store w !! r = Some s ->
  Subscription_close r w = Some (tt, Subscription_close_world r s w).
Proof.
  intros Hs. rewrite (Subscription_close_run w r s Hs).
  destruct (before_decision_subscriber r s w) as (Hsub & Hst & _).
  unfold Subscription_close_world, obj_keys. rewrite Hsub, length_fmap.
  destruct (decide (remaining s w = [] /\ state (subscriber w) <> Some "terminated"))
    as [[He Hnt]|Hn].
  - rewrite He. simpl.
    apply Subscriber_close_no_subscriptions; [by rewrite Hsub | by rewrite Hst].
  - destruct (remaining s w) as [|e l] eqn:Hrem; simpl; [|reflexivity].
    apply Subscriber_close_terminated. rewrite Hst.
    destruct (decide (state (subscriber w) = Some "terminated")); [done|].
    destruct Hn. by split.
Qed.

Lemma Subscription_close_world_store r s w :
  store (Subscription_close_world r s w) = <[r := torn_down s]> (store w).
Proof. unfold Subscription_close_world. by case_decide. Qed.

Lemma Subscription_close_world_sends r s w :
  count_calls is_send (log (Subscription_close_world r s w)) = count_calls is_send (log w)
  /\ cseq (subscriber (Subscription_close_world r s w)) = cseq (subscriber w).
Proof.
  unfold Subscription_close_world, closed_alone, Subscription_close_before_decision.
  case_decide; simpl; rewrite !count_calls_cons, count_calls_app, count_calls_dialog_calls;
    simpl; destruct (sn_dialog s), (sn_id s); simpl; split; try done; lia.
Qed.

(** X6: [close()] of a Subscription never sends a request.  It removes the
    Subscription from the Subscriber's map; if other entries remain the
    Subscriber stays as it is, and if none remains the Subscriber closes
    with it: it becomes terminated, leaves the session registry and calls
    [onTerminate], once, unless it was terminated already. *)
Theorem last_subscription_closes_subscriber w r s :
  store w !! r = Some s ->
  exists w',
    Subscription_close r w = Some (tt, w')
    /\ subscriptions (subscriber w') = remaining s w
    /\ count_calls is_send (log w') = count_calls is_send (log w)
    /\ cseq (subscriber w') = cseq (subscriber w)
    /\ (remaining s w <> [] ->
        state (subscriber w') = state (subscriber w)
        /\ sessions w' = sessions w
        /\ count_calls is_onTerminate (log w') = count_calls is_onTerminate (log w))
    /\ (remaining s w = [] ->
        state (subscriber w') = Some "terminated"
        /\ (state (subscriber w) <> Some "terminated" ->
            count_calls is_onTerminate (log w') = S (count_calls is_onTerminate (log w))
            /\ sessions w' = match id (subscriber w) with
                             | Some i => sessions w ∖ {[ i ]}
                             | None => sessions w
                             end)).
Proof.
  intros Hs. exists (Subscription_close_world r s w).
  split; [by apply Subscription_close_exact|].
  destruct (Subscription_close_world_sends r s w) as (Hn & Hc).
  destruct (before_decision_subscriber r s w) as (Hsub & Hst & _ & Hid & _).
  split; [|split; [done|split; [done|]]].
  { unfold Subscription_close_world. by case_decide. }
  unfold Subscription_close_world. split.
  - intros Hne. rewrite decide_False by (intros [? _]; done).
    split; [done|]. split; [done|]. simpl.
    rewrite count_calls_cons, count_calls_app, count_calls_dialog_calls. simpl.
    by destruct (sn_dialog s).
  - intros He. case_decide as Hd.
    + split; [done|]. intros _. simpl. split; [|by destruct (sn_id s)].
      rewrite !count_calls_cons, count_calls_app, count_calls_dialog_calls. simpl.
      by destruct (sn_dialog s).
    + split.
      * rewrite Hst. destruct (decide (state (subscriber w) = Some "terminated")); [done|].
        destruct Hd. by split.
      * intros Hnt. destruct Hd. by split.
Qed.

Lemma last_subscription_closes_subscriber_witness :
  exists w',
    Subscription_close 0 (world_one "active") = Some (tt, w')
    /\ subscriptions (subscriber w') = remaining (example_subscription "active")
                                         (world_one "active")
    /\ count_calls is_send (log w') = count_calls is_send (log (world_one "active"))
    /\ cseq (subscriber w') = cseq (subscriber (world_one "active"))
    /\ (remaining (example_subscription "active") (world_one "active") <> [] ->
        state (subscriber w') = state (subscriber (world_one "active"))
        /\ sessions w' = sessions (world_one "active")
        /\ count_calls is_onTerminate (log w')
           = count_calls is_onTerminate (log (world_one "active")))
    /\ (remaining (example_subscription "active") (world_one "active") = [] ->
        state (subscriber w') = Some "terminated"
        /\ (state (subscriber (world_one "active")) <> Some "terminated" ->
            count_calls is_onTerminate (log w')
            = S (count_calls is_onTerminate (log (world_one "active")))
            /\ sessions w' = sessions (world_one "active") ∖ {[ "a84b4c76e66710tagA" ]})).
Proof.
  apply (last_subscription_closes_subscriber (world_one "active") 0
           (example_subscription "active")).
  reflexivity.
Defined.

(** One of two Subscriptions closes: the Subscriber lives on. *)
Example close_one_of_two :
  exists w',
    Subscription_close 0 (world_two "active" "active") = Some (tt, w')
    /\ subscriptions (subscriber w') = [("a84b4c76e66710tagAsrv2", 1)]
    /\ state (subscriber w') = Some "notify_wait"
    /\ count_calls is_onTerminate (log w') = 0.
Proof.
  eexists. split.
  - by apply (Subscription_close_exact _ 0 (example_subscription "active")).
  - by vm_compute.
Qed.

(** ** The watchdog of a Subscription *)

Lemma torn_down_terminated s : torn_down (sn_set_state "terminated" s) = torn_down s.
Proof. unfold torn_down. simpl. by destruct (sn_dialog s). Qed.

(** X7: When the watchdog of a Subscription fires: in state ['pending'] or
    ['terminated'] the Subscription is closed, exactly as by [close()], and
    no request is sent; in any other state it is not closed but renewed,
    with one SUBSCRIBE on the next [cseq], the same state, the same dialog
    and a new watchdog of 64*T1. *)
Theorem Subscription_timer_N_closes_or_renews w r s :
  store w !! r = Some s ->
  (sn_state s = "terminated" \/ sn_state s = "pending" ->
   Subscription_timer_N r w = Subscription_close r w
   /\ exists w' s',
        Subscription_timer_N r w = Some (tt, w')
        /\ store w' !! r = Some s'
        /\ sn_state s' = "terminated"
        /\ ToBoolean (sn_dialog s') = false
        /\ count_calls is_send (log w') = count_calls is_send (log w))
  /\ (sn_state s <> "terminated" -> sn_state s <> "pending" ->
      exists w' s',
        Subscription_timer_N r w = Some (tt, w')
        /\ w' = renewal_sent r s w
        /\ store w' !! r = Some s'
        /\ sn_state s' = sn_state s
        /\ sn_dialog s' = sn_dialog s
        /\ sn_N s' = Some (next_timer w)
        /\ timers w' !! next_timer w
           = Some (subscription_timer_N r, (Timers_T1 (env w) * 64)%Z)
        /\ count_calls is_renewal_send (log w')
           = S (count_calls is_renewal_send (log w))
        /\ count_calls (is_onSubscriptionTerminate r) (log w')
           = count_calls (is_onSubscriptionTerminate r) (log w)).
Proof.
  intros Hs. split.
  - intros Hst.
    assert (Subscription_timer_N r w = Subscription_close r w) as Heq.
    { unfold Subscription_timer_N. run_at Hs.
      destruct Hst as [Ht|Hp].
      - by rewrite decide_True.
      - rewrite decide_False by (rewrite Hp; done). rewrite decide_True by done.
        run_at Hs.
        rewrite (Subscription_close_exact _ r (sn_set_state "terminated" s))
          by apply lookup_insert_eq.
        rewrite (Subscription_close_exact w r s Hs).
        f_equal. f_equal.
        unfold Subscription_close_world, Subscription_close_before_decision, remaining.
        simpl. rewrite torn_down_terminated, insert_insert_eq. reflexivity. }
    split; [exact Heq|]. rewrite Heq, (Subscription_close_exact w r s Hs).
    destruct (torn_down_facts s) as (F1 & F2 & _).
    exists (Subscription_close_world r s w), (torn_down s).
    split; [done|]. rewrite Subscription_close_world_store, lookup_insert_eq.
    repeat split; try done. apply Subscription_close_world_sends.
  - intros Hnt Hnp. exists (renewal_sent r s w), (sn_set_N (Some (next_timer w)) s).
    split.
    { unfold Subscription_timer_N. run_at Hs. rewrite !decide_False by done.
      by apply Subscription_subscribe_run. }
    unfold renewal_sent. simpl. rewrite !lookup_insert_eq.
    by repeat split.
Qed.

Lemma Subscription_timer_N_closes_or_renews_witness :
  Subscription_timer_N 0 (world_one "pending") = Subscription_close 0 (world_one "pending")
  /\ exists w' s',
       Subscription_timer_N 0 (world_one "pending") = Some (tt, w')
       /\ store w' !! 0 = Some s'
       /\ sn_state s' = "terminated"
       /\ ToBoolean (sn_dialog s') = false
       /\ count_calls is_send (log w') = count_calls is_send (log (world_one "pending")).
Proof.
  destruct (Subscription_timer_N_closes_or_renews (world_one "pending") 0
              (example_subscription "pending")) as [Hclose _]; [reflexivity|].
  apply Hclose. right. reflexivity.
Defined.

(** ** NOTIFY with Subscription-State: terminated *)

Lemma obj_get_delete_same {V : Type} (k : string) (o : list (string * V)) :
  obj_get k (obj_delete k o) = None.
Proof.
  induction o as [|[k' v] o IH]; simpl; [done|].
  destruct (decide (k = k')); simpl; [done|]. by case_decide.
Qed.

Lemma lookup_cleared_None h (t : gmap nat (timer_callback * Z)) :
  cleared (Some h) t !! h = None.
Proof. simpl. apply lookup_delete_eq. Qed.

Lemma lookup_cleared_None_2 o h (t : gmap nat (timer_callback * Z)) :
  t !! h = None -> cleared o t !! h = None.
Proof.
  intros H. destruct o as [n|]; simpl; [|done].
  destruct (decide (n = h)) as [->|]; [apply lookup_delete_eq|].
  by rewrite lookup_delete_ne.
Qed.

(** X8: An accepted NOTIFY with [Subscription-State: terminated] is answered
    with 200 before anything else; then the dialog is torn down, the
    watchdog cancelled, the Subscription removed from its Subscriber's map
    (closing the Subscriber when it was the last), and only then the
    NOTIFY is delivered to the application.  No request is sent. *)
Theorem terminated_notify_closes_subscription w r s request ss initial :
  store w !! r = Some s -> accepted request initial w ->
  req_Subscription_State request = Some ss -> ss_state ss = "terminated" ->
  exists w' pre,
    Subscription_receiveRequest r request initial w = Some (tt, w')
    /\ store w' !! r = Some (torn_down s)
    /\ subscriptions (subscriber w') = remaining s w
    /\ (forall i, sn_id s = Some i -> obj_get i (subscriptions (subscriber w')) = None)
    /\ (forall h, sn_N s = Some h -> timers w' !! h = None)
    /\ log w' = (receiveInfo request :: pre ++ onSubscriptionTerminate r
                 :: dialog_calls s
                 ++ reply request 200 REASON_200
                      ["Contact: <" +:+ contact (subscriber w) +:+ ">"]
                 :: log w)%list
    /\ (pre = [] \/ pre = [onTerminate])
    /\ count_calls is_send (log w') = count_calls is_send (log w).
Proof.
  intros Hs Hacc Hss Hterm.
  set (w0 := with_log (reply request 200 REASON_200
                         ["Contact: <" +:+ contact (subscriber w) +:+ ">"] :: log w) w).
  assert (Subscription_receiveRequest r request initial w
          = Some (tt, with_log (receiveInfo request :: log (Subscription_close_world r s w0))
                        (Subscription_close_world r s w0))) as Hrun.
  { unfold Subscription_receiveRequest.
    unfold mbind at 1, M_MBind at 1, M_bind at 1.
    rewrite (accepted_run _ _ _ Hacc). simpl. rewrite Hss.
    case_decide as Ha; [by rewrite Hterm in Ha|].
    case_decide as Hp; [by rewrite Hterm in Hp|].
    case_decide; [|done]. run. fold w0.
    by rewrite (Subscription_close_exact w0 r s Hs). }
  assert (forall i, sn_id s = Some i -> obj_get i (remaining s w) = None) as Hgone.
  { intros i Hi. unfold remaining. rewrite Hi. apply obj_get_delete_same. }
  unfold Subscription_close_world in Hrun.
  destruct (decide (remaining s w0 = [] /\ state (subscriber w0) <> Some "terminated")).
  - eexists _, [onTerminate]. split; [exact Hrun|]. subst w0. simpl.
    rewrite lookup_insert_eq.
    assert (subscriptions (match sn_id s with
                           | Some i => set_subscriptions
                                         (obj_delete i (subscriptions (subscriber w)))
                                         (subscriber w)
                           | None => subscriber w
                           end) = remaining s w) as Hsub
      by (unfold remaining; by destruct (sn_id s)).
    rewrite Hsub. repeat split; try done; auto.
    + intros h Hh. rewrite Hh. apply lookup_cleared_None_2, lookup_delete_eq.
    + rewrite !count_calls_cons, count_calls_app, count_calls_dialog_calls,
        count_calls_cons. simpl. by destruct (sn_dialog s).
  - eexists _, []. split; [exact Hrun|]. subst w0. simpl.
    rewrite lookup_insert_eq.
    assert (subscriptions (match sn_id s with
                           | Some i => set_subscriptions
                                         (obj_delete i (subscriptions (subscriber w)))
                                         (subscriber w)
                           | None => subscriber w
                           end) = remaining s w) as Hsub
      by (unfold remaining; by destruct (sn_id s)).
    rewrite Hsub. repeat split; try done; auto.
    + intros h Hh. rewrite Hh. apply lookup_delete_eq.
    + rewrite !count_calls_cons, count_calls_app, count_calls_dialog_calls,
        count_calls_cons. simpl. by destruct (sn_dialog s).
Qed.

Lemma terminated_notify_closes_subscription_witness :
  exists w' pre,
    Subscription_receiveRequest 0 (example_notify "message-summary" "terminated" None)
      false (world_one "active") = Some (tt, w')
    /\ store w' !! 0 = Some (torn_down (example_subscription "active"))
    /\ subscriptions (subscriber w')
       = remaining (example_subscription "active") (world_one "active")
    /\ (forall i, sn_id (example_subscription "active") = Some i ->
                  obj_get i (subscriptions (subscriber w')) = None)
    /\ (forall h, sn_N (example_subscription "active") = Some h -> timers w' !! h = None)
    /\ log w' = (receiveInfo (example_notify "message-summary" "terminated" None)
                 :: pre ++ onSubscriptionTerminate 0
                 :: dialog_calls (example_subscription "active")
                 ++ reply (example_notify "message-summary" "terminated" None) 200
                      REASON_200
                      ["Contact: <" +:+ contact (subscriber (world_one "active")) +:+ ">"]
                 :: log (world_one "active"))%list
    /\ (pre = [] \/ pre = [onTerminate])
    /\ count_calls is_send (log w') = count_calls is_send (log (world_one "active")).
Proof.
  apply (terminated_notify_closes_subscription (world_one "active") 0
           (example_subscription "active")
           (example_notify "message-summary" "terminated" None)
           {| ss_state := "terminated"; ss_expires := None; ss_reason := None |} false).
  - reflexivity.
  - right. reflexivity.
  - reflexivity.
  - reflexivity.
Defined.

(** ** Responses to a renewal, and provisional responses *)

Lemma indexOf_from_absent x l : forall i, x ∉ l -> indexOf_from i x l = (-1)%Z.
Proof.
  induction l as [|y l IH]; intros i Hx; simpl; [done|].
  apply not_elem_of_cons in Hx as [Hne Hx].
  destruct (x =? y)%Z eqn:E; [lia|]. by apply IH.
Qed.

Lemma error_codes_not_1xx_2xx c :
  c ∈ error_codes -> test_1xx c = false /\ test_2xx c = false.
Proof.
  unfold error_codes. rewrite !elem_of_cons, elem_of_nil.
  intros H. repeat destruct H as [->|H]; try done.
Qed.

Lemma not_error_code c :
  test_1xx c = true \/ test_2xx c = true -> indexOf error_codes c = (-1)%Z.
Proof.
  intros H. apply indexOf_from_absent. intros Hin.
  destruct (error_codes_not_1xx_2xx c Hin) as [H1 H2]. destruct H; congruence.
Qed.

(** X9: A provisional response changes nothing, neither for the initial
    SUBSCRIBE nor for a renewal: no timer is touched, nothing is reported. *)
Theorem provisional_response_ignored w r response :
  test_1xx (status_code response) = true ->
  Subscriber_subscribe_receiveResponse response w = Some (tt, w)
  /\ Subscription_subscribe_receiveResponse r response w = Some (tt, w).
Proof.
  intros H1. split.
  - unfold Subscriber_subscribe_receiveResponse. by rewrite H1.
  - unfold Subscription_subscribe_receiveResponse.
    rewrite (not_error_code _ (or_introl H1)), H1. by case_decide.
Qed.

Lemma provisional_response_ignored_witness :
  Subscriber_subscribe_receiveResponse (example_response 100 None) world_notify_wait
  = Some (tt, world_notify_wait)
  /\ Subscription_subscribe_receiveResponse 0 (example_response 100 None) world_notify_wait
     = Some (tt, world_notify_wait).
Proof.
  apply (provisional_response_ignored world_notify_wait 0 (example_response 100 None)).
  reflexivity.
Defined.

(** X10: A 2xx to a renewal.  With an [Expires] that is not zero and at most the
    Subscription's lifetime, the watchdog is re-armed for that value times
    1000 ms and nothing else changes: the state and the dialog stay, the
    stored lifetime is not lowered to the granted value, and the Subscriber
    captures nothing.  Otherwise the Subscription is closed and the failure
    reported, with [EXPIRES_HEADER_MISSING] for an absent (or zero) value
    and [INVALID_EXPIRES_HEADER] for one that is too large. *)
Theorem renewal_2xx w r s response :
  store w !! r = Some s -> test_2xx (status_code response) = true ->
  match granted (rsp_Expires response) (sn_expires s) with
  | Some n =>
      Subscription_subscribe_receiveResponse r response w
      = Some (tt,
          with_store (<[r := sn_set_N (Some (next_timer w)) s]> (store w)) (next_ref w)
            (with_timers
               (<[next_timer w := (subscription_timer_N r, (n * 1000)%Z)]>
                  (cleared (sn_N s) (timers w)))
               (S (next_timer w)) w))
      /\ rsp_Expires response = Some n /\ n <> 0%Z /\ (n <= sn_expires s)%Z
  | None =>
      Subscription_subscribe_receiveResponse r response w
      = Some (tt,
          with_log
            (onFailure None
               (Some (if truthy (rsp_Expires response)
                      then INVALID_EXPIRES_HEADER else EXPIRES_HEADER_MISSING))
             :: log (Subscription_close_world r s w))
            (Subscription_close_world r s w))
      /\ store (Subscription_close_world r s w) !! r = Some (torn_down s)
  end.
Proof.
  intros Hs H2.
  pose proof (not_error_code _ (or_intror H2)) as Hne.
  pose proof (test_2xx_not_1xx _ H2) as H1.
  destruct (granted (rsp_Expires response) (sn_expires s)) as [n|] eqn:Hg.
  - split.
    + unfold Subscription_subscribe_receiveResponse.
      rewrite Hne, H1, H2. case_decide; [done|]. run_at Hs. rewrite Hg. run_at Hs.
      reflexivity.
    + unfold granted in Hg. destruct (rsp_Expires response) as [m|]; [|done].
      simpl in Hg. destruct (m =? 0)%Z eqn:E0; [done|]. simpl in Hg.
      destruct (m <=? sn_expires s)%Z eqn:E1; [|done].
      injection Hg as <-. repeat split; lia.
  - split; [|by rewrite Subscription_close_world_store, lookup_insert_eq].
    unfold Subscription_subscribe_receiveResponse.
    rewrite Hne, H1, H2. case_decide; [done|]. run_at Hs. rewrite Hg.
    unfold mbind, M_MBind, M_bind. rewrite (Subscription_close_exact w r s Hs).
    by destruct (truthy (rsp_Expires response)).
Qed.

Lemma renewal_2xx_witness :
  Subscription_subscribe_receiveResponse 0 (example_response 200 (Some 120%Z))
    (world_one "active")
  = Some (tt,
      with_store (<[0 := sn_set_N (Some 2) (example_subscription "active")]>
                    (store (world_one "active"))) 1
        (with_timers
           (<[2 := (subscription_timer_N 0, (120 * 1000)%Z)]>
              (cleared (Some 1) (timers (world_one "active"))))
           3 (world_one "active")))
  /\ rsp_Expires (example_response 200 (Some 120%Z)) = Some 120%Z
  /\ 120%Z <> 0%Z /\ (120 <= 180)%Z.
Proof.
  apply (renewal_2xx (world_one "active") 0 (example_subscription "active")
           (example_response 200 (Some 120%Z))); reflexivity.
Defined.

(** X11: Any response to a renewal that is neither 1xx nor 2xx closes the
    Subscription and is reported as it is, with no cause: membership of its
    status code in [error_codes] makes no difference. *)
Theorem renewal_final_response w r s response :
  store w !! r = Some s ->
  test_1xx (status_code response) = false -> test_2xx (status_code response) = false ->
  Subscription_subscribe_receiveResponse r response w
  = Some (tt,
      with_log (onFailure (Some response) None :: log (Subscription_close_world r s w))
        (Subscription_close_world r s w))
  /\ store (Subscription_close_world r s w) !! r = Some (torn_down s).
Proof.
  intros Hs H1 H2.
  split; [|by rewrite Subscription_close_world_store, lookup_insert_eq].
  unfold Subscription_subscribe_receiveResponse. rewrite H1, H2.
  case_decide; unfold mbind, M_MBind, M_bind;
    by rewrite (Subscription_close_exact w r s Hs).
Qed.

Lemma renewal_final_response_witness :
  Subscription_subscribe_receiveResponse 0 (example_response 500 None) (world_one "active")
  = Some (tt,
      with_log (onFailure (Some (example_response 500 None)) None
                :: log (Subscription_close_world 0 (example_subscription "active")
                          (world_one "active")))
        (Subscription_close_world 0 (example_subscription "active") (world_one "active")))
  /\ store (Subscription_close_world 0 (example_subscription "active") (world_one "active"))
       !! 0 = Some (torn_down (example_subscription "active")).
Proof.
  apply (renewal_final_response (world_one "active") 0 (example_subscription "active")
           (example_response 500 None)); reflexivity.
Defined.

(** X12: Any response to the initial SUBSCRIBE that is neither 1xx nor 2xx
    closes the Subscriber and is reported as it is, with no cause. *)
Theorem initial_final_response w response :
  live w ->
  test_1xx (status_code response) = false -> test_2xx (status_code response) = false ->
  exists w1,
    Subscriber_close w = Some (tt, w1)
    /\ state (subscriber w1) = Some "terminated"
    /\ Subscriber_subscribe_receiveResponse response w
       = Some (tt, with_log (onFailure (Some response) None :: log w1) w1).
Proof.
  intros Hl H1 H2. destruct (Subscriber_close_total w Hl) as (w1 & Hrun & Hst).
  exists w1. repeat split; try done.
  unfold Subscriber_subscribe_receiveResponse. rewrite H1, H2.
  unfold mbind, M_MBind, M_bind. by rewrite Hrun.
Qed.

Lemma world_notify_wait_live : live world_notify_wait.
Proof. intros k r. simpl. done. Qed.

Lemma initial_final_response_witness :
  exists w1,
    Subscriber_close world_notify_wait = Some (tt, w1)
    /\ state (subscriber w1) = Some "terminated"
    /\ Subscriber_subscribe_receiveResponse (example_response 404 None) world_notify_wait
       = Some (tt, with_log (onFailure (Some (example_response 404 None)) None :: log w1) w1).
Proof.
  apply (initial_final_response world_notify_wait (example_response 404 None)).
  - apply world_notify_wait_live.
  - reflexivity.
  - reflexivity.
Defined.

(** ** NOTIFYs handled by the Subscriber itself *)

(** X13: A matching NOTIFY with [Subscription-State: terminated] that reaches
    the Subscriber closes it.  The Subscriber itself neither answers that
    NOTIFY nor delivers it to the application. *)
Theorem terminated_notify_closes_subscriber Dialog_constructor w request ss :
  live w ->
  fst <$> Subscriber_matchEvent request w = Some true ->
  req_Subscription_State request = Some ss -> ss_state ss = "terminated" ->
  exists w',
    Subscriber_receiveRequest Dialog_constructor request w = Some (tt, w')
    /\ state (subscriber w') = Some "terminated"
    /\ count_calls is_reply (log w') = count_calls is_reply (log w)
    /\ count_calls is_receiveInfo (log w') = count_calls is_receiveInfo (log w)
    /\ (state (subscriber w) <> Some "terminated" ->
        count_calls is_onTerminate (log w') = S (count_calls is_onTerminate (log w))
        /\ sessions w' = match id (subscriber w) with
                         | Some i => sessions w ∖ {[ i ]}
                         | None => sessions w
                         end).
Proof.
  intros Hl Hm Hss Hterm.
  destruct (Subscriber_matchEvent_true request w Hm) as (Hrun & _).
  set (w0 := with_timers (cleared (N (subscriber w)) (timers w)) (next_timer w) w).
  assert (Subscriber_receiveRequest Dialog_constructor request w = Subscriber_close w0)
    as Heq.
  { unfold Subscriber_receiveRequest.
    unfold mbind at 1, M_MBind at 1, M_bind at 1. rewrite Hrun. simpl.
    rewrite Hss. run. case_decide as Hd; [destruct Hd as [Hd|Hd]; by rewrite Hterm in Hd|].
    by case_decide. }
  rewrite Heq.
  destruct (decide (state (subscriber w) = Some "terminated")) as [Ht|Hnt].
  - exists w0. split; [by apply Subscriber_close_terminated|]. by repeat split.
  - destruct (Subscriber_close_open w0 Hl Hnt) as (w' & Hrun' & Hc).
    destruct Hc as [_ Hst _ _ _ Hss' (sent & L & F)].
    exists w'. split; [done|]. split; [done|].
    rewrite L, !count_calls_cons, !count_calls_app. simpl.
    rewrite !(count_calls_sends _ sent) by done.
    repeat split; done.
Qed.

Lemma terminated_notify_closes_subscriber_witness :
  exists w',
    Subscriber_receiveRequest Dialog_of_message
      (example_notify "message-summary" "terminated" None) world_notify_wait = Some (tt, w')
    /\ state (subscriber w') = Some "terminated"
    /\ count_calls is_reply (log w') = count_calls is_reply (log world_notify_wait)
    /\ count_calls is_receiveInfo (log w')
       = count_calls is_receiveInfo (log world_notify_wait)
    /\ (state (subscriber world_notify_wait) <> Some "terminated" ->
        count_calls is_onTerminate (log w')
        = S (count_calls is_onTerminate (log world_notify_wait))
        /\ sessions w' = sessions world_notify_wait ∖ {[ "a84b4c76e66710tagA" ]}).
Proof.
  apply (terminated_notify_closes_subscriber Dialog_of_message world_notify_wait
           (example_notify "message-summary" "terminated" None)
           {| ss_state := "terminated"; ss_expires := None; ss_reason := None |}).
  - apply world_notify_wait_live.
  - reflexivity.
  - reflexivity.
  - reflexivity.
Defined.

(** X14: A matching NOTIFY with [Subscription-State: active] or [pending] that
    reaches the Subscriber, and for which the Dialog constructor yields a
    dialog with an [id], creates one Subscription in the state the NOTIFY
    names, registered under its dialog id, answers the NOTIFY with 200 and
    delivers it to the application only when it says [active].  The new
    dialog's local sequence number is always overwritten with the
    Subscriber's [initial_local_seqnum], which is [undefined] when no 2xx
    was received; its route set is replaced by the one saved from the 2xx
    only when the NOTIFY's from-tag is the tag of that 2xx.  The Subscriber
    keeps its own state. *)
Theorem notify_creates_subscription Dialog_constructor w request ss id :
  dialog_id (constructed_dialog Dialog_constructor request UAS) = Some id ->
  fst <$> Subscriber_matchEvent request w = Some true ->
  req_Subscription_State request = Some ss ->
  ss_state ss = "active" \/ ss_state ss = "pending" ->
  exists w' s' d,
    Subscriber_receiveRequest Dialog_constructor request w = Some (tt, w')
    /\ store w' !! next_ref w = Some s'
    /\ sn_state s' = ss_state ss
    /\ sn_id s' = Some id
    /\ sn_dialog s' = js_object d
    /\ obj_get id (subscriptions (subscriber w')) = Some (next_ref w)
    /\ dialog_id d = Some id
    /\ local_seqnum d = initial_local_seqnum (subscriber w)
    /\ route_set d
       = (if decide (Some (req_from_tag request) = to_tag_2xx (subscriber w))
          then route_set_2xx (subscriber w)
          else route_set (constructed_dialog Dialog_constructor request UAS))
    /\ state (subscriber w') = state (subscriber w)
    /\ count_calls is_reply (log w') = S (count_calls is_reply (log w))
    /\ count_calls is_receiveInfo (log w')
       = (if decide (ss_state ss = "active") then 1 else 0)
         + count_calls is_receiveInfo (log w).
Proof.
  intros Hid Hm Hss Htoken.
  rewrite (Subscriber_receiveRequest_creates _ id request ss w Hid Hm Hss) by tauto.
  set (e := js_or (ss_expires ss) (expires (subscriber w))).
  set (w0 := with_timers _ _ _).
  set (w1 := registered Dialog_constructor id request (ss_state ss) e w0).
  set (d := seeded_dialog Dialog_constructor request (subscriber w)).
  assert (store w1 !! next_ref w
          = Some {| sn_id := Some id; sn_state := ss_state ss;
                    sn_expires := e; sn_dialog := js_object d; sn_N := None |}) as Hs1
    by apply lookup_insert_eq.
  assert (dialog_id d = Some id
          /\ local_seqnum d = initial_local_seqnum (subscriber w)
          /\ route_set d
             = (if decide (Some (req_from_tag request) = to_tag_2xx (subscriber w))
                then route_set_2xx (subscriber w)
                else route_set (constructed_dialog Dialog_constructor request UAS)))
    as (Hd1 & Hd2 & Hd3).
  { subst d. unfold seeded_dialog. by case_decide. }
  assert (obj_get id (subscriptions (subscriber w1)) = Some (next_ref w))
    as Hreg by apply obj_get_set.
  unfold mbind, M_MBind, M_bind.
  destruct Htoken as [Ha|Hp].
  - rewrite (Subscription_receiveRequest_active w1 _ _ request ss true Hs1) by (done || by left).
    eexists _, _, d. split; [reflexivity|]. simpl. rewrite lookup_insert_eq.
    destruct (decide (ss_state ss = "active")) as [_|Hn]; [|by destruct Hn].
    repeat split; try done.
  - rewrite (Subscription_receiveRequest_pending w1 _ _ request ss true Hs1) by (done || by left).
    eexists _, _, d. split; [reflexivity|]. simpl. rewrite lookup_insert_eq.
    destruct (decide (ss_state ss = "active")) as [Hn|_]; [by rewrite Hp in Hn|].
    repeat split; try done.
Qed.

Lemma notify_creates_subscription_witness :
  exists w' s' d,
    Subscriber_receiveRequest Dialog_of_message
      (example_notify "message-summary" "pending" (Some 60%Z)) world_notify_wait
    = Some (tt, w')
    /\ store w' !! 0 = Some s'
    /\ sn_state s' = "pending"
    /\ sn_id s' = Some "a84b4c76e66710tagAsrv1"
    /\ sn_dialog s' = js_object d
    /\ obj_get "a84b4c76e66710tagAsrv1" (subscriptions (subscriber w')) = Some 0
    /\ dialog_id d = Some "a84b4c76e66710tagAsrv1"
    /\ local_seqnum d = None
    /\ route_set d = Some []
    /\ state (subscriber w') = Some "notify_wait"
    /\ count_calls is_reply (log w') = 1
    /\ count_calls is_receiveInfo (log w') = 0 + 0.
Proof.
  apply (notify_creates_subscription Dialog_of_message world_notify_wait
           (example_notify "message-summary" "pending" (Some 60%Z))
           {| ss_state := "pending"; ss_expires := Some 60%Z; ss_reason := None |}).
  - reflexivity.
  - reflexivity.
  - reflexivity.
  - right. reflexivity.
Defined.

(** ** unsubscribe() of a Subscription, and what follows it *)

Lemma Subscription_close_world_dialog r s w :
  count_calls is_dialog_terminate (log (Subscription_close_world r s w))
  = (if ToBoolean (sn_dialog s) then 1 else 0) + count_calls is_dialog_terminate (log w).
Proof.
  unfold Subscription_close_world, closed_alone, Subscription_close_before_decision.
  case_decide; simpl; rewrite !count_calls_cons, count_calls_app, count_calls_dialog_calls;
    simpl; by destruct (sn_dialog s).
Qed.

Lemma Subscription_close_world_timer r s w h :
  sn_N s = Some h -> timers (Subscription_close_world r s w) !! h = None.
Proof.
  intros HN. unfold Subscription_close_world, closed_alone,
    Subscription_close_before_decision.
  case_decide; simpl; rewrite HN;
    [apply lookup_cleared_None_2|]; apply lookup_cleared_None.
Qed.

(** C5, amended: for a Subscription in any state, [unsubscribe()] moves the
    state to ['terminated'], hands the request sender one SUBSCRIBE whose
    [Expires] header is 0, ignores any response to it, and arms the watchdog
    for 64*T1.  The owned dialog is not closed by [unsubscribe()] itself:
    it is left up, and is torn down by the [close()] that comes next.  If
    the watchdog fires next, [timer_N] finds the state ['terminated'] and
    closes.  If a matching NOTIFY with [Subscription-State: terminated]
    comes first, it closes at once and cancels the watchdog, which then
    never runs.  If a matching NOTIFY with [Subscription-State: active]
    comes first, the Subscription is active again with its dialog, the
    64*T1 watchdog is replaced by one for the lifetime of the subscription,
    and when that one fires the subscription is renewed, not closed. *)
Theorem unsubscribe_defers_dialog_teardown w r s :
  live w -> store w !! r = Some s ->
  exists w' request,
    Subscription_unsubscribe r w = Some (tt, w')
    /\ log w' = request_sender_send (unsubscription r) request :: log w
    /\ or_method request = "SUBSCRIBE"
    /\ or_headers request = [("Expires", "0")]
    /\ (forall response w0,
          Subscription_unsubscribe_receiveResponse r response w0 = Some (tt, w0))
    /\ (exists s', store w' !! r = Some s' /\ sn_state s' = "terminated"
                   /\ sn_dialog s' = sn_dialog s /\ sn_N s' = Some (next_timer w))
    /\ timers w' !! next_timer w
       = Some (subscription_timer_N r, (Timers_T1 (env w) * 64)%Z)
    /\ (exists w2 s2,
          fire (next_timer w) w' = Some (tt, w2)
          /\ store w2 !! r = Some s2
          /\ sn_state s2 = "terminated"
          /\ ToBoolean (sn_dialog s2) = false
          /\ count_calls is_dialog_terminate (log w2)
             = (if ToBoolean (sn_dialog s) then 1 else 0)
               + count_calls is_dialog_terminate (log w))
    /\ (forall notify ss,
          req_Event notify = Some (event (subscriber w)) ->
          req_Subscription_State notify = Some ss ->
          ss_state ss = "terminated" ->
          exists w2 s2,
            Subscription_receiveRequest r notify false w' = Some (tt, w2)
            /\ store w2 !! r = Some s2
            /\ sn_state s2 = "terminated"
            /\ ToBoolean (sn_dialog s2) = false
            /\ count_calls is_dialog_terminate (log w2)
               = (if ToBoolean (sn_dialog s) then 1 else 0)
                 + count_calls is_dialog_terminate (log w)
            /\ timers w2 !! next_timer w = None
            /\ fire (next_timer w) w2 = Some (tt, w2))
    /\ (forall notify ss,
          req_Event notify = Some (event (subscriber w)) ->
          req_Subscription_State notify = Some ss ->
          ss_state ss = "active" ->
          exists w2 s2 w3 s3,
            Subscription_receiveRequest r notify false w' = Some (tt, w2)
            /\ store w2 !! r = Some s2
            /\ sn_state s2 = "active"
            /\ sn_dialog s2 = sn_dialog s
            /\ timers w2 !! next_timer w = None
            /\ timers w2 !! S (next_timer w)
               = Some (subscription_timer_N r,
                       (js_or (ss_expires ss) (sn_expires s) * 1000)%Z)
            /\ fire (S (next_timer w)) w2 = Some (tt, w3)
            /\ store w3 !! r = Some s3
            /\ sn_state s3 = "active"
            /\ sn_dialog s3 = sn_dialog s
            /\ count_calls is_dialog_terminate (log w3)
               = count_calls is_dialog_terminate (log w)
            /\ count_calls is_renewal_send (log w3)
               = S (count_calls is_renewal_send (log w))).
Proof.
  intros Hl Hs. eexists _, _.
  split; [by apply Subscription_unsubscribe_run|]. simpl.
  split; [reflexivity|]. split; [reflexivity|]. split; [reflexivity|].
  split; [reflexivity|].
  split; [eexists; rewrite lookup_insert_eq; by repeat split|].
  split; [apply lookup_insert_eq|].
  match goal with |- context [fire (next_timer w) ?w0] => set (w' := w0) end.
  set (s1 := sn_set_N (Some (next_timer w)) (sn_set_state "terminated" s)).
  assert (store w' !! r = Some s1) as Hs1 by apply lookup_insert_eq.
  assert (forall notify ss,
            req_Event notify = Some (event (subscriber w)) ->
            req_Subscription_State notify = Some ss ->
            accepted notify false w') as Hacc.
  { intros notify ss He Hss. right. unfold Subscriber_matchEvent.
    rewrite He, Hss. run. by case_decide. }
  split; [|split].
  - unfold fire. simpl. rewrite lookup_insert_eq.
    match goal with |- context [Subscription_timer_N r ?w0] => set (w1 := w0) end.
    assert (store w1 !! r = Some s1) as Hs1' by apply lookup_insert_eq.
    exists (Subscription_close_world r s1 w1), (torn_down s1). split.
    + unfold Subscription_timer_N. unfold mbind at 1, M_MBind at 1, M_bind at 1.
      unfold get_subscription. rewrite Hs1'. simpl.
      by apply Subscription_close_exact.
    + rewrite Subscription_close_world_store, Subscription_close_world_dialog.
      split; [apply lookup_insert_eq|]. subst w1. simpl. rewrite count_calls_cons. simpl.
      destruct (torn_down_facts s1) as (F1 & F2 & _). by repeat split.
  - intros notify ss He Hss Hterm.
    set (w0 := with_log (reply notify 200 REASON_200
                           ["Contact: <" +:+ contact (subscriber w') +:+ ">"] :: log w') w').
    assert (store w0 !! r = Some s1) as Hs0 by apply lookup_insert_eq.
    set (w2 := Subscription_close_world r s1 w0).
    assert (timers w2 !! next_timer w = None) as Ht2
      by (by apply Subscription_close_world_timer).
    exists (with_log (receiveInfo notify :: log w2) w2), (torn_down s1).
    split; [|split; [|split; [|split; [|split; [|split]]]]].
    + unfold Subscription_receiveRequest.
      unfold mbind at 1, M_MBind at 1, M_bind at 1.
      rewrite (accepted_run _ _ _ (Hacc notify ss He Hss)). simpl. rewrite Hss.
      case_decide as Ha; [by rewrite Hterm in Ha|].
      case_decide as Hp; [by rewrite Hterm in Hp|].
      case_decide; [|done]. run.
      match goal with |- context [Subscription_close r ?x] => change x with w0 end.
      by rewrite (Subscription_close_exact w0 r s1 Hs0).
    + simpl. subst w2. rewrite Subscription_close_world_store. apply lookup_insert_eq.
    + apply torn_down_facts.
    + apply torn_down_facts.
    + simpl. rewrite count_calls_cons. subst w2.
      rewrite Subscription_close_world_dialog. subst w0 w'. simpl.
      rewrite !count_calls_cons. simpl. by destruct (sn_dialog s).
    + exact Ht2.
    + unfold fire. simpl. by rewrite Ht2.
  - intros notify ss He Hss Hact.
    pose proof (Subscription_receiveRequest_active w' r s1 notify ss false Hs1
                  (Hacc notify ss He Hss) Hss Hact) as Hrun.
    set (e := js_or (ss_expires ss) (sn_expires s)) in *.
    set (s2 := rearmed e (S (next_timer w)) (sn_set_state "active" s1)).
    eexists _, s2, _, (sn_set_N (Some (S (S (next_timer w)))) s2).
    split; [exact Hrun|]. simpl.
    split; [apply lookup_insert_eq|]. split; [reflexivity|]. split; [reflexivity|].
    split.
    { rewrite lookup_insert_ne by lia. apply lookup_delete_eq. }
    split; [apply lookup_insert_eq|].
    unfold fire. simpl. rewrite lookup_insert_eq.
    match goal with |- context [Subscription_timer_N r ?w0] => set (w2 := w0) end.
    assert (store w2 !! r = Some s2) as Hs2 by apply lookup_insert_eq.
    split.
    + unfold Subscription_timer_N. unfold mbind at 1, M_MBind at 1, M_bind at 1.
      unfold get_subscription. rewrite Hs2. simpl.
      by apply Subscription_subscribe_run.
    + unfold renewal_sent. simpl. rewrite lookup_insert_eq.
      rewrite !count_calls_cons. simpl. by repeat split.
Qed.

Lemma unsubscribe_defers_dialog_teardown_witness :
  exists w' request,
    Subscription_unsubscribe 0 (world_one "pending") = Some (tt, w')
    /\ log w' = request_sender_send (unsubscription 0) request :: log (world_one "pending")
    /\ or_method request = "SUBSCRIBE"
    /\ or_headers request = [("Expires", "0")]
    /\ (forall response w0,
          Subscription_unsubscribe_receiveResponse 0 response w0 = Some (tt, w0))
    /\ (exists s', store w' !! 0 = Some s' /\ sn_state s' = "terminated"
                   /\ sn_dialog s' = js_object example_dialog /\ sn_N s' = Some 2)
    /\ timers w' !! 2 = Some (subscription_timer_N 0, 32000%Z)
    /\ (exists w2 s2,
          fire 2 w' = Some (tt, w2)
          /\ store w2 !! 0 = Some s2
          /\ sn_state s2 = "terminated"
          /\ ToBoolean (sn_dialog s2) = false
          /\ count_calls is_dialog_terminate (log w2) = 1 + 0)
    /\ (exists w2 s2,
          Subscription_receiveRequest 0
            (example_notify "message-summary" "terminated" None) false w' = Some (tt, w2)
          /\ store w2 !! 0 = Some s2
          /\ sn_state s2 = "terminated"
          /\ ToBoolean (sn_dialog s2) = false
          /\ count_calls is_dialog_terminate (log w2) = 1 + 0
          /\ timers w2 !! 2 = None
          /\ fire 2 w2 = Some (tt, w2))
    /\ (exists w2 s2 w3 s3,
          Subscription_receiveRequest 0
            (example_notify "message-summary" "active" (Some 60%Z)) false w' = Some (tt, w2)
          /\ store w2 !! 0 = Some s2
          /\ sn_state s2 = "active"
          /\ sn_dialog s2 = js_object example_dialog
          /\ timers w2 !! 2 = None
          /\ timers w2 !! 3 = Some (subscription_timer_N 0, 60000%Z)
          /\ fire 3 w2 = Some (tt, w3)
          /\ store w3 !! 0 = Some s3
          /\ sn_state s3 = "active"
          /\ sn_dialog s3 = js_object example_dialog
          /\ count_calls is_dialog_terminate (log w3) = 0
          /\ count_calls is_renewal_send (log w3) = 1).
Proof.
  destruct (unsubscribe_defers_dialog_teardown (world_one "pending") 0
              (example_subscription "pending") (world_one_live "pending") eq_refl)
    as (w' & request & H1 & H2 & H3 & H4 & H5 & H6 & H7 & H8 & H9 & H10).
  exists w', request.
  split; [exact H1|]. split; [exact H2|]. split; [exact H3|]. split; [exact H4|].
  split; [exact H5|]. split; [exact H6|]. split; [exact H7|]. split; [exact H8|].
  split.
  - exact (H9 (example_notify "message-summary" "terminated" None)
              {| ss_state := "terminated"; ss_expires := None; ss_reason := None |}
              eq_refl eq_refl eq_refl).
  - exact (H10 (example_notify "message-summary" "active" (Some 60%Z))
               {| ss_state := "active"; ss_expires := Some 60%Z; ss_reason := None |}
               eq_refl eq_refl eq_refl).
Defined.

(** * What holds in every reachable world *)

(** ** Building blocks *)


















(** ** The methods, one by one *)
































(** ** One watchdog per Subscription *)



(** ** The cseq of the requests sent *)



(** ** No input makes a handler throw *)









(** * The transport *)

(** Unfolding the computations of the transport. *)
Ltac t_unfold :=
  unfold reconnect_timer_fires, Transport_onClose, Transport_reConnect, Transport_onOpen,
    Transport_send, Transport_disconnect, Transport_connect, Transport_onError,
    Transport_readyState, socket_close, WebSocket_new, clear_reconnect_timer,
    set_reconnect_timer, set_socket, get_socket, call_out, the_net, set_transport,
    this_transport, T_TypeError, mbind, mret, T_MBind, T_MRet, T_bind, T_ret in *.

(** A net taken apart, so that the computations on it reduce. *)
Ltac t_open n :=
  destruct n as [[ws0 attempts0 closed0 connected0 timer0 code0 reason0]
                   sockets0 next0 throws0 timers0 nextt0 uri0 max0 timeout0
                   user0 ict0 nict0 calls0];
  t_unfold; simpl in *.

(** Reading a socket that was just written, or another one. *)
Ltac t_lookups :=
  repeat (first [rewrite lookup_insert_eq
                | rewrite lookup_insert_ne by done]; simpl).

Lemma Transport_send_run (message : string) (n : Net) :
  Transport_send message n =
    match ws (transport n) with
    | Some i =>
        match sockets n !! i with
        | Some s =>
            if decide (readyState s = OPEN)
            then Some (true, net_with_calls (ws_send i message :: calls n) n)
            else Some (false, n)
        | None => None
        end
    | None => Some (false, n)
    end.
Proof.
  t_open n. destruct ws0 as [i|]; simpl; [|reflexivity].
  destruct (sockets0 !! i) as [s|]; simpl; [|reflexivity].
  destruct (decide (readyState s = OPEN)); reflexivity.
Qed.

(** ** send *)

(** X18: [send] hands the message to the socket exactly when the
    transport has a socket whose [readyState] is OPEN, and then answers
    [true]; otherwise it answers [false] and nothing at all has changed.
    It throws only if the socket of the transport is not a socket. *)
Theorem send_needs_an_open_socket (message : string) (n : Net) :
  (ws (transport n) = None \/ constructed n) ->
  exists b n',
    Transport_send message n = Some (b, n') /\
    (b = true <->
       exists i s, ws (transport n) = Some i /\ sockets n !! i = Some s /\
                   readyState s = OPEN) /\
    (b = false -> n' = n) /\
    (b = true ->
       exists i, ws (transport n) = Some i /\
                 n' = net_with_calls (ws_send i message :: calls n) n).
Proof.
  intros Hc. rewrite Transport_send_run.
  destruct (ws (transport n)) as [i|] eqn:Hws.
  - destruct Hc as [|(j & Hj & [s Hs])]; [done|].
    rewrite Hws in Hj. injection Hj as <-. rewrite Hs.
    destruct (decide (readyState s = OPEN)) as [Ho|Ho].
    + exists true, (net_with_calls (ws_send i message :: calls n) n).
      repeat split; try done; eauto.
    + exists false, n. repeat split; try done.
      intros (i' & s' & [= <-] & Hs' & Ho'). congruence.
  - exists false, n. repeat split; try done.
    by intros (i' & s' & ? & _).
Qed.

Lemma send_needs_an_open_socket_witness :
  exists n b n',
    example_net 3 0 = Some (tt, n) /\
    Transport_send "OPTIONS" n = Some (b, n') /\ b = true.
Proof.
  destruct (example_net 3 0) as [[[] n]|] eqn:E; [|exfalso; vm_compute in E; discriminate].
  assert (Hc : ws (transport n) = None \/ constructed n).
  { right. vm_compute in E. injection E as <-. exists 0%nat. split; [reflexivity|].
    eexists. reflexivity. }
  destruct (send_needs_an_open_socket "OPTIONS" n Hc) as (b & n' & Hrun & Hb & _).
  exists n, b, n'. repeat split; [done|].
  apply Hb. vm_compute in E. injection E as <-. exists 0%nat. eexists.
  repeat split; reflexivity.
Defined.

(** ** connect *)

Lemma Transport_connect_busy (n : Net) (i : nat) (s : WebSocket) :
  ws (transport n) = Some i ->
  sockets n !! i = Some s ->
  readyState s = OPEN \/ readyState s = CONNECTING ->
  Transport_connect n = Some (Some false, n).
Proof.
  intros Hws Hs Hst. t_open n. subst ws0. simpl. rewrite Hs. simpl.
  rewrite bool_decide_eq_true_2 by done. reflexivity.
Qed.

Lemma Transport_connect_first (n : Net) :
  ws (transport n) = None ->
  constructor_throws n = false ->
  Transport_connect n =
    Some (None,
          net_with_calls (usedServers_push :: calls n)
            (net_with_sockets
               (<[next_socket n := connecting_socket (server_ws_uri n)]> (sockets n))
               (S (next_socket n))
               (net_with_transport (tr_set_ws (Some (next_socket n)) (transport n)) n))).
Proof.
  intros Hws Hthrows. t_open n. subst. simpl.
  rewrite lookup_insert_eq. simpl. rewrite lookup_insert_eq. simpl.
  rewrite !insert_insert_eq. reflexivity.
Qed.

Lemma Transport_connect_again (n : Net) (i : nat) (s : WebSocket) :
  ws (transport n) = Some i ->
  sockets n !! i = Some s ->
  readyState s = CLOSING \/ readyState s = CLOSED ->
  constructor_throws n = false ->
  Transport_connect n =
    Some (None,
          net_with_calls (usedServers_push :: ws_close i :: calls n)
            (net_with_sockets
               (<[next_socket n := connecting_socket (server_ws_uri n)]>
                  (<[i := s]> (sockets n)))
               (S (next_socket n))
               (net_with_transport (tr_set_ws (Some (next_socket n)) (transport n)) n))).
Proof.
  intros Hws Hs Hst Hthrows. t_open n. subst. simpl. rewrite Hs. simpl.
  rewrite bool_decide_eq_false_2 by (intros [?|?]; destruct Hst; congruence).
  simpl. rewrite Hs. simpl.
  replace (match readyState s with
           | CONNECTING | OPEN => ws_set_readyState CLOSING s
           | _ => s
           end) with s by (destruct Hst as [E|E]; rewrite E; reflexivity).
  rewrite lookup_insert_eq. simpl. rewrite lookup_insert_eq. simpl.
  rewrite !insert_insert_eq. reflexivity.
Qed.

Lemma Transport_connect_refused (n : Net) (i : nat) (s : WebSocket) :
  ws (transport n) = Some i ->
  sockets n !! i = Some s ->
  readyState s = CLOSING \/ readyState s = CLOSED ->
  constructor_throws n = true ->
  Transport_connect n =
    Some (None,
          net_with_calls (ws_close i :: calls n)
            (net_with_sockets
               (<[i := ws_set_handlers true (ws_set_binaryType "arraybuffer" s)]>
                  (sockets n))
               (next_socket n) n)).
Proof.
  intros Hws Hs Hst Hthrows. t_open n. subst. simpl. rewrite Hs. simpl.
  rewrite bool_decide_eq_false_2 by (intros [?|?]; destruct Hst; congruence).
  simpl. rewrite Hs. simpl.
  replace (match readyState s with
           | CONNECTING | OPEN => ws_set_readyState CLOSING s
           | _ => s
           end) with s by (destruct Hst as [E|E]; rewrite E; reflexivity).
  rewrite lookup_insert_eq. simpl. rewrite lookup_insert_eq. simpl.
  rewrite !insert_insert_eq. reflexivity.
Qed.

Lemma ready_state_cases (r : ready_state) :
  (r = OPEN \/ r = CONNECTING) \/ (r = CLOSING \/ r = CLOSED).
Proof. destruct r; auto. Qed.

(** X19: [connect()] opens at most one socket: where the constructor of
    WebSocket does not throw, [connect()] either finds the socket of the
    transport OPEN or CONNECTING, answers [false] and changes nothing, or
    makes one new socket, which is CONNECTING, takes binary messages as
    array buffers and has the transport's handlers; and a [connect()] right
    after it, whichever way it went, answers [false] and changes nothing. *)
Theorem connect_opens_one_socket (n : Net) :
  constructor_throws n = false ->
  (ws (transport n) = None \/ constructed n) ->
  exists r n',
    Transport_connect n = Some (r, n') /\
    Transport_connect n' = Some (Some false, n') /\
    (r = Some false /\ n' = n \/
     r = None /\
     next_socket n' = S (next_socket n) /\
     ws (transport n') = Some (next_socket n) /\
     sockets n' !! next_socket n = Some (connecting_socket (server_ws_uri n))).
Proof.
  intros Hthrows Hc.
  assert (Hnew : forall m : Net,
            ws (transport m) = Some (next_socket n) ->
            sockets m !! next_socket n = Some (connecting_socket (server_ws_uri n)) ->
            Transport_connect m = Some (Some false, m)).
  { intros m Hw Hs. eapply Transport_connect_busy; [done..|]. by right. }
  destruct (ws (transport n)) as [i|] eqn:Hws.
  - destruct Hc as [|(j & Hj & [s Hs])]; [done|].
    rewrite Hws in Hj. injection Hj as <-.
    destruct (ready_state_cases (readyState s)) as [Hst|Hst].
    + exists (Some false), n.
      rewrite (Transport_connect_busy n i s) by done. auto.
    + eexists None, _. rewrite (Transport_connect_again n i s) by done.
      split; [reflexivity|].
      split; [apply Hnew; [reflexivity|apply lookup_insert_eq]|].
      right. repeat split. apply lookup_insert_eq.
  - eexists None, _. rewrite Transport_connect_first by done.
    split; [reflexivity|].
    split; [apply Hnew; [reflexivity|apply lookup_insert_eq]|].
    right. repeat split. apply lookup_insert_eq.
Qed.

Lemma connect_opens_one_socket_witness :
  exists n r n',
    Transport_new "wss://example.com" 3 0 false = Some (None, n) /\
    Transport_connect n = Some (r, n') /\ r = Some false /\ n' = n.
Proof.
  destruct (Transport_new "wss://example.com" 3 0 false) as [[r0 n]|] eqn:E;
    [|exfalso; vm_compute in E; discriminate].
  assert (Hthrows : constructor_throws n = false)
    by (vm_compute in E; injection E as <- <-; reflexivity).
  assert (Hc : ws (transport n) = None \/ constructed n).
  { right. vm_compute in E. injection E as <- <-. exists 0%nat. split; [reflexivity|].
    eexists. reflexivity. }
  destruct (connect_opens_one_socket n Hthrows Hc) as (r & n' & Hrun & _ & Hcases).
  exists n, r, n'.
  split; [vm_compute in E; injection E as <- <-; reflexivity|].
  split; [done|].
  destruct Hcases as [[-> ->]|(-> & Hnext & Hws & _)]; [done|].
  exfalso. vm_compute in E. injection E as <- <-.
  revert Hrun. vm_compute. discriminate.
Defined.

(** X20: The [try] around the constructor of WebSocket does not keep
    [connect()] from throwing: where the constructor throws and the
    transport has no socket yet, as in the constructor of Transport, the
    assignment to [this.ws.binaryType] is a TypeError.  Where the transport
    has a closed socket, [connect()] returns normally and the closed socket
    is given the transport's handlers again; no server is noted as used and
    no socket is made. *)
Theorem connect_when_the_constructor_throws (n : Net) :
  constructor_throws n = true ->
  (ws (transport n) = None -> Transport_connect n = None) /\
  (forall (i : nat) (s : WebSocket),
     ws (transport n) = Some i ->
     sockets n !! i = Some s ->
     readyState s = CLOSED ->
     exists n',
       Transport_connect n = Some (None, n') /\
       ws (transport n') = Some i /\
       next_socket n' = next_socket n /\
       calls n' = ws_close i :: calls n /\
       sockets n' !! i = Some (ws_set_handlers true (ws_set_binaryType "arraybuffer" s))).
Proof.
  intros Hthrows. split.
  - intros Hws. t_open n. by subst.
  - intros i s Hws Hs Hst. eexists.
    rewrite (Transport_connect_refused n i s) by auto.
    split; [reflexivity|]. repeat split; [done|]. apply lookup_insert_eq.
Qed.

Lemma connect_when_the_constructor_throws_witness :
  Transport_new "example.com" 3 0 true = None.
Proof.
  unfold Transport_new.
  match goal with
  | |- Transport_connect ?n = None =>
      exact (proj1 (connect_when_the_constructor_throws n eq_refl) eq_refl)
  end.
Defined.

(** ** The close event *)

(** X21: After [disconnect()] on a connected transport the close event
    of its socket ends the matter: the UA is told that the transport is
    closed and [disconnected] is emitted with the code and the reason of
    the event; no socket is made, no timer is set, and
    [reconnection_attempts] is as it was.  The socket is CLOSED and no
    longer has the transport's handlers. *)
Theorem user_disconnect_is_final (parseMessage : string -> option Message)
    (sanityCheck : Message -> T bool) (fromCharCode_accepts : list ascii -> bool)
    (n : Net) (i : nat) (s : WebSocket) (e : CloseEvent) :
  ws (transport n) = Some i ->
  sockets n !! i = Some s ->
  ws_handlers s = true ->
  connected (transport n) = true ->
  exists n',
    (Transport_disconnect ;;
     deliver parseMessage sanityCheck fromCharCode_accepts i (close_event e)) n
      = Some (tt, n') /\
    calls n' = emit_disconnected (Some (ce_code e)) (Some (ce_reason e))
                 :: onTransportClosed :: ws_close i :: calls n /\
    sockets n' = <[i := ws_set_handlers false (ws_set_readyState CLOSED s)]> (sockets n) /\
    next_socket n' = next_socket n /\
    reconnect_timers n' = reconnect_timers n /\
    next_reconnect_timer n' = next_reconnect_timer n /\
    reconnection_attempts (transport n') = reconnection_attempts (transport n) /\
    ws (transport n') = Some i /\
    connected (transport n') = false /\
    closed (transport n') = true.
Proof.
  intros Hws Hs Hh Hc. unfold deliver. t_open n. subst.
  destruct s as [u r b h]. simpl in Hh. subst h. simpl. rewrite Hs. simpl.
  destruct r; simpl; repeat (rewrite lookup_insert_eq; simpl);
    (eexists; split; [reflexivity|]); simpl; repeat split;
    by rewrite !insert_insert_eq.
Qed.

Lemma user_disconnect_is_final_witness :
  exists n n',
    example_net 3 0 = Some (tt, n) /\
    (Transport_disconnect ;;
     deliver example_parseMessage example_sanityCheck example_accepts 0
       (close_event example_close)) n = Some (tt, n') /\
    calls n' = [emit_disconnected (Some 1006%Z) (Some "gone"); onTransportClosed;
                ws_close 0; onTransportConnected; usedServers_push].
Proof.
  destruct (example_net 3 0) as [[[] n]|] eqn:E; [|exfalso; vm_compute in E; discriminate].
  assert (Hn : ws (transport n) = Some 0%nat /\
               sockets n !! 0%nat = Some (ws_set_readyState OPEN
                                            (connecting_socket "wss://example.com")) /\
               connected (transport n) = true /\
               calls n = [onTransportConnected; usedServers_push])
    by (vm_compute in E; injection E as <-; repeat split).
  destruct Hn as (Hws & Hs & Hc & Hcalls).
  destruct (user_disconnect_is_final example_parseMessage example_sanityCheck
              example_accepts n 0%nat _ example_close Hws Hs eq_refl Hc)
    as (n' & Hrun & Hcalls' & _).
  exists n, n'. repeat split; [done|]. by rewrite Hcalls', Hcalls.
Defined.

(** X22: When the socket of a connected transport closes and
    [disconnect()] had not been called, the UA is told that the transport
    is closed and one reconnection is attempted, counted as the first
    whatever the count was: with [ws_server_max_reconnection] below 1 the
    UA gets a transport error and nothing else happens; with a
    reconnection timeout of 0 a new socket is made at once; otherwise a
    timer of timeout * 1000 ms is set and kept in [reconnectTimer]. *)
Theorem abrupt_close_starts_reconnection (parseMessage : string -> option Message)
    (sanityCheck : Message -> T bool) (fromCharCode_accepts : list ascii -> bool)
    (n : Net) (i : nat) (s : WebSocket) (e : CloseEvent) :
  ws (transport n) = Some i ->
  sockets n !! i = Some s ->
  sockets n !! next_socket n = None ->
  ws_handlers s = true ->
  connected (transport n) = true ->
  closed (transport n) = false ->
  constructor_throws n = false ->
  exists n',
    deliver parseMessage sanityCheck fromCharCode_accepts i (close_event e) n
      = Some (tt, n') /\
    reconnection_attempts (transport n') = 1%Z /\
    connected (transport n') = false /\
    lastTransportError_code (transport n') = Some (ce_code e) /\
    lastTransportError_reason (transport n') = Some (ce_reason e) /\
    sockets n' !! i = Some (ws_set_handlers false (ws_set_readyState CLOSED s)) /\
    if decide (1 > ws_server_max_reconnection n)%Z then
      calls n' = onTransportError :: onTransportClosed :: calls n /\
      ws (transport n') = Some i /\
      next_socket n' = next_socket n /\
      reconnect_timers n' = reconnect_timers n
    else if decide (ws_server_reconnection_timeout n = 0)%Z then
      calls n' = usedServers_push :: ws_close i :: onTransportClosed :: calls n /\
      ws (transport n') = Some (next_socket n) /\
      sockets n' !! next_socket n = Some (connecting_socket (server_ws_uri n)) /\
      next_socket n' = S (next_socket n) /\
      reconnect_timers n' = reconnect_timers n
    else
      calls n' = onTransportClosed :: calls n /\
      ws (transport n') = Some i /\
      next_socket n' = next_socket n /\
      reconnect_timers n'
        = <[next_reconnect_timer n := (ws_server_reconnection_timeout n * 1000)%Z]>
            (reconnect_timers n) /\
      reconnectTimer (transport n') = Some (next_reconnect_timer n).
Proof.
  intros Hws Hs Hfresh Hh Hc Hcl Hthrows. unfold deliver. t_open n. subst.
  destruct s as [u r b h]. simpl in Hh. subst h.
  assert (Hne : i <> next0) by (intros ->; congruence).
  rewrite Hs. simpl. rewrite lookup_insert_eq. simpl.
  change (0 + 1)%Z with 1%Z.
  destruct (decide (1 > max0)%Z) as [Hmax|Hmax]; simpl.
  - t_lookups. eexists. split; [reflexivity|]. simpl.
    rewrite lookup_insert_eq. by repeat split.
  - destruct (decide (timeout0 = 0%Z)) as [Hto|Hto]; simpl.
    + t_lookups. eexists. split; [reflexivity|]. simpl.
      rewrite lookup_insert_eq. repeat split.
      rewrite lookup_insert_ne by done. by rewrite lookup_insert_eq.
    + t_lookups. eexists. split; [reflexivity|]. simpl.
      rewrite lookup_insert_eq. by repeat split.
Qed.

Lemma abrupt_close_starts_reconnection_witness :
  exists n n',
    example_net 3 0 = Some (tt, n) /\
    deliver example_parseMessage example_sanityCheck example_accepts 0
      (close_event example_close) n = Some (tt, n') /\
    ws (transport n') = Some 1%nat /\
    calls n' = [usedServers_push; ws_close 0; onTransportClosed;
                onTransportConnected; usedServers_push].
Proof.
  destruct (example_net 3 0) as [[[] n]|] eqn:E; [|exfalso; vm_compute in E; discriminate].
  assert (Hn : ws (transport n) = Some 0%nat /\
               sockets n !! 0%nat = Some (ws_set_readyState OPEN
                                            (connecting_socket "wss://example.com")) /\
               sockets n !! next_socket n = None /\
               connected (transport n) = true /\
               closed (transport n) = false /\
               constructor_throws n = false /\
               ws_server_max_reconnection n = 3%Z /\
               ws_server_reconnection_timeout n = 0%Z /\
               next_socket n = 1%nat /\
               calls n = [onTransportConnected; usedServers_push])
    by (vm_compute in E; injection E as <-; repeat split).
  destruct Hn as (Hws & Hs & Hfresh & Hc & Hcl & Hthrows & Hmax & Hto & Hnext & Hcalls).
  destruct (abrupt_close_starts_reconnection example_parseMessage example_sanityCheck
              example_accepts n 0%nat _ example_close Hws Hs Hfresh eq_refl Hc Hcl Hthrows)
    as (n' & Hrun & _ & _ & _ & _ & _ & Hcases).
  rewrite Hmax, Hto, Hnext, Hcalls in Hcases. simpl in Hcases.
  destruct Hcases as (Hcalls' & Hws' & _).
  exists n, n'. by repeat split.
Defined.

(** X23: When a socket with the transport's handlers closes while the
    transport is not connected, the first attempt or a later one that
    never opened, the UA gets a transport error and that is all: no
    [onTransportClosed], no [disconnected] even after [disconnect()], no
    socket, no timer, and [reconnection_attempts] and [closed] are as they
    were. *)
Theorem close_before_open_is_a_transport_error (parseMessage : string -> option Message)
    (sanityCheck : Message -> T bool) (fromCharCode_accepts : list ascii -> bool)
    (n : Net) (i : nat) (s : WebSocket) (e : CloseEvent) :
  sockets n !! i = Some s ->
  ws_handlers s = true ->
  connected (transport n) = false ->
  exists n',
    deliver parseMessage sanityCheck fromCharCode_accepts i (close_event e) n
      = Some (tt, n') /\
    calls n' = onTransportError :: calls n /\
    transport n' = tr_set_lastTransportError (ce_code e) (ce_reason e) (transport n) /\
    sockets n' = <[i := ws_set_handlers false (ws_set_readyState CLOSED s)]> (sockets n) /\
    next_socket n' = next_socket n /\
    reconnect_timers n' = reconnect_timers n /\
    next_reconnect_timer n' = next_reconnect_timer n.
Proof.
  intros Hs Hh Hc. unfold deliver. t_open n. subst.
  destruct s as [u r b h]. simpl in Hh. subst h.
  rewrite Hs. simpl. repeat (rewrite lookup_insert_eq; simpl).
  eexists. split; [reflexivity|]. simpl. repeat split.
  by rewrite insert_insert_eq.
Qed.

Lemma close_before_open_is_a_transport_error_witness :
  exists n n',
    Transport_new "wss://example.com" 3 0 false = Some (None, n) /\
    deliver example_parseMessage example_sanityCheck example_accepts 0
      (close_event example_close) n = Some (tt, n') /\
    calls n' = [onTransportError; usedServers_push].
Proof.
  destruct (Transport_new "wss://example.com" 3 0 false) as [[r n]|] eqn:E;
    [|exfalso; vm_compute in E; discriminate].
  assert (Hn : r = None /\
               sockets n !! 0%nat = Some (connecting_socket "wss://example.com") /\
               connected (transport n) = false /\
               calls n = [usedServers_push])
    by (vm_compute in E; injection E as <- <-; repeat split).
  destruct Hn as (-> & Hs & Hc & Hcalls).
  destruct (close_before_open_is_a_transport_error example_parseMessage
              example_sanityCheck example_accepts n 0%nat _ example_close Hs eq_refl Hc)
    as (n' & Hrun & Hcalls' & _).
  exists n, n'. repeat split; [done|]. by rewrite Hcalls', Hcalls.
Defined.

(** X24: The handler of the close event does not ask which socket has
    closed.  When the transport is connected through one socket and the
    close event of another socket arrives, one that the transport has
    replaced while it was closing, the transport is marked as not
    connected and the UA is told that it is closed, although the socket of
    the transport is still OPEN and [send] still delivers. *)
Theorem close_of_a_replaced_socket_disconnects (parseMessage : string -> option Message)
    (sanityCheck : Message -> T bool) (fromCharCode_accepts : list ascii -> bool)
    (n : Net) (i j : nat) (s t : WebSocket) (e : CloseEvent) (message : string) :
  i <> j ->
  ws (transport n) = Some j ->
  sockets n !! j = Some t ->
  readyState t = OPEN ->
  connected (transport n) = true ->
  sockets n !! i = Some s ->
  ws_handlers s = true ->
  exists n' n'',
    deliver parseMessage sanityCheck fromCharCode_accepts i (close_event e) n
      = Some (tt, n') /\
    connected (transport n') = false /\
    count_out is_onTransportClosed (calls n')
      = S (count_out is_onTransportClosed (calls n)) /\
    ws (transport n') = Some j /\
    sockets n' !! j = Some t /\
    next_socket n' = next_socket n /\
    Transport_send message n' = Some (true, n'').
Proof.
  intros Hij Hws Ht Hopen Hc Hs Hh. unfold deliver.
  setoid_rewrite Transport_send_run.
  t_open n. subst.
  destruct s as [u r b h]. simpl in Hh. subst h.
  rewrite Hs. simpl. rewrite lookup_insert_eq. simpl.
  destruct closed0; simpl.
  - repeat (rewrite lookup_insert_eq; simpl).
    eexists _, _. split; [reflexivity|]. simpl.
    rewrite !lookup_insert_ne, Ht, decide_True by done. by repeat split.
  - change (0 + 1)%Z with 1%Z.
    destruct (decide (1 > max0)%Z) as [Hmax|Hmax]; simpl.
    + repeat (rewrite lookup_insert_eq; simpl).
      eexists _, _. split; [reflexivity|]. simpl.
      rewrite !lookup_insert_ne, Ht, decide_True by done. by repeat split.
    + destruct (decide (timeout0 = 0%Z)) as [Hto|Hto]; simpl.
      * rewrite lookup_insert_ne, Ht by done. simpl.
        rewrite bool_decide_eq_true_2 by auto. simpl.
        repeat (rewrite lookup_insert_eq; simpl).
        eexists _, _. split; [reflexivity|]. simpl.
        rewrite !lookup_insert_ne, Ht, decide_True by done. by repeat split.
      * repeat (rewrite lookup_insert_eq; simpl).
        eexists _, _. split; [reflexivity|]. simpl.
        rewrite !lookup_insert_ne, Ht, decide_True by done. by repeat split.
Qed.

Lemma close_of_a_replaced_socket_disconnects_witness :
  exists n n' n'',
    example_replaced_net = Some (tt, n) /\
    deliver example_parseMessage example_sanityCheck example_accepts 0
      (close_event example_close) n = Some (tt, n') /\
    connected (transport n') = false /\
    Transport_send "OPTIONS" n' = Some (true, n'').
Proof.
  destruct example_replaced_net as [[[] n]|] eqn:E;
    [|exfalso; vm_compute in E; discriminate].
  assert (Hn : ws (transport n) = Some 1%nat /\
               sockets n !! 1%nat = Some (ws_set_readyState OPEN
                                            (connecting_socket "wss://example.com")) /\
               connected (transport n) = true /\
               sockets n !! 0%nat = Some (ws_set_readyState CLOSING
                                            (connecting_socket "wss://example.com")))
    by (vm_compute in E; injection E as <-; repeat split).
  destruct Hn as (Hws & Ht & Hc & Hs).
  destruct (close_of_a_replaced_socket_disconnects example_parseMessage
              example_sanityCheck example_accepts n 0%nat 1%nat _ _ example_close
              "OPTIONS" ltac:(discriminate) Hws Ht eq_refl Hc Hs eq_refl)
    as (n' & n'' & Hrun & Hc' & _ & _ & _ & _ & Hsend).
  exists n, n', n''. by repeat split.
Defined.

(** ** reConnect *)

Lemma Transport_reConnect_timer (n : Net) :
  ws_server_reconnection_timeout n <> 0%Z ->
  Transport_reConnect n =
    Some (tt,
          if decide (reconnection_attempts (transport n) + 1
                       > ws_server_max_reconnection n)%Z
          then
            net_with_calls (onTransportError :: calls n)
              (net_with_transport
                 (tr_set_reconnection_attempts
                    (reconnection_attempts (transport n) + 1) (transport n)) n)
          else
            net_with_transport
              (tr_set_reconnectTimer (Some (next_reconnect_timer n))
                 (tr_set_reconnection_attempts
                    (reconnection_attempts (transport n) + 1) (transport n)))
              (net_with_timers
                 (<[next_reconnect_timer n
                      := (ws_server_reconnection_timeout n * 1000)%Z]>
                    (reconnect_timers n))
                 (S (next_reconnect_timer n)) n)).
Proof.
  intros Hto. t_open n.
  destruct (decide (attempts0 + 1 > max0)%Z); simpl; [reflexivity|].
  rewrite decide_False by done. reflexivity.
Qed.

(** X25: With a reconnection timeout other than 0, [k] calls of
    [reConnect()] in a row count [reconnection_attempts] up by [k]; each
    call that finds the count within [ws_server_max_reconnection] sets one
    more timer, without cancelling the earlier ones, and every other call
    gives the UA a transport error.  No call touches a socket. *)
Theorem reConnect_gives_up_after_max (k : nat) (n : Net) :
  ws_server_reconnection_timeout n <> 0%Z ->
  exists n',
    reConnect_times k n = Some (tt, n') /\
    let a := reconnection_attempts (transport n) in
    let within := Z.max 0 (Z.min (Z.of_nat k) (ws_server_max_reconnection n - a)) in
    reconnection_attempts (transport n') = (a + Z.of_nat k)%Z /\
    Z.of_nat (next_reconnect_timer n') = (Z.of_nat (next_reconnect_timer n) + within)%Z /\
    Z.of_nat (count_out is_onTransportError (calls n'))
      = (Z.of_nat (count_out is_onTransportError (calls n)) + Z.of_nat k - within)%Z /\
    (forall h : nat,
       (next_reconnect_timer n <= h < next_reconnect_timer n')%nat ->
       reconnect_timers n' !! h = Some (ws_server_reconnection_timeout n * 1000)%Z) /\
    (forall h : nat,
       (h < next_reconnect_timer n)%nat ->
       reconnect_timers n' !! h = reconnect_timers n !! h) /\
    sockets n' = sockets n /\
    ws (transport n') = ws (transport n) /\
    ws_server_max_reconnection n' = ws_server_max_reconnection n /\
    ws_server_reconnection_timeout n' = ws_server_reconnection_timeout n.
Proof.
  revert n. induction k as [|k IH]; intros n Hto.
  - exists n. split; [reflexivity|]. simpl. repeat split; try lia; try done.
  - change (reConnect_times (S k)) with (Transport_reConnect ;; reConnect_times k).
    unfold mbind, T_MBind, T_bind. rewrite Transport_reConnect_timer by done.
    set (n1 := if decide _ then _ else _).
    assert (Hn1 : ws_server_reconnection_timeout n1 = ws_server_reconnection_timeout n /\
                  ws_server_max_reconnection n1 = ws_server_max_reconnection n /\
                  sockets n1 = sockets n /\ ws (transport n1) = ws (transport n) /\
                  reconnection_attempts (transport n1)
                    = (reconnection_attempts (transport n) + 1)%Z)
      by (subst n1; destruct (decide _); by repeat split).
    destruct Hn1 as (Hto1 & Hmax1 & Hsock1 & Hws1 & Hatt1).
    destruct (IH n1) as (n' & Hrun & Hatt & Hnext & Hcount & Hnew & Hold & Hsock & Hws
                         & Hmax & Hto'); [congruence|].
    exists n'. split; [exact Hrun|]. cbv zeta in *.
    rewrite Hatt1, Hmax1, Hto1 in *.
    assert (Hstep :
      (reconnection_attempts (transport n) + 1 > ws_server_max_reconnection n)%Z /\
        next_reconnect_timer n1 = next_reconnect_timer n /\
        reconnect_timers n1 = reconnect_timers n /\
        count_out is_onTransportError (calls n1)
          = S (count_out is_onTransportError (calls n))
      \/
      ~ (reconnection_attempts (transport n) + 1 > ws_server_max_reconnection n)%Z /\
        next_reconnect_timer n1 = S (next_reconnect_timer n) /\
        reconnect_timers n1
          = <[next_reconnect_timer n := (ws_server_reconnection_timeout n * 1000)%Z]>
              (reconnect_timers n) /\
        count_out is_onTransportError (calls n1)
          = count_out is_onTransportError (calls n)).
    { subst n1. destruct (decide _) as [Hd|Hd]; [left|right]; by repeat split. }
    destruct Hstep as [(Hd & Hnx & Htm & Hct)|(Hd & Hnx & Htm & Hct)];
      rewrite Hnx, Htm, Hct in *.
    + repeat split; try lia; try congruence; assumption.
    + repeat split; try lia; try congruence.
      * intros h Hh. destruct (decide (h = next_reconnect_timer n)) as [->|Hne].
        -- rewrite Hold by lia. apply lookup_insert_eq.
        -- apply Hnew. lia.
      * intros h Hh. rewrite Hold by lia. apply lookup_insert_ne. lia.
Qed.

Lemma reConnect_gives_up_after_max_witness :
  exists n n',
    example_net 3 4 = Some (tt, n) /\
    reConnect_times 5 n = Some (tt, n') /\
    reconnection_attempts (transport n') = 5%Z /\
    next_reconnect_timer n' = 3%nat /\
    count_out is_onTransportError (calls n') = 2%nat.
Proof.
  destruct (example_net 3 4) as [[[] n]|] eqn:E; [|exfalso; vm_compute in E; discriminate].
  assert (Hn : ws_server_reconnection_timeout n = 4%Z /\
               ws_server_max_reconnection n = 3%Z /\
               reconnection_attempts (transport n) = 0%Z /\
               next_reconnect_timer n = 0%nat /\
               count_out is_onTransportError (calls n) = 0%nat)
    by (vm_compute in E; injection E as <-; repeat split).
  destruct Hn as (Hto & Hmax & Hatt & Hnext & Hcount).
  destruct (reConnect_gives_up_after_max 5 n) as (n' & Hrun & H); [by rewrite Hto|].
  cbv zeta in H. rewrite Hmax, Hatt, Hnext, Hcount in H.
  destruct H as (Hatt' & Hnext' & Hcount' & _).
  exists n, n'. repeat split; [done|lia..].
Defined.

(** ** onMessage *)

(** X26: [onMessage] drops a message without running the sanity check,
    so that nothing at all happens and nothing is answered, when the data
    is the keep-alive CRLF, when binary data cannot be turned into a
    string, when the parser gives no message, and when the message is a
    request while the UA is closed by the user. *)
Theorem onMessage_drops_unchecked (parseMessage : string -> option Message)
    (sanityCheck : Message -> T bool) (fromCharCode_accepts : list ascii -> bool)
    (data : message_data) (n : Net) :
  data = text_data (String "013" (String "010" EmptyString))
  \/ message_text fromCharCode_accepts data = None
  \/ (exists s : string,
        message_text fromCharCode_accepts data = Some s /\
        (parseMessage s = None
         \/ user_closed n = true /\ is_IncomingRequest (parseMessage s) = true)) ->
  Transport_onMessage parseMessage sanityCheck fromCharCode_accepts data n = Some (tt, n).
Proof.
  intros H. unfold Transport_onMessage.
  destruct (decide (data = _)) as [|Hd]; [reflexivity|].
  destruct H as [H|[H|(s & Hs & H)]]; [done| |].
  - rewrite H. reflexivity.
  - rewrite Hs. unfold mbind, T_MBind, T_bind, the_net. simpl.
    destruct H as [H|[Hu Hr]].
    + rewrite H. simpl. rewrite andb_false_r. reflexivity.
    + rewrite Hu, Hr. reflexivity.
Qed.

Lemma onMessage_drops_unchecked_witness :
  Transport_onMessage example_parseMessage (fun _ => T_TypeError) example_accepts
    (binary_data [ascii_of_nat 13; ascii_of_nat 10])
    {| transport := {| ws := None; reconnection_attempts := 0; closed := false;
                       connected := false; reconnectTimer := None;
                       lastTransportError_code := None;
                       lastTransportError_reason := None |};
       sockets := ∅; next_socket := 0; constructor_throws := false;
       reconnect_timers := ∅; next_reconnect_timer := 0;
       server_ws_uri := "wss://example.com";
       ws_server_max_reconnection := 3; ws_server_reconnection_timeout := 4;
       user_closed := true; transactions_ict := ∅; transactions_nict := ∅;
       calls := [] |}
  = Some (tt,
    {| transport := {| ws := None; reconnection_attempts := 0; closed := false;
                       connected := false; reconnectTimer := None;
                       lastTransportError_code := None;
                       lastTransportError_reason := None |};
       sockets := ∅; next_socket := 0; constructor_throws := false;
       reconnect_timers := ∅; next_reconnect_timer := 0;
       server_ws_uri := "wss://example.com";
       ws_server_max_reconnection := 3; ws_server_reconnection_timeout := 4;
       user_closed := true; transactions_ict := ∅; transactions_nict := ∅;
       calls := [] |}).
Proof.
  apply onMessage_drops_unchecked. right. right.
  eexists. split; [reflexivity|]. right. split; reflexivity.
Defined.





(** ** A constructed transport does not throw *)

Lemma keeps_transport_refl (n : Net) : constructed n -> keeps_transport n n.
Proof. by split. Qed.

Lemma keeps_transport_trans (n1 n2 n3 : Net) :
  keeps_transport n1 n2 -> keeps_transport n2 n3 -> keeps_transport n1 n3.
Proof. intros [_ H12] [H3 H23]. split; [done|]. auto. Qed.

(** Solves [keeps_transport] between nets that are written out. *)
Ltac t_keeps :=
  split; [eexists; split; [reflexivity|]|intros ? ?]; simpl in *;
  rewrite ?lookup_insert_is_Some'; eauto 10.

Lemma Transport_send_keeps (message : string) (n : Net) :
  constructed n ->
  exists b n', Transport_send message n = Some (b, n') /\ keeps_transport n n'.
Proof.
  intros Hc. rewrite Transport_send_run.
  pose proof Hc as (i & Hws & [s Hs]). rewrite Hws, Hs.
  destruct (decide (readyState s = OPEN)); eexists _, _; (split; [reflexivity|]).
  - destruct Hc as (j & Hj & Hsj). split; [by exists j|done].
  - by apply keeps_transport_refl.
Qed.

Lemma Transport_disconnect_keeps (n : Net) :
  constructed n ->
  exists n', Transport_disconnect n = Some (tt, n') /\ keeps_transport n n'.
Proof.
  intros (i & Hws & [s Hs]). t_open n. subst. simpl. rewrite Hs. simpl.
  eexists. split; [reflexivity|]. t_keeps.
Qed.

Lemma Transport_connect_keeps (n : Net) :
  constructed n ->
  exists r n', Transport_connect n = Some (r, n') /\ keeps_transport n n'.
Proof.
  intros Hc. pose proof Hc as (i & Hws & [s Hs]).
  destruct (ready_state_cases (readyState s)) as [Hst|Hst].
  - rewrite (Transport_connect_busy n i s) by done.
    eexists _, _. split; [reflexivity|]. by apply keeps_transport_refl.
  - destruct (constructor_throws n) eqn:Hthrows.
    + rewrite (Transport_connect_refused n i s) by done.
      eexists _, _. split; [reflexivity|]. split.
      * exists i. split; [done|]. simpl. rewrite lookup_insert_is_Some'. auto.
      * intros k Hk. simpl. rewrite lookup_insert_is_Some'. auto.
    + rewrite (Transport_connect_again n i s) by done.
      eexists _, _. split; [reflexivity|]. split.
      * exists (next_socket n). split; [done|]. simpl.
        rewrite lookup_insert_is_Some'. auto.
      * intros k Hk. simpl. rewrite !lookup_insert_is_Some'. auto.
Qed.

Lemma Transport_reConnect_keeps (n : Net) :
  constructed n ->
  exists n', Transport_reConnect n = Some (tt, n') /\ keeps_transport n n'.
Proof.
  intros Hc.
  destruct (decide (ws_server_reconnection_timeout n = 0%Z)) as [Hto|Hto].
  - destruct (decide (reconnection_attempts (transport n) + 1
                        > ws_server_max_reconnection n)%Z) as [Hmax|Hmax].
    + destruct Hc as (i & Hws & Hs). t_open n. subst.
      rewrite decide_True by done.
      eexists. split; [reflexivity|]. t_keeps.
    + set (n1 := net_with_transport
                   (tr_set_reconnection_attempts
                      (reconnection_attempts (transport n) + 1) (transport n)) n).
      assert (Hc1 : constructed n1) by (destruct Hc as (i & Hws & Hs); by exists i).
      destruct (Transport_connect_keeps n1 Hc1) as (r & n' & Hrun & Hk).
      exists n'. split.
      * unfold Transport_reConnect, mbind, T_MBind, T_bind, this_transport,
          set_transport, the_net. fold n1. simpl.
        rewrite decide_False by done. rewrite decide_True by done.
        by rewrite Hrun.
      * destruct Hk as [Hc' Hk]. split; [done|]. intros k Hsk. by apply Hk.
  - rewrite Transport_reConnect_timer by done.
    eexists. split; [reflexivity|].
    destruct Hc as (i & Hws & Hs).
    destruct (decide _); (split; [by exists i|done]).
Qed.

Lemma Transport_onOpen_keeps (n : Net) :
  constructed n ->
  exists n', Transport_onOpen n = Some (tt, n') /\ keeps_transport n n'.
Proof.
  intros (i & Hws & Hs). t_open n. subst.
  eexists. split; [reflexivity|]. t_keeps.
Qed.

Lemma Transport_onClose_keeps (e : CloseEvent) (n : Net) :
  constructed n ->
  exists n', Transport_onClose e n = Some (tt, n') /\ keeps_transport n n'.
Proof.
  intros Hc. unfold Transport_onClose, mbind, T_MBind, T_bind, this_transport,
    set_transport, call_out. simpl.
  destruct (connected (transport n)) eqn:Hcon; simpl.
  - destruct (closed (transport n)) eqn:Hcl; simpl.
    + eexists. split; [reflexivity|].
      destruct Hc as (i & Hws & Hs). split; [by exists i|done].
    + match goal with
      | |- exists n', Transport_reConnect ?m = _ /\ _ =>
          destruct (Transport_reConnect_keeps m) as (n' & Hrun & [Hc' Hk])
      end.
      { destruct Hc as (i & Hws & Hs). by exists i. }
      exists n'. split; [done|]. split; [done|]. intros k Hsk. by apply Hk.
  - eexists. split; [reflexivity|].
    destruct Hc as (i & Hws & Hs). split; [by exists i|done].
Qed.

Lemma set_socket_keeps (i : nat) (f : WebSocket -> WebSocket) (n : Net) :
  constructed n ->
  is_Some (sockets n !! i) ->
  exists n', set_socket i f n = Some (tt, n') /\ keeps_transport n n' /\
             exists s, sockets n' !! i = Some s.
Proof.
  intros (j & Hws & Hj) [s Hs]. unfold set_socket. rewrite Hs.
  eexists. split; [reflexivity|]. split.
  - split; [exists j; split; [done|]|intros k Hk]; simpl;
      rewrite lookup_insert_is_Some'; auto.
  - simpl. rewrite lookup_insert_eq. eauto.
Qed.

Lemma table_get_inherited_name (table : gset string) (key : string) :
  table_get table key = inherited -> key ∈ Object_prototype.
Proof. unfold table_get. by repeat case_decide. Qed.

Lemma Transport_onMessage_keeps (parseMessage : string -> option Message)
    (sanityCheck : Message -> T bool) (fromCharCode_accepts : list ascii -> bool)
    (i : nat) (data : message_data) (n : Net) :
  (forall (m : Message) (n : Net),
     constructed n ->
     exists b n', sanityCheck m n = Some (b, n') /\ keeps_transport n n') ->
  constructed n ->
  (exists n',
     Transport_onMessage parseMessage sanityCheck fromCharCode_accepts data n
       = Some (tt, n') /\
     keeps_transport n n')
  \/ (Transport_onMessage parseMessage sanityCheck fromCharCode_accepts data n = None
      /\ names_an_inherited_property parseMessage fromCharCode_accepts
           (socket_delivers i (message_event data))).
Proof.
  intros Hcheck Hc. unfold Transport_onMessage.
  destruct (decide _); [by left; exists n; split; [|apply keeps_transport_refl]|].
  destruct (message_text _ _) as [s|] eqn:Hs;
    [|by left; exists n; split; [|apply keeps_transport_refl]].
  unfold mbind, T_MBind, T_bind, the_net. simpl.
  destruct (user_closed n && _);
    [by left; exists n; split; [|apply keeps_transport_refl]|].
  destruct (parseMessage s) as [m|] eqn:Hp;
    [|by left; exists n; split; [|apply keeps_transport_refl]].
  destruct (Hcheck m n Hc) as (b & n1 & -> & Hk1).
  destruct b; [|by left; exists n1].
  assert (Hcall : forall c : transport_call,
            keeps_transport n (net_with_calls (c :: calls n1) n1)).
  { intros c. destruct Hk1 as [(j & Hws & Hsj) Hk]. split; [by exists j|done]. }
  unfold Transport_route, deliver_response, mbind, T_MBind, T_bind, the_net, call_out.
  destruct m as [text|method via_branch text|]; simpl.
  - left. eexists. split; [reflexivity|]. apply Hcall.
  - assert (Hin : forall table, table_get table via_branch = inherited ->
                    method <> "ACK" ->
                    names_an_inherited_property parseMessage fromCharCode_accepts
                      (socket_delivers i (message_event data))).
    { intros table Ht Hm. exists i, data, s, method, via_branch, text.
      repeat split; try done. by eapply table_get_inherited_name. }
    destruct (decide (method = "INVITE")) as [Hi|Hi].
    + destruct (table_get (transactions_ict n1) via_branch) eqn:Ht.
      * left. eexists. split; [reflexivity|]. apply Hcall.
      * right. split; [reflexivity|]. apply (Hin _ Ht). by rewrite Hi.
      * left. by exists n1.
    + destruct (decide (method = "ACK")) as [Ha|Ha]; [left; by exists n1|].
      destruct (table_get (transactions_nict n1) via_branch) eqn:Ht.
      * left. eexists. split; [reflexivity|]. apply Hcall.
      * right. split; [reflexivity|]. by apply (Hin _ Ht).
      * left. by exists n1.
  - left. by exists n1.
Qed.

(** X28: Once the constructor of Transport has returned, one thing only can
    make the transport throw: a message event with a response, not to an
    ACK, whose branch is the name of a property that every object inherits,
    so that the lookup in the table of transactions finds something that
    is no transaction.  In every state in which the transport holds a
    socket, every call of [send], [disconnect], [connect] and [reConnect],
    every other event of a socket and every reconnect timer is handled
    without a TypeError, whether or not the constructor of WebSocket
    throws, and leaves the transport holding a socket; this needs of the
    sanity check only that it does the same. *)
Theorem constructed_transport_throws_only_in_route
    (parseMessage : string -> option Message)
    (sanityCheck : Message -> T bool) (fromCharCode_accepts : list ascii -> bool)
    (inp : transport_input) (n : Net) :
  (forall (m : Message) (n : Net),
     constructed n ->
     exists b n', sanityCheck m n = Some (b, n') /\ keeps_transport n n') ->
  constructed n ->
  from_a_socket inp n ->
  (exists n',
     transport_handle parseMessage sanityCheck fromCharCode_accepts inp n = Some (tt, n') /\
     keeps_transport n n')
  \/ (transport_handle parseMessage sanityCheck fromCharCode_accepts inp n = None
      /\ names_an_inherited_property parseMessage fromCharCode_accepts inp).
Proof.
  intros Hcheck Hc Hfrom. destruct inp as [message| | | |i ev|h]; simpl in *.
  - left. destruct (Transport_send_keeps message n Hc) as (b & n' & Hrun & Hk).
    exists n'. unfold mbind, T_MBind, T_bind. by rewrite Hrun.
  - left. by apply Transport_disconnect_keeps.
  - left. destruct (Transport_connect_keeps n Hc) as (r & n' & Hrun & Hk).
    exists n'. unfold mbind, T_MBind, T_bind. by rewrite Hrun.
  - left. by apply Transport_reConnect_keeps.
  - unfold deliver, mbind, T_MBind, T_bind.
    destruct ev as [|e|data|].
    + left. destruct (set_socket_keeps i (ws_set_readyState OPEN) n Hc Hfrom)
        as (n1 & -> & Hk1 & s & Hs).
      unfold get_socket. rewrite Hs. destruct (ws_handlers s); [|by exists n1].
      destruct (Transport_onOpen_keeps n1 (proj1 Hk1)) as (n' & Hrun & Hk).
      exists n'. split; [done|]. by eapply keeps_transport_trans.
    + left. destruct (set_socket_keeps i (ws_set_readyState CLOSED) n Hc Hfrom)
        as (n1 & -> & Hk1 & s & Hs).
      unfold get_socket. rewrite Hs. destruct (ws_handlers s); [|by exists n1].
      destruct (Transport_onClose_keeps e n1 (proj1 Hk1)) as (n2 & -> & Hk2).
      destruct (set_socket_keeps i (ws_set_handlers false) n2 (proj1 Hk2))
        as (n' & Hrun & Hk & _); [apply Hk2; by rewrite Hs|].
      exists n'. split; [done|].
      eapply keeps_transport_trans; [|done]. by eapply keeps_transport_trans.
    + unfold get_socket. destruct Hfrom as [s Hs]. rewrite Hs.
      destruct (ws_handlers s);
        [|by left; exists n; split; [|apply keeps_transport_refl]].
      by apply Transport_onMessage_keeps.
    + left. unfold get_socket. destruct Hfrom as [s Hs]. rewrite Hs.
      by destruct (ws_handlers s); exists n; (split; [|apply keeps_transport_refl]).
  - left. unfold reconnect_timer_fires. destruct (reconnect_timers n !! h) as [d|].
    + match goal with
      | |- exists n', (_ ;; _) ?m = _ /\ _ =>
          destruct (Transport_connect_keeps m) as (r & n' & Hrun & [Hc' Hk])
      end.
      { destruct Hc as (i & Hws & Hs). by exists i. }
      exists n'. unfold mbind, T_MBind, T_bind. rewrite Hrun.
      split; [done|]. split; [done|]. intros k Hsk. by apply Hk.
    + by exists n; split; [|apply keeps_transport_refl].
Qed.

Lemma constructed_transport_throws_only_in_route_witness :
  exists n n',
    example_replaced_net = Some (tt, n) /\
    transport_handle example_parseMessage example_sanityCheck example_accepts
      (socket_delivers 0 (close_event example_close)) n = Some (tt, n') /\
    constructed n'.
Proof.
  destruct example_replaced_net as [[[] n]|] eqn:E;
    [|exfalso; vm_compute in E; discriminate].
  assert (Hn : constructed n /\ is_Some (sockets n !! 0%nat)).
  { vm_compute in E. injection E as <-. split.
    - exists 1%nat. split; [reflexivity|]. eexists. reflexivity.
    - eexists. reflexivity. }
  destruct Hn as [Hc Hs].
  destruct (constructed_transport_throws_only_in_route example_parseMessage
              example_sanityCheck example_accepts
              (socket_delivers 0 (close_event example_close)) n)
    as [(n' & Hrun & [Hc' _])|[_ (i & data & s & m & b & t & Hinp & _)]];
    [intros m n0 Hc0; exists true, n0; split;
       [reflexivity|by apply keeps_transport_refl]
    |exact Hc|exact Hs| |discriminate Hinp].
  exists n, n'. split; [reflexivity|]. split; [exact Hrun|exact Hc'].
Defined.

(** * DTMF *)

(** ** The tone of [send] *)

Lemma is_tone_toUpperCase_char (ch : ascii) :
  is_tone (toUpperCase_char ch) = true <-> In ch tone_characters.
Proof.
  destruct ch as [[] [] [] [] [] [] [] []]; vm_compute; split; intros H;
    first [discriminate | reflexivity | tauto
          | repeat (destruct H as [H|H]; [discriminate|]); destruct H].
Qed.

Lemma match_tone_toUpperCase (s : string) :
  match_tone (toUpperCase s) = true <->
  exists ch, s = String ch EmptyString /\ In ch tone_characters.
Proof.
  split.
  - destruct s as [|ch [|? ?]]; simpl; try discriminate.
    intros H. exists ch. split; [done|]. by apply is_tone_toUpperCase_char.
  - intros (ch & -> & H). simpl. by apply is_tone_toUpperCase_char.
Qed.

Lemma match_tone_ToString (n : Z) :
  match_tone (ToString n) = true <-> (0 <= n <= 9)%Z.
Proof.
  split.
  - intros H. unfold ToString in H.
    rewrite <- (DecimalZ.of_to n).
    destruct (Z.to_int n) as [d|d]; simpl in H.
    + destruct d as [|d|d|d|d|d|d|d|d|d|d]; simpl in H; try discriminate;
        try (destruct d; simpl in H; try discriminate);
        vm_compute; split; discriminate.
    + destruct d as [|d|d|d|d|d|d|d|d|d|d]; simpl in H; discriminate.
  - intros H.
    assert (Hn : In n [0; 1; 2; 3; 4; 5; 6; 7; 8; 9]%Z) by (simpl; lia).
    simpl in Hn.
    repeat (destruct Hn as [<-|Hn]; [reflexivity|]). destruct Hn.
Qed.

Ltac d_unfold :=
  unfold DTMF_send, DTMF_init_incoming, DTMF_enableDtmfSender, throw, this_dtmf,
    set_dtmf, the_session, dtmf_call_out, mbind, mret, D_MBind, D_MRet, D_bind, D_ret
    in *.

(** X29: [send] checks before it acts, in this order.  Without a tone it
    throws and has changed nothing.  In a session that is neither confirmed
    nor waiting for the ACK it throws InvalidStateError, having set
    [direction] and nothing else.  Then the tone must be a string of one
    of the characters 0123456789ABCDabcd#* or one of the numbers 0 to 9:
    for any other argument [send] throws, [tone] is what it was, no
    handler is registered and nothing is inserted.  For such a tone, and
    with no event handlers to register, [tone] becomes the character in
    upper case, or the digit of the number; with a DTMF sender the tone is
    inserted with the duration and the gap of the options and [newDTMF] is
    emitted, and without one [send] throws on reading [null] and emits
    nothing. *)
Theorem send_checks_before_it_acts (STATUS_CONFIRMED STATUS_WAITING_FOR_ACK : Z)
    (on : string -> nat -> D unit) (tone : tone_argument)
    (options : option send_options) (c : Session) :
  let outgoing := session_with_dtmf (dtmf_set_direction "outgoing" (dtmf c)) c in
  let sent (t : string) :=
    if dtmf_dtmfSender (dtmf c) then
      (returned tt,
       session_with_calls
         (session_emit_newDTMF "local"
            :: insertDTMF (Some t) (options_duration (default no_options options))
                 (options_interToneGap (default no_options options))
            :: dtmf_calls c)
         (session_with_dtmf (dtmf_set_tone t (dtmf outgoing)) c))
    else
      (thrown TypeError_of_null,
       session_with_dtmf (dtmf_set_tone t (dtmf outgoing)) c) in
  (tone = tone_undefined ->
   DTMF_send STATUS_CONFIRMED STATUS_WAITING_FOR_ACK on tone options c
     = (thrown TypeError_Not_enough_arguments, c)) /\
  (tone <> tone_undefined ->
   session_status c <> STATUS_CONFIRMED ->
   session_status c <> STATUS_WAITING_FOR_ACK ->
   DTMF_send STATUS_CONFIRMED STATUS_WAITING_FOR_ACK on tone options c
     = (thrown (InvalidStateError (session_status c)), outgoing)) /\
  (tone <> tone_undefined ->
   session_status c = STATUS_CONFIRMED \/ session_status c = STATUS_WAITING_FOR_ACK ->
   (forall ch, tone = tone_string (String ch EmptyString) -> ~ In ch tone_characters) ->
   (forall n, tone = tone_number n -> ~ (0 <= n <= 9)%Z) ->
   DTMF_send STATUS_CONFIRMED STATUS_WAITING_FOR_ACK on tone options c
     = (thrown TypeError_Invalid_tone, outgoing)) /\
  (session_status c = STATUS_CONFIRMED \/ session_status c = STATUS_WAITING_FOR_ACK ->
   eventHandlers (default no_options options) = [] ->
   (forall ch,
      tone = tone_string (String ch EmptyString) -> In ch tone_characters ->
      DTMF_send STATUS_CONFIRMED STATUS_WAITING_FOR_ACK on tone options c
        = sent (String (toUpperCase_char ch) EmptyString)) /\
   (forall n,
      tone = tone_number n -> (0 <= n <= 9)%Z ->
      DTMF_send STATUS_CONFIRMED STATUS_WAITING_FOR_ACK on tone options c
        = sent (ToString n))).
Proof.
  intros outgoing sent.
  assert (Hok : session_status c = STATUS_CONFIRMED
                \/ session_status c = STATUS_WAITING_FOR_ACK ->
                negb (session_status outgoing =? STATUS_CONFIRMED)%Z
                && negb (session_status outgoing =? STATUS_WAITING_FOR_ACK)%Z = false).
  { simpl. intros [->| ->]; rewrite Z.eqb_refl; simpl; [done|apply andb_false_r]. }
  split; [by intros ->|]. split; [|split].
  - intros Ht Hc Hw.
    assert (Hbad : negb (session_status outgoing =? STATUS_CONFIRMED)%Z
                   && negb (session_status outgoing =? STATUS_WAITING_FOR_ACK)%Z = true).
    { simpl. apply andb_true_intro. split; apply negb_true_iff, Z.eqb_neq; done. }
    destruct tone; try done; d_unfold; cbv beta iota; fold outgoing; by rewrite Hbad.
  - intros Ht Hst Hch Hn. specialize (Hok Hst).
    destruct tone as [|s|n| |]; try done; d_unfold; cbv beta iota; fold outgoing;
      rewrite Hok; cbv beta iota; try reflexivity.
    + destruct (match_tone (toUpperCase s)) eqn:Hm; [|reflexivity].
      apply match_tone_toUpperCase in Hm as (ch & -> & Hin).
      by destruct (Hch ch).
    + destruct (match_tone (ToString n)) eqn:Hm; [|reflexivity].
      apply match_tone_ToString in Hm. by destruct (Hn n).
  - intros Hst Hhandlers. specialize (Hok Hst). split.
    + intros ch -> Hin.
      assert (Hm : match_tone (toUpperCase (String ch EmptyString)) = true)
        by (apply match_tone_toUpperCase; eauto).
      d_unfold. cbv beta iota. fold outgoing. rewrite Hok. cbv beta iota.
      rewrite Hm, Hhandlers. subst sent. simpl.
      by destruct (dtmf_dtmfSender (dtmf c)).
    + intros n -> Hn.
      assert (Hm : match_tone (ToString n) = true) by (by apply match_tone_ToString).
      d_unfold. cbv beta iota. fold outgoing. rewrite Hok. cbv beta iota.
      rewrite Hm, Hhandlers. subst sent. simpl.
      by destruct (dtmf_dtmfSender (dtmf c)).
Qed.

Lemma send_checks_before_it_acts_witness :
  exists c c',
    DTMF_new example_STATUS_CONFIRMED true true = (returned tt, c) /\
    DTMF_send example_STATUS_CONFIRMED example_STATUS_WAITING_FOR_ACK example_on
      (tone_string "d") None c = (returned tt, c') /\
    dtmf_tone (dtmf c') = Some "D" /\
    dtmf_calls c' = [session_emit_newDTMF "local"; insertDTMF (Some "D") None None;
                     createDTMFSender].
Proof.
  eexists _, _. split; [reflexivity|].
  match goal with
  | |- DTMF_send ?a ?b ?o ?t ?opts ?c = _ /\ _ =>
      pose proof (proj1 (proj2 (proj2 (proj2
                    (send_checks_before_it_acts a b o t opts c)))
                    (or_introl eq_refl) eq_refl)
                    "d"%char eq_refl) as H
  end.
  rewrite H; [|vm_compute; tauto]. split; [reflexivity|]. split; reflexivity.
Defined.

(** ** The body of an incoming INFO *)

Lemma is_blank_is_space (c : ascii) : is_blank c = true -> is_space c = true.
Proof.
  unfold is_blank. intros [H|H]%orb_true_iff; apply Ascii.eqb_eq in H; by subst.
Qed.

Lemma is_blank_not_line_terminator (c : ascii) :
  is_blank c = true -> not_line_terminator c = true.
Proof.
  unfold is_blank. intros [H|H]%orb_true_iff; apply Ascii.eqb_eq in H; by subst.
Qed.

Lemma is_tone_chars (c : ascii) :
  is_tone c = true ->
  is_space c = false /\ not_line_terminator c = true /\ c <> "="%char.
Proof.
  destruct c as [[] [] [] [] [] [] [] []]; vm_compute; intros H;
    first [discriminate | by repeat split].
Qed.

Lemma is_digit_chars (c : ascii) :
  is_digit c = true ->
  is_space c = false /\ not_line_terminator c = true /\ c <> "="%char
  /\ c <> "-"%char /\ c <> "+"%char.
Proof.
  destruct c as [[] [] [] [] [] [] [] []]; vm_compute; intros H;
    first [discriminate | by repeat split].
Qed.

Lemma string_forall_app (p : ascii -> bool) (s t : string) :
  string_forall p (s ++ t) = string_forall p s && string_forall p t.
Proof.
  induction s as [|c s IH]; simpl; [done|]. by rewrite IH, andb_assoc.
Qed.

Lemma string_forall_impl (p q : ascii -> bool) (s : string) :
  (forall c, p c = true -> q c = true) ->
  string_forall p s = true -> string_forall q s = true.
Proof.
  intros Hpq. induction s as [|c s IH]; simpl; [done|].
  intros [Hc Hs]%andb_true_iff. rewrite (Hpq c Hc). by apply IH.
Qed.

Lemma drop_spaces_blanks (sp rest : string) :
  string_forall is_blank sp = true ->
  drop_spaces (sp ++ rest) = drop_spaces rest.
Proof.
  induction sp as [|c sp IH]; simpl; [done|].
  intros [Hc Hs]%andb_true_iff. rewrite (is_blank_is_space c Hc). by apply IH.
Qed.

Lemma drop_space_blank (sp : string) (c : ascii) (rest : string) :
  string_forall is_blank sp = true ->
  (String.length sp <= 1)%nat ->
  is_space c = false ->
  drop_space (sp ++ String c rest) = String c rest.
Proof.
  intros Hsp Hlen Hc. destruct sp as [|b [|? ?]]; simpl in *; [by rewrite Hc| |lia].
  apply andb_true_iff in Hsp as [Hb _]. by rewrite (is_blank_is_space b Hb).
Qed.

Lemma drop_line_one_line (s : string) :
  string_forall not_line_terminator s = true -> drop_line s = EmptyString.
Proof.
  induction s as [|c s IH]; simpl; [done|].
  intros [Hc Hs]%andb_true_iff. unfold not_line_terminator in Hc.
  apply negb_true_iff in Hc. rewrite Hc. by apply IH.
Qed.

Lemma drop_space_one_line (s : string) :
  string_forall not_line_terminator s = true ->
  string_forall not_line_terminator (drop_space s) = true.
Proof.
  destruct s as [|c s]; simpl; [done|].
  intros [Hc Hs]%andb_true_iff. destruct (is_space c); [done|].
  simpl. by rewrite Hc.
Qed.

Lemma take_digits_app (k : nat) (ds rest : string) :
  string_forall is_digit ds = true ->
  (String.length ds <= k)%nat ->
  String.length ds = k \/ no_digit_ahead rest = true ->
  take_digits k (ds ++ rest) = (ds, rest).
Proof.
  revert k. induction ds as [|c ds IH]; intros k Hds Hlen Hend; simpl in *.
  - destruct k as [|k]; [by destruct rest|].
    destruct Hend as [|Hend]; [done|].
    destruct rest as [|r rest]; [done|]. simpl in Hend.
    apply negb_true_iff in Hend. simpl. by rewrite Hend.
  - destruct k as [|k]; [lia|].
    apply andb_true_iff in Hds as [Hc Hds]. simpl. rewrite Hc.
    rewrite (IH k); [done|done|lia|]. destruct Hend as [|]; [left; lia|by right].
Qed.

Lemma split_CRLF_one_line (s : string) :
  string_forall not_line_terminator s = true -> split_CRLF s = [s].
Proof.
  induction s as [|c s IH]; [done|].
  intros [Hc Hs]%andb_true_iff. specialize (IH Hs).
  cbn [split_CRLF]. destruct s as [|c' s]; [done|].
  rewrite IH.
  replace (Ascii.eqb c "013") with false; [done|].
  symmetry. apply Ascii.eqb_neq. intros ->. discriminate.
Qed.

Lemma split_CRLF_line (l0 l1 : string) :
  string_forall not_line_terminator l0 = true ->
  split_CRLF (l0 ++ String "013" (String "010" l1)) = l0 :: split_CRLF l1.
Proof.
  induction l0 as [|c l0 IH]; [done|].
  intros [Hc Hs]%andb_true_iff. specialize (IH Hs).
  change (String c l0 ++ String "013" (String "010" l1))
    with (String c (l0 ++ String "013" (String "010" l1))).
  cbn [split_CRLF].
  destruct (l0 ++ String "013" (String "010" l1)) as [|c' s] eqn:E.
  { by destruct l0. }
  rewrite IH.
  replace (Ascii.eqb c "013") with false; [done|].
  symmetry. apply Ascii.eqb_neq. intros ->. discriminate.
Qed.

Lemma append_EmptyString (s : string) : s ++ EmptyString = s.
Proof.
  induction s as [|c s IH]; [done|].
  change (String c (s ++ EmptyString) = String c s). by rewrite IH.
Qed.

Lemma reg_tone_line (sp1 sp2 : string) (c : ascii) (rest : string) :
  string_forall is_blank sp1 = true ->
  string_forall is_blank sp2 = true ->
  is_tone c = true ->
  string_forall not_line_terminator rest = true ->
  reg_tone ("Signal" ++ sp1 ++ "=" ++ sp2 ++ String c rest) = Some (c, EmptyString).
Proof.
  intros H1 H2 Hc Hrest. destruct (is_tone_chars c Hc) as (Hsp & _ & _).
  unfold reg_tone.
  change (strip_prefix "Signal" ("Signal" ++ sp1 ++ "=" ++ sp2 ++ String c rest))
    with (Some (sp1 ++ "=" ++ sp2 ++ String c rest)).
  cbv beta iota. rewrite (drop_spaces_blanks sp1) by done.
  change (drop_spaces ("=" ++ sp2 ++ String c rest))
    with (String "="%char (sp2 ++ String c rest)).
  cbv beta iota. rewrite (drop_spaces_blanks sp2) by done.
  cbn [drop_spaces]. rewrite Hsp, Hc.
  by rewrite drop_line_one_line by (by apply drop_space_one_line).
Qed.

Lemma reg_duration_line (sp3 sp4 ds rest : string) :
  string_forall is_blank sp3 = true -> (String.length sp3 <= 1)%nat ->
  string_forall is_blank sp4 = true -> (String.length sp4 <= 1)%nat ->
  string_forall is_digit ds = true ->
  (1 <= String.length ds <= 4)%nat ->
  String.length ds = 4%nat \/ no_digit_ahead rest = true ->
  string_forall not_line_terminator rest = true ->
  reg_duration ("Duration" ++ sp3 ++ "=" ++ sp4 ++ ds ++ rest) = Some (ds, EmptyString).
Proof.
  intros H3 L3 H4 L4 Hds Hlen Hend Hrest.
  destruct ds as [|d ds]; [simpl in Hlen; lia|].
  pose proof Hds as [Hd _]%andb_true_iff.
  destruct (is_digit_chars d Hd) as (Hsp & _).
  unfold reg_duration.
  change (strip_prefix "Duration" ("Duration" ++ sp3 ++ "=" ++ sp4 ++ String d ds ++ rest))
    with (Some (sp3 ++ String "="%char (sp4 ++ String d (ds ++ rest)))).
  cbv beta iota. rewrite (drop_space_blank sp3) by done.
  rewrite (drop_space_blank sp4) by done.
  change (String d (ds ++ rest)) with (String d ds ++ rest).
  rewrite (take_digits_app 4 (String d ds) rest) by (done || lia).
  by rewrite drop_line_one_line by (by apply drop_space_one_line).
Qed.

Lemma parseInt_digits (ds : string) :
  string_forall is_digit ds = true ->
  (1 <= String.length ds)%nat ->
  parseInt ds = Some (digits_value 0 ds).
Proof.
  intros Hds Hlen. destruct ds as [|d ds]; [simpl in Hlen; lia|].
  pose proof Hds as [Hd _]%andb_true_iff.
  destruct (is_digit_chars d Hd) as (Hsp & _ & _ & Hminus & Hplus).
  unfold parseInt. cbn [drop_spaces]. rewrite Hsp.
  destruct (Ascii.eqb_spec d "-"%char) as [|_]; [done|].
  destruct (Ascii.eqb_spec d "+"%char) as [|_]; [done|].
  assert (Hsign : (match String d ds with
                   | String "-"%char s' => (true, s')
                   | String "+"%char s' => (false, s')
                   | _ => (false, String d ds)
                   end) = (false, String d ds)).
  { destruct d as [[] [] [] [] [] [] [] []]; try reflexivity; done. }
  rewrite Hsign. by rewrite Hd.
Qed.

(** X30: [init_incoming] answers 200 before it looks at the body, and
    reads a body of two lines, a Signal line and a Duration line.  The
    Signal line may have spaces and tabs around the [=], one tone
    character after it, and anything after that on the line; the Duration
    line may have one space or tab on either side of the [=], one to four
    digits after it, and then anything that leaves the number as it is.
    The tone is the one character, the duration is the number the digits
    write, whatever the two fields were before, and [newDTMF] is emitted
    for the session unless the number is 0, in which case the INFO is
    dropped after it has been answered. *)
Theorem init_incoming_reads_signal_and_duration
    (sp1 sp2 sp3 sp4 rest0 ds rest1 : string) (c : ascii) (s : Session) :
  string_forall is_blank sp1 = true ->
  string_forall is_blank sp2 = true ->
  is_tone c = true ->
  string_forall not_line_terminator rest0 = true ->
  string_forall is_blank sp3 = true -> (String.length sp3 <= 1)%nat ->
  string_forall is_blank sp4 = true -> (String.length sp4 <= 1)%nat ->
  string_forall is_digit ds = true ->
  (1 <= String.length ds <= 4)%nat ->
  String.length ds = 4%nat \/ no_digit_ahead rest1 = true ->
  string_forall not_line_terminator rest1 = true ->
  DTMF_init_incoming
    (Some (("Signal" ++ sp1 ++ "=" ++ sp2 ++ String c rest0)
           ++ String "013" (String "010"
                ("Duration" ++ sp3 ++ "=" ++ sp4 ++ ds ++ rest1)))) s
  = (returned tt,
     {| dtmf := {| dtmf_direction := Some "incoming";
                   dtmf_tone := Some (String c EmptyString);
                   dtmf_duration := duration_number (digits_value 0 ds);
                   dtmf_interToneGap := dtmf_interToneGap (dtmf s);
                   dtmf_dtmfSender := dtmf_dtmfSender (dtmf s);
                   dtmf_request := true |};
        session_status := session_status s;
        dtmf_calls :=
          if (digits_value 0 ds =? 0)%Z
          then request_reply 200 :: dtmf_calls s
          else session_emit_newDTMF "remote" :: request_reply 200 :: dtmf_calls s |}).
Proof.
  intros H1 H2 Hc Hrest0 H3 L3 H4 L4 Hds Hlen Hend Hrest1.
  pose proof (reg_tone_line sp1 sp2 c rest0 H1 H2 Hc Hrest0) as Htone.
  pose proof (reg_duration_line sp3 sp4 ds rest1 H3 L3 H4 L4 Hds Hlen Hend Hrest1) as Hdur.
  assert (Hline0 : string_forall not_line_terminator
                     ("Signal" ++ sp1 ++ "=" ++ sp2 ++ String c rest0) = true).
  { destruct (is_tone_chars c Hc) as (_ & Hnl & _).
    rewrite !string_forall_app. simpl. rewrite Hnl, Hrest0.
    by rewrite !(string_forall_impl _ _ _ is_blank_not_line_terminator). }
  assert (Hline1 : string_forall not_line_terminator
                     ("Duration" ++ sp3 ++ "=" ++ sp4 ++ ds ++ rest1) = true).
  { rewrite !string_forall_app. simpl. rewrite Hrest1.
    rewrite !(string_forall_impl _ _ _ is_blank_not_line_terminator) by done.
    by rewrite (string_forall_impl is_digit not_line_terminator)
      by (done || intros ? ?; by apply is_digit_chars). }
  pose proof (split_CRLF_line _ ("Duration" ++ sp3 ++ "=" ++ sp4 ++ ds ++ rest1) Hline0)
    as Hsplit.
  rewrite (split_CRLF_one_line _ Hline1) in Hsplit.
  set (line0 := "Signal" ++ sp1 ++ "=" ++ sp2 ++ String c rest0) in *.
  set (line1 := "Duration" ++ sp3 ++ "=" ++ sp4 ++ ds ++ rest1) in *.
  assert (Hbody : exists a b, line0 ++ String "013" (String "010" line1) = String a b)
    by (subst line0; simpl; eauto).
  destruct Hbody as (a & b & Hbody). rewrite Hbody in *.
  unfold DTMF_init_incoming. rewrite Hsplit, Htone, Hdur, append_EmptyString.
  rewrite parseInt_digits by (done || lia).
  d_unfold. simpl. by destruct (digits_value 0 ds =? 0)%Z.
Qed.

Lemma init_incoming_reads_signal_and_duration_witness :
  exists s s',
    DTMF_new example_STATUS_CONFIRMED false false = (returned tt, s) /\
    DTMF_init_incoming
      (Some ("Signal= 5" ++ String "013" (String "010" "Duration= 160"))) s
      = (returned tt, s') /\
    dtmf_tone (dtmf s') = Some "5" /\
    dtmf_duration (dtmf s') = duration_number 160 /\
    dtmf_calls s' = [session_emit_newDTMF "remote"; request_reply 200].
Proof.
  eexists _, _. split; [reflexivity|].
  rewrite (init_incoming_reads_signal_and_duration
             "" " " "" " " "" "160" "" "5"%char _
             eq_refl eq_refl eq_refl eq_refl eq_refl ltac:(simpl; lia)
             eq_refl ltac:(simpl; lia) eq_refl ltac:(simpl; lia)
             (or_intror eq_refl) eq_refl).
  repeat split.
Defined.
